(** * ENA / MGnify to Darwin Core mapping: a shallow embedding

    The development follows the three Python sources:
    - [mappings.py]  : [Mappings.parse_tax_string], [add_occurrence],
      [split_relative_absolute_counts], [enforce_schema_order],
      [parse_ena], [parse_mgnify], [add_basis_of_record],
      [template_dataframe];
    - [utils.py]     : [Utils.download_file], [Utils.clean_text];
    - [example_1.py] : the collection of TSV resources and the file
      selector ([filtered_tsv_files]), the field enricher
      ([count_relative], [annotation_name]) and the batch loop.

    Python values are embedded as follows.  A [str] is a [string] whose
    characters are the code points below 256; a dict with string keys is a
    [gmap string _]; a raised exception is the [Raise] branch of [result];
    objects that are mutated in place (DataFrames, the file system) live in
    an explicit store threaded by a state-and-exception monad.  What the
    interpreter or a library leaves open (the rendering of a float, the
    iteration order of a set, the dtypes of a frame, the digest of a URL,
    the answer of the network) is a parameter. *)

From Stdlib Require Import ZArith List Ascii String Bool Lia SpecFloat.
From Stdlib Require Import DecimalString.
From stdpp Require Import base option list gmap strings fin_maps fin_sets.

(** ** Exceptions and the [result] monad *)

Inductive exn :=
  | KeyError (key : string)
  | IndexError
  | ValueError
  | FileNotFoundError (msg : string)
  | IsADirectoryError (path : string)
  | FileExistsError (path : string)
  | RequestException (msg : string).

Inductive result (A : Type) :=
  | Ok (a : A)
  | Raise (e : exn).
Arguments Ok {A} a.
Arguments Raise {A} e.

#[global] Instance result_ret : MRet result := fun _ a => Ok a.
#[global] Instance result_bind : MBind result := fun _ _ f m =>
  match m with Ok a => f a | Raise e => Raise e end.

Fixpoint foldM {A B} (f : B -> A -> result B) (b : B) (l : list A) : result B :=
  match l with
  | [] => Ok b
  | a :: l' => b' ← f b a; foldM f b' l'
  end.

(** ** Python strings *)

Module Str.

(** [str.isspace] on the code points below 256. *)
Definition is_space (c : ascii) : bool :=
  let n := N_of_ascii c in
  ((9 <=? n) && (n <=? 13) || (28 <=? n) && (n <=? 32)
   || (n =? 133) || (n =? 160))%N.

(** [str.lower] on one code point below 256: A-Z and the accented
    capitals 192-222 except the multiplication sign 215. *)
Definition lower_char (c : ascii) : ascii :=
  let n := N_of_ascii c in
  if ((65 <=? n) && (n <=? 90)
      || (192 <=? n) && (n <=? 222) && negb (n =? 215))%N
  then ascii_of_N (n + 32) else c.

Fixpoint lower (s : string) : string :=
  match s with
  | EmptyString => EmptyString
  | String c s' => String (lower_char c) (lower s')
  end.

Definition eqb (s t : string) : bool := bool_decide (s = t).

(** [s.startswith(p)], returning the rest of [s] after [p]. *)
Fixpoint strip_prefix (p s : string) : option string :=
  match p, s with
  | EmptyString, _ => Some s
  | String a p', String b s' =>
      if bool_decide (a = b) then strip_prefix p' s' else None
  | String _ _, EmptyString => None
  end.

(** [s.endswith(suf)]: some tail of [s] is [suf]. *)
Fixpoint endswith (s suf : string) : bool :=
  eqb s suf ||
  match s with
  | EmptyString => false
  | String _ s' => endswith s' suf
  end.

(** [s.split(sep)] for a one-character separator. *)
Fixpoint split (sep : ascii) (s : string) : list string :=
  match s with
  | EmptyString => [EmptyString]
  | String c s' =>
      if bool_decide (c = sep) then EmptyString :: split sep s'
      else match split sep s' with
           | h :: t => String c h :: t
           | [] => [String c EmptyString]
           end
  end.

(** [s.split(sep, 1)] when [sep in s]: the text before and after the
    leftmost occurrence of [sep]; [None] when [sep not in s]. *)
Fixpoint split_once (sep s : string) : option (string * string) :=
  match strip_prefix sep s with
  | Some rest => Some (EmptyString, rest)
  | None =>
      match s with
      | EmptyString => None
      | String c s' =>
          match split_once sep s' with
          | Some (a, b) => Some (String c a, b)
          | None => None
          end
      end
  end.

Definition contains (sep s : string) : bool :=
  bool_decide (is_Some (split_once sep s)).

Fixpoint lstrip (s : string) : string :=
  match s with
  | EmptyString => EmptyString
  | String c s' => if is_space c then lstrip s' else s
  end.

Fixpoint rstrip (s : string) : string :=
  match s with
  | EmptyString => EmptyString
  | String c s' =>
      let r := rstrip s' in
      if is_space c && eqb r EmptyString then EmptyString else String c r
  end.

(** [s.strip()] *)
Definition strip (s : string) : string := rstrip (lstrip s).

(** [s.replace(a, b)] for one-character [a] and [b]. *)
Fixpoint replace (a b : ascii) (s : string) : string :=
  match s with
  | EmptyString => EmptyString
  | String c s' => String (if bool_decide (c = a) then b else c) (replace a b s')
  end.

(** The slice [s[n:]]. *)
Fixpoint drop (n : nat) (s : string) : string :=
  match n, s with
  | O, _ => s
  | S n', String _ s' => drop n' s'
  | S _, EmptyString => EmptyString
  end.

(** [sep.join(l)] *)
Fixpoint join (sep : string) (l : list string) : string :=
  match l with
  | [] => EmptyString
  | [x] => x
  | x :: l' => x +:+ sep +:+ join sep l'
  end.

(** Python truthiness of a [str]. *)
Definition truthy (s : string) : bool := negb (eqb s EmptyString).

(** The number of occurrences of a character. *)
Fixpoint count (c : ascii) (s : string) : nat :=
  match s with
  | EmptyString => 0
  | String x s' => (if bool_decide (x = c) then 1 else 0) + count c s'
  end.

(** A character that [lower] leaves alone and that is the image of no
    other character. *)
Definition caseless (c : ascii) : Prop :=
  forall x, lower_char x = c <-> x = c.

(** The text of [join sep (P ++ x :: S)] before and after [x]. *)
Fixpoint join_before (sep : string) (l : list string) : string :=
  match l with
  | [] => EmptyString
  | x :: l' => x +:+ sep +:+ join_before sep l'
  end.

Fixpoint join_after (sep : string) (l : list string) : string :=
  match l with
  | [] => EmptyString
  | x :: l' => sep +:+ x +:+ join_after sep l'
  end.

Fixpoint total_length (sep : string) (l : list string) : nat :=
  match l with
  | [] => 0
  | x :: l' => String.length x + String.length sep + total_length sep l'
  end.

End Str.

(** [x[-1]] on a list. *)
Definition list_last {A} (l : list A) : result A :=
  match last l with
  | Some x => Ok x
  | None => Raise IndexError
  end.

(** [x[i]] on a list, for a non-negative index. *)
Definition list_getitem {A} (l : list A) (i : nat) : result A :=
  match l !! i with
  | Some x => Ok x
  | None => Raise IndexError
  end.

(** [a, b = s.split(sep, 1)]: the unpacking fails when [sep] is not in [s]. *)
Definition unpack2 {A} (o : option A) : result A :=
  match o with
  | Some x => Ok x
  | None => Raise ValueError
  end.

(** [d[k]] on a dict. *)
Definition dict_getitem {V} (d : gmap string V) (k : string) : result V :=
  match d !! k with
  | Some v => Ok v
  | None => Raise (KeyError k)
  end.

(** ** Python values held in table cells and passed to the parser *)

Inductive pyval :=
  | PyNone
  | PyStr (s : string)
  | PyInt (z : Z)
  | PyFloat (f : spec_float).

#[global] Instance pyval_eq_dec : EqDecision pyval.
Proof. unfold EqDecision, Decision. repeat decide equality. Defined.

(** [isinstance(v, str)] *)
Definition is_str (v : pyval) : bool :=
  match v with PyStr _ => true | _ => false end.

(** [bool(v)] *)
Definition truthy (v : pyval) : bool :=
  match v with
  | PyNone => false
  | PyStr s => Str.truthy s
  | PyInt z => negb (Z.eqb z 0)
  | PyFloat (S754_zero _) => false
  | PyFloat _ => true
  end.

(** pandas' [isna]: [None] and NaN. *)
Definition isna (v : pyval) : bool :=
  match v with
  | PyNone | PyFloat S754_nan => true
  | _ => false
  end.

(** ** [Mappings.parse_tax_string] *)

Module Taxonomy.

Definition prefix_map : gmap string string :=
  list_to_map
    [("sk", "domain"); ("k", "kingdom"); ("p", "phylum"); ("c", "class");
     ("o", "order"); ("f", "family"); ("g", "genus");
     ("s", "specificEpithet")].

Definition dwc_init : gmap string pyval :=
  list_to_map
    [("taxonRank", PyNone); ("domain", PyNone); ("kingdom", PyNone);
     ("phylum", PyNone); ("order", PyNone); ("class", PyNone);
     ("family", PyNone); ("genus", PyNone); ("specificEpithet", PyNone)].

(** One iteration of [for part in tax_string.split(";")]. *)
Definition parse_part (dwc : gmap string pyval) (part : string)
  : result (gmap string pyval) :=
  if negb (Str.contains "__" part) then Ok dwc
  else
    '(prefix, value) ← unpack2 (Str.split_once "__" part);
    let value := Str.strip value in
    if negb (Str.truthy value)
       || negb (bool_decide (is_Some (prefix_map !! prefix)))
    then Ok dwc
    else
      field ← dict_getitem prefix_map prefix;
      Ok (<[field := PyStr value]> dwc).

Definition parse_fields (tax_string : string) : result (gmap string pyval) :=
  foldM parse_part dwc_init (Str.split ";" tax_string).

(** The [if dwc["genus"]: ... elif ...] chain. *)
Definition infer_rank (dwc : gmap string pyval) : result (gmap string pyval) :=
  g ← dict_getitem dwc "genus";
  if truthy g then Ok (<["taxonRank" := PyStr "genus"]> dwc) else
  f ← dict_getitem dwc "family";
  if truthy f then Ok (<["taxonRank" := PyStr "family"]> dwc) else
  o ← dict_getitem dwc "order";
  if truthy o then Ok (<["taxonRank" := PyStr "order"]> dwc) else
  c ← dict_getitem dwc "class";
  if truthy c then Ok (<["taxonRank" := PyStr "class"]> dwc) else
  p ← dict_getitem dwc "phylum";
  if truthy p then Ok (<["taxonRank" := PyStr "phylum"]> dwc) else
  k ← dict_getitem dwc "kingdom";
  if truthy k then Ok (<["taxonRank" := PyStr "kingdom"]> dwc) else
  d ← dict_getitem dwc "domain";
  if truthy d then Ok (<["taxonRank" := PyStr "domain"]> dwc) else
  Ok dwc.

Definition parse_tax_string (tax_string : pyval) : result (gmap string pyval) :=
  match tax_string with
  | PyStr s => dwc ← parse_fields s; infer_rank dwc
  | _ => Ok dwc_init
  end.

(** The rank rule in the words of the specification: the ranks are
    checked from the deepest to the shallowest and the first populated
    one is the rank. *)
Definition rank_order : list string :=
  ["genus"; "family"; "order"; "class"; "phylum"; "kingdom"; "domain"].

Definition populated (d : gmap string pyval) (k : string) : bool :=
  match d !! k with
  | Some (PyStr s) => negb (Str.eqb s "")
  | _ => false
  end.

Definition first_populated (d : gmap string pyval) : pyval :=
  match List.find (populated d) rank_order with
  | Some k => PyStr k
  | None => PyNone
  end.

Definition all_keys : list string :=
  ["taxonRank"; "domain"; "kingdom"; "phylum"; "order"; "class";
   "family"; "genus"; "specificEpithet"].

(** A field is unset or holds a non-empty string. *)
Definition clean (v : pyval) : Prop :=
  v = PyNone \/ exists s, v = PyStr s /\ s <> "".

(** The dict during and after the loop over the segments: every key is
    present, the fields are clean and the rank is not yet set. *)
Definition parsed (d : gmap string pyval) : Prop :=
  d !! "taxonRank" = Some PyNone /\
  forall k, k ∈ all_keys -> exists v, d !! k = Some v /\ clean v.

End Taxonomy.

(** ** The store: a state-and-exception monad

    Python objects that are mutated in place are kept in a store; a
    computation takes the store and returns a value or a raised exception
    together with the store it leaves behind (effects made before an
    exception is raised persist). *)

Definition M (S A : Type) : Type := S -> result A * S.

#[global] Instance M_ret {S} : MRet (M S) := fun _ a s => (Ok a, s).
#[global] Instance M_bind {S} : MBind (M S) := fun _ _ f m s =>
  match m s with
  | (Ok a, s') => f a s'
  | (Raise e, s') => (Raise e, s')
  end.

Definition lift {S A} (r : result A) : M S A := fun s => (r, s).
Definition gets {S A} (f : S -> A) : M S A := fun s => (Ok (f s), s).
Definition modify {S} (f : S -> S) : M S unit := fun s => (Ok tt, f s).

(** [try: m] with the outcome handed to the handlers as a value. *)
Definition try_ {S A} (m : M S A) : M S (result A) :=
  fun s => let '(r, s') := m s in (Ok r, s').

(** [for a in l: b = f(b, a)] *)
Fixpoint for_each {S A B} (f : B -> A -> M S B) (b : B) (l : list A) : M S B :=
  match l with
  | [] => mret b
  | a :: l' => b' ← f b a; for_each f b' l'
  end.

(** ** DataFrames *)

Module Frame.

(** A frame has a row index of [df_len] rows and an ordered list of named
    columns.  Column names are unique and every column has one cell per
    row ([wf]); pandas frames with repeated column names are outside the
    model. *)
Record DataFrame := mkDF {
  df_len : nat;
  df_cols : list (string * list pyval)
}.

Definition columns (d : DataFrame) : list string := map fst (df_cols d).

Definition wf (d : DataFrame) : Prop :=
  NoDup (columns d) /\ Forall (fun kv => length (snd kv) = df_len d) (df_cols d).

Fixpoint assoc_get {V} (k : string) (l : list (string * V)) : option V :=
  match l with
  | [] => None
  | (k', v) :: l' => if bool_decide (k = k') then Some v else assoc_get k l'
  end.

(** Assignment keeps the position of an existing key and appends a new one. *)
Fixpoint assoc_set {V} (k : string) (v : V) (l : list (string * V))
  : list (string * V) :=
  match l with
  | [] => [(k, v)]
  | (k', v') :: l' =>
      if bool_decide (k = k') then (k, v) :: l' else (k', v') :: assoc_set k v l'
  end.

(** [df[c]] on a frame value *)
Definition get (d : DataFrame) (c : string) : result (list pyval) :=
  match assoc_get c (df_cols d) with
  | Some v => Ok v
  | None => Raise (KeyError c)
  end.

(** [df[c] = series] *)
Definition set (d : DataFrame) (c : string) (v : list pyval) : DataFrame :=
  mkDF (df_len d) (assoc_set c v (df_cols d)).

(** [df[c] = scalar]: the scalar is broadcast over the row index. *)
Definition set_scalar (d : DataFrame) (c : string) (v : pyval) : DataFrame :=
  set d c (replicate (df_len d) v).

Fixpoint project_cols (d : DataFrame) (names : list string)
  : result (list (string * list pyval)) :=
  match names with
  | [] => Ok []
  | c :: names' =>
      v ← get d c;
      rest ← project_cols d names';
      Ok ((c, v) :: rest)
  end.

(** [df[names]] on a frame value: exactly the named columns, in the
    order of [names]; [KeyError] when one is absent (the error carries
    the first absent name, where the message of pandas lists them all). *)
Definition project (d : DataFrame) (names : list string) : result DataFrame :=
  cols ← project_cols d names; Ok (mkDF (df_len d) cols).

(** The cell of column [c] in row [i]. *)
Definition cell (d : DataFrame) (c : string) (i : nat) : option pyval :=
  match assoc_get c (df_cols d) with
  | Some v => v !! i
  | None => None
  end.

(** The row [i] of a frame, as the list of its cells in column order. *)
Definition row (d : DataFrame) (i : nat) : list pyval :=
  map (fun kv => default PyNone (snd kv !! i)) (df_cols d).

(** *** Frames as objects in the store *)

Definition loc := nat.

Record world := mkWorld {
  heap : gmap loc DataFrame;
  stdout : list string
}.

Definition print (line : string) : M world unit :=
  modify (fun w => mkWorld (heap w) (stdout w ++ [line])).

(** Reading through a reference.  [KeyError] on a reference outside the
    store is an artefact of the model: the operations below only hand
    out references they have allocated. *)
Definition read (l : loc) : M world DataFrame :=
  fun w => match heap w !! l with
           | Some d => (Ok d, w)
           | None => (Raise (KeyError "<dangling reference>"), w)
           end.

Definition write (l : loc) (d : DataFrame) : M world unit :=
  modify (fun w => mkWorld (<[l := d]> (heap w)) (stdout w)).

Definition new (d : DataFrame) : M world loc :=
  fun w => let l := fresh (dom (heap w)) in
           (Ok l, mkWorld (<[l := d]> (heap w)) (stdout w)).

(** [df.copy()] *)
Definition copy (l : loc) : M world loc := d ← read l; new d.

(** [df[c]] *)
Definition getitem (l : loc) (c : string) : M world (list pyval) :=
  d ← read l; lift (get d c).

(** [df[c] = series] *)
Definition setitem (l : loc) (c : string) (v : list pyval) : M world unit :=
  d ← read l; write l (set d c v).

(** [df[c] = scalar] *)
Definition setitem_scalar (l : loc) (c : string) (v : pyval) : M world unit :=
  d ← read l; write l (set_scalar d c v).

(** [df[names]]: a new frame object *)
Definition getitem_list (l : loc) (names : list string) : M world loc :=
  d ← read l; p ← lift (project d names); new p.

End Frame.

(** ** [Mappings.split_relative_absolute_counts] *)

Module Split.
Import Frame.

Definition split_relative_absolute_counts (df : loc)
  : M world (list (string * loc)) :=
  let absolute_df := df in
  relative_df ← copy df;
  v ← getitem absolute_df "count_absolute";
  _ ← setitem absolute_df "measurementValue" v;
  _ ← setitem_scalar absolute_df "measurementUnit" (PyStr "#");
  _ ← setitem_scalar absolute_df "measurementType" (PyStr "absolute count");
  v ← getitem relative_df "count_relative";
  _ ← setitem relative_df "measurementValue" v;
  _ ← setitem_scalar relative_df "measurementUnit" (PyStr "%");
  _ ← setitem_scalar relative_df "measurementType" (PyStr "relative count");
  mret [("absolute", absolute_df); ("relative", relative_df)].

Definition measurement_columns : list string :=
  ["measurementValue"; "measurementUnit"; "measurementType"].

(** The two variants as frames. *)
Definition absolute_of (d : DataFrame) (ca : list pyval) : DataFrame :=
  set_scalar (set_scalar (set d "measurementValue" ca)
                         "measurementUnit" (PyStr "#"))
             "measurementType" (PyStr "absolute count").

Definition relative_of (d : DataFrame) (cr : list pyval) : DataFrame :=
  set_scalar (set_scalar (set d "measurementValue" cr)
                         "measurementUnit" (PyStr "%"))
             "measurementType" (PyStr "relative count").

End Split.

(** ** [Mappings.FINAL_DWC_SCHEMA] and [Mappings.enforce_schema_order] *)

Module Schema.
Import Frame.

Definition FINAL_DWC_SCHEMA : list string :=
  ["collectionID"; "datasetID"; "basisOfRecord"; "associatedSequences";
   "materialSampleID"; "eventDate"; "year"; "month"; "day";
   "decimalLatitude"; "decimalLongitude"; "verbatimDepth";
   "measurementID"; "measurementMethod"; "measurementType";
   "measurementUnit"; "measurementValue"; "scientificNameID";
   "scientificName"; "taxonRank"; "higherClassification"; "domain";
   "kingdom"; "phylum"; "order"; "class"; "family"; "genus";
   "specificEpithet"; "occurrenceStatus"; "occurrenceID"].

(** [repr] of a list of plain strings, as an f-string prints it. *)
Definition repr_list (l : list string) : string :=
  "[" +:+ Str.join ", " (map (fun s => "'" +:+ s +:+ "'") l) +:+ "]".

Definition warning (missing : list string) : string :=
  "Warning: Adding missing DwC columns: " +:+ repr_list missing.

(** An iteration order of sets of strings: every element once. *)
Definition set_order (list_of_set : gset string -> list string) : Prop :=
  forall X, list_of_set X ≡ₚ elements X.

Section WithSetOrder.

(** [list(s)] on a set [s] of strings.  The order in which Python
    iterates over a set follows the hashes of the strings, which differ
    from one run of the interpreter to the next, so the order is a
    parameter of the model; [set_order] is all that is known of it. *)
Variable list_of_set : gset string -> list string.

(** [list(set(FINAL_DWC_SCHEMA) - set(df.columns))] *)
Definition missing_cols (d : DataFrame) : list string :=
  list_of_set ((list_to_set FINAL_DWC_SCHEMA : gset string)
                 ∖ list_to_set (columns d)).

Definition enforce_schema_order (df : loc) : M world loc :=
  d ← read df;
  let missing := missing_cols d in
  _ ← (if bool_decide (missing = []) then mret tt
       else
         _ ← print (warning missing);
         for_each (fun _ col => setitem_scalar df col PyNone) tt missing);
  getitem_list df FINAL_DWC_SCHEMA.

End WithSetOrder.

(** The schema columns that a frame lacks, in schema order. *)
Definition absent (d : DataFrame) : list string :=
  filter (fun c => c ∉ columns d) FINAL_DWC_SCHEMA.

(** The frame after [df[col] = None] for every [col] of [ms]. *)
Definition fill (ms : list string) (d : DataFrame) : DataFrame :=
  fold_left (fun d col => set_scalar d col PyNone) ms d.

End Schema.

(** ** The field enricher of [example_1.py] *)

Module Enricher.

Local Open Scope Z_scope.

(** IEEE 754 binary64 *)
Definition prec : Z := 53.
Definition emax : Z := 1024.

(** An [int64] converted to [float64] (round to nearest, ties to even). *)
Definition float64_of_int (z : Z) : spec_float :=
  binary_normalize prec emax z 0 false.

Definition fdiv : spec_float -> spec_float -> spec_float := SFdiv prec emax.
Definition fmul : spec_float -> spec_float -> spec_float := SFmul prec emax.
Definition fadd : spec_float -> spec_float -> spec_float := SFadd prec emax.

(** Two's complement wrap-around of [int64] arithmetic. *)
Definition wrap64 (z : Z) : Z := (z + 2 ^ 63) mod 2 ^ 64 - 2 ^ 63.

(** [df["abs_count"].sum()] on an [int64] column. *)
Definition series_sum (l : list Z) : Z :=
  fold_left (fun acc c => wrap64 (acc + c)) l 0.

(** [df["abs_count"] / df["abs_count"].sum() * 100]: true division of
    an [int64] column by an [int64] scalar converts both to [float64]. *)
Definition count_relative (abs_count : list Z) : list spec_float :=
  let total := series_sum abs_count in
  map (fun c => fmul (fdiv (float64_of_int c) (float64_of_int total))
                     (float64_of_int 100))
      abs_count.

(** The sum of a short [float64] column without missing values, added
    from left to right, as a check of the percentages would take it (the
    program itself does not sum them). *)
Definition float_sum (l : list spec_float) : spec_float :=
  fold_left fadd l (S754_zero false).

(** The [annotation_name] of one lineage string:
    [.str.split(";")], then [lambda x: x[-1][3:] if len(x) > 0 else ""],
    then [.str.replace("_", " ")]. *)
Definition annotation_name (taxonomy : string) : result string :=
  let x := Str.split ";" taxonomy in
  name ← (if (0 <? length x)%nat
          then seg ← list_last x; Ok (Str.drop 3 seg)
          else Ok "");
  Ok (Str.replace "_" " " name).

(** The sum of a column of counts as a number, without wrap-around. *)
Definition exact_sum (l : list Z) : Z := fold_right Z.add 0 l.

End Enricher.

(** ** [Mappings.add_occurrence] *)

Module Occurrence.
Import Frame.

(** The dtypes of the columns that the function reads: [int64],
    [float64] and [object].  Booleans, dates and the extension dtypes
    are outside the model. *)
Inductive dtype := Int64 | Float64 | Object.

#[global] Instance dtype_eq_dec : EqDecision dtype.
Proof. solve_decision. Defined.

(** The cells that a column of a dtype holds: 64-bit integers, floats
    (a missing value is NaN), or any Python object. *)
Definition holds (t : dtype) (v : pyval) : bool :=
  match t, v with
  | Int64, PyInt z => ((- 2 ^ 63 <=? z) && (z <? 2 ^ 63))%Z
  | Float64, PyFloat _ => true
  | Object, _ => true
  | _, _ => false
  end.

(** The dtype of [df.values], in which pandas hands each row to the
    function of [apply(..., axis=1)]: [object] as soon as one column is,
    else [float64] as soon as one column is, else [int64]. *)
Definition common_dtype (ts : list dtype) : dtype :=
  if bool_decide (Object ∈ ts) then Object
  else if bool_decide (Float64 ∈ ts) then Float64
  else Int64.

(** A cell converted to the dtype of the row: an integer in a [float64]
    row becomes a float; in an [object] row every cell stays what it is. *)
Definition as_dtype (t : dtype) (v : pyval) : pyval :=
  match t, v with
  | Float64, PyInt z => PyFloat (Enricher.float64_of_int z)
  | _, _ => v
  end.

Definition sep : string := "|".

Definition id_columns : list string :=
  ["collectionID"; "datasetID"; "associatedSequences";
   "materialSampleID"; "measurementID"; "scientificNameID"].

Section WithRendering.

(** [str(x)] for a float [x] that is not NaN (Python prints the
    shortest decimal that reads back as [x], [1.0] for the float one);
    the rendering is taken as given. *)
Variable float_str : spec_float -> string.

(** The dtype that the frame holds for each of its columns. *)
Variable dtype_of : string -> dtype.

(** [str(v)], which is what [astype(str)] applies to each value of a
    row. *)
Definition py_str (v : pyval) : string :=
  match v with
  | PyNone => "None"
  | PyStr s => s
  | PyInt z => NilEmpty.string_of_int (Z.to_int z)
  | PyFloat f => float_str f
  end.

(** The id columns hold what their dtypes say. *)
Definition typed (d : DataFrame) : bool :=
  forallb (fun c => match assoc_get c (df_cols d) with
                    | Some cells => forallb (holds (dtype_of c)) cells
                    | None => true
                    end)
          id_columns.

(** [lambda row: sep.join(row.dropna().astype(str))] on the values of
    the row *)
Definition occurrence_id (row : list pyval) : string :=
  Str.join sep (map py_str (List.filter (fun v => negb (isna v)) row)).

(** The values of row [i] as [apply(..., axis=1)] hands them over: the
    cells of the row, converted to the common dtype of the columns. *)
Definition row_values (d : DataFrame) (i : nat) : list pyval :=
  map (as_dtype (common_dtype (map dtype_of (columns d)))) (row d i).

(** [df[columns].apply(f, axis=1)]: [f] on every row of the sub-frame,
    in index order. *)
Definition apply_rows (f : list pyval -> string) (d : DataFrame)
  : list pyval :=
  map (fun i => PyStr (f (row_values d i))) (seq 0 (df_len d)).

Definition add_occurrence (df : loc) : M world loc :=
  d ← read df;
  sub ← lift (project d id_columns);
  _ ← setitem df "occurrenceID" (apply_rows occurrence_id sub);
  _ ← setitem_scalar df "occurrenceStatus" (PyStr "present");
  mret df.

End WithRendering.

End Occurrence.

(** ** The file selector of [example_1.py] *)

Module Selector.

(** An entry of a study's ["included"] list: [links.self] and the
    [group-type] attribute, each possibly absent. *)
Record resource := mkResource {
  links_self : option string;
  group_type : option string
}.

#[global] Instance resource_eq_dec : EqDecision resource.
Proof. solve_decision. Defined.

(** [tsv.get("links", {}).get("self", "")] *)
Definition self_link (tsv : resource) : string := default "" (links_self tsv).

(** [os.path.basename]: the text after the last slash. *)
Definition basename (path : string) : string :=
  default "" (last (Str.split "/" path)).

(** Step 3: [[item for item in included if self_link.endswith(".tsv")]] *)
Definition tsv_items (included : list resource) : list resource :=
  List.filter (fun item => Str.endswith (self_link item) ".tsv") included.

(** The body of [for tsv in tsv_files]. *)
Definition select_step (run_accessions : gset string)
    (filtered : gmap string resource) (tsv : resource)
  : result (gmap string resource) :=
  let file := self_link tsv in
  let basename := basename file in
  if Str.endswith (Str.lower basename) "ssu_otu.tsv" then
    let nameparts := Str.split "_" basename in
    run_id ← list_getitem nameparts 0;
    part1 ← list_getitem nameparts 1;
    let is_merged := Str.eqb (Str.lower part1) "merged" in
    if bool_decide (run_id ∈ run_accessions) && is_merged
    then Ok (<[run_id := tsv]> filtered)
    else Ok filtered
  else Ok filtered.

Definition filtered_tsv_files (run_accessions : gset string)
    (tsv_files : list resource) : result (gmap string resource) :=
  foldM (select_step run_accessions) ∅ tsv_files.

(** The selection rule in the words of the specification. *)
Definition first_token (tsv : resource) : option string :=
  Str.split "_" (basename (self_link tsv)) !! 0%nat.

Definition second_token (tsv : resource) : option string :=
  Str.split "_" (basename (self_link tsv)) !! 1%nat.

Definition qualifies (run_accessions : gset string) (tsv : resource) : bool :=
  Str.endswith (Str.lower (basename (self_link tsv))) "ssu_otu.tsv"
  && bool_decide (Str.lower <$> second_token tsv = Some "merged")
  && match first_token tsv with
     | Some r => bool_decide (r ∈ run_accessions)
     | None => false
     end.

(** [t] is a case variation of [s]. *)
Definition case_variation (s t : string) : Prop := Str.lower t = Str.lower s.

Definition named (name : string) : resource :=
  mkResource (Some ("https://www.ebi.ac.uk/metagenomics/api/v1/analyses/MGYA00000001/file/" +:+ name))
             (Some "Taxonomic analysis SSU rRNA").

(** The candidates for run id [rid]: the qualifying resources whose
    first token is [rid]. *)
Definition candidate (ra : gset string) (rid : string) (tsv : resource) : bool :=
  qualifies ra tsv && bool_decide (first_token tsv = Some rid).

End Selector.

(** ** [Utils.download_file] and the batch loop of [example_1.py] *)

Module Batch.
Import Selector.

(** The file system (directories, and regular files with their text)
    and the standard output. *)
Record world := mkWorld {
  dirs : gset string;
  files : gmap string string;
  stdout : list string
}.

Record RunRecord := mkRun {
  run_accession : string;
  study_accession : string;
  secondary_study_accession : string;
  sample_accession : string;
  secondary_sample_accession : string;
  collection_date_start : string;
  lat : string;
  lon : string;
  depth : string
}.

(** One page of a study's metadata; only ["included"] is read. *)
Record page := mkPage { included : option (list resource) }.

(** [os.path.join(a, b)] on POSIX paths *)
Definition os_path_join (a b : string) : string :=
  if bool_decide (is_Some (Str.strip_prefix "/" b)) then b
  else if Str.eqb a "" then b
  else if Str.endswith a "/" then a +:+ b
  else a +:+ "/" +:+ b.

Definition os_path_exists (w : world) (p : string) : bool :=
  bool_decide (is_Some (files w !! p)) || bool_decide (p ∈ dirs w).

(** [os.makedirs(p, exist_ok=True)] *)
Definition os_makedirs (p : string) : M world unit :=
  fun w => if bool_decide (is_Some (files w !! p))
           then (Raise (FileExistsError p), w)
           else (Ok tt, mkWorld ({[p]} ∪ dirs w) (files w) (stdout w)).

(** [open(p, 'r').read()] *)
Definition read_file (p : string) : M world string :=
  fun w => match files w !! p with
           | Some text => (Ok text, w)
           | None => if bool_decide (p ∈ dirs w)
                     then (Raise (IsADirectoryError p), w)
                     else (Raise (FileNotFoundError
                                    ("[Errno 2] No such file or directory: '"
                                     +:+ p +:+ "'")), w)
           end.

(** [open(p, 'w').write(text)] *)
Definition write_file (p text : string) : M world unit :=
  fun w => if bool_decide (p ∈ dirs w)
           then (Raise (IsADirectoryError p), w)
           else (Ok tt, mkWorld (dirs w) (<[p := text]> (files w)) (stdout w)).

Definition print (line : string) : M world unit :=
  modify (fun w => mkWorld (dirs w) (files w) (stdout w ++ [line])).

Definition raise {A} (e : exn) : M world A := lift (Raise e).

(** [str(e)] of a caught exception *)
Definition exn_str (e : exn) : string :=
  match e with
  | KeyError k => "'" +:+ k +:+ "'"
  | IndexError => "list index out of range"
  | ValueError => "not enough values to unpack (expected 2, got 1)"
  | FileNotFoundError m | RequestException m => m
  | IsADirectoryError p => "[Errno 21] Is a directory: '" +:+ p +:+ "'"
  | FileExistsError p => "[Errno 17] File exists: '" +:+ p +:+ "'"
  end.

(** The world after [os.makedirs(cache_dir, exist_ok=True)] succeeded. *)
Definition with_dir (cache_dir : string) (w : world) : world :=
  mkWorld ({[cache_dir]} ∪ dirs w) (files w) (stdout w).

Definition not_found (url : string) : exn :=
  FileNotFoundError ("Cache file not found for URL: " +:+ url).

Definition str_of_nat (n : nat) : string :=
  NilEmpty.string_of_uint (Nat.to_uint n).

Definition ONLY_USE_CACHE : bool := true.

Section WithEnvironment.

(** [hashlib.md5(url.encode('utf-8')).hexdigest()] *)
Variable md5_hexdigest : string -> string.

(** [requests.get(url)] followed by [raise_for_status()]: the body of
    the response, or the exception of a failed request. *)
Variable requests_get : string -> result string.

(** Lines 167-170 and 183-224 of [example_1.py]: the analysis id and
    name, the table load, the enrichment, the mappings and the CSV
    output of one run, given the run, its resource, the resource's URL
    and the downloaded text. *)
Variable process_run : RunRecord -> resource -> string -> string -> M world unit.

Definition cache_filename (url cache_dir : string) : string :=
  os_path_join cache_dir (md5_hexdigest url +:+ ".cache").

Definition download_file (url cache_dir : string) (only_use_cache : bool)
  : M world string :=
  let cache_filename := cache_filename url cache_dir in
  cached ← (if Str.truthy cache_dir then
              _ ← os_makedirs cache_dir;
              present ← gets (fun w => os_path_exists w cache_filename);
              if present : bool
              then text ← read_file cache_filename; mret (Some text)
              else mret None
            else mret None);
  match cached with
  | Some text => mret text
  | None =>
      if only_use_cache
      then raise (FileNotFoundError ("Cache file not found for URL: " +:+ url))
      else
        text ← lift (requests_get url);
        _ ← (if Str.truthy cache_dir
             then write_file cache_filename text else mret tt);
        mret text
  end.

Definition processing_line (count done total : nat) (run : RunRecord) : string :=
  "(" +:+ str_of_nat count +:+ "/" +:+ str_of_nat done +:+ "/"
      +:+ str_of_nat total +:+ ") Processing run "
      +:+ run_accession run +:+ "...".

(** The body of [for run in ena_runs], on the counters [(count, done)]. *)
Definition run_step (all_study_metadata : gmap string (option (list page)))
    (filtered_tsv_files : gmap string resource) (total : nat)
    (st : nat * nat) (run : RunRecord) : M world (nat * nat) :=
  let '(count, done) := st in
  let count := S count in
  match mjoin (all_study_metadata !! study_accession run) with
  | None => mret (count, done)
  | Some study_metadata =>
      match filtered_tsv_files !! run_accession run with
      | None =>
          _ ← print ("No TSV file found for run " +:+ run_accession run);
          mret (count, done)
      | Some run_tsv =>
          _ ← print (processing_line count done total run);
          let run_tsv_url := self_link run_tsv in
          r ← try_ (download_file run_tsv_url "tsv_file_cache" ONLY_USE_CACHE);
          match r with
          | Raise (FileNotFoundError _) => mret (count, done)
          | Raise e =>
              _ ← print ("Error downloading TSV for run "
                         +:+ run_accession run +:+ ": " +:+ exn_str e);
              mret (count, done)
          | Ok tsv_content =>
              _ ← process_run run run_tsv run_tsv_url tsv_content;
              mret (count, S done)
          end
      end
  end.

Definition process_runs (all_study_metadata : gmap string (option (list page)))
    (filtered_tsv_files : gmap string resource)
    (ena_runs : list RunRecord) : M world (nat * nat) :=
  for_each (run_step all_study_metadata filtered_tsv_files (length ena_runs))
           (0%nat, 0%nat) ena_runs.

End WithEnvironment.

End Batch.

(** ** Step 3 of [example_1.py]: the TSV resources of all studies *)

Module Studies.
Import Selector.

(** [study_data["included"]] filtered to the links that end with
    [".tsv"]; nothing when it is [None]. *)
Definition page_tsv_files (study_data : Batch.page) : list resource :=
  match Batch.included study_data with
  | Some included => tsv_items included
  | None => []
  end.

(** The loop over [all_study_metadata.items()], in the order of the dict;
    a study whose metadata is [None] is passed over. *)
Fixpoint collect_tsv_files
    (all_study_metadata : list (string * option (list Batch.page)))
  : list resource :=
  match all_study_metadata with
  | [] => []
  | (_, None) :: rest => collect_tsv_files rest
  | (_, Some study_datas) :: rest =>
      concat (map page_tsv_files study_datas) ++ collect_tsv_files rest
  end.

(** Step 3 followed by the selector loop: [tsv_files] has no other
    producer. *)
Definition select_files (run_accessions : gset string)
    (all_study_metadata : list (string * option (list Batch.page)))
  : result (gmap string resource) :=
  filtered_tsv_files run_accessions (collect_tsv_files all_study_metadata).

End Studies.

(** ** Whitespace at the ends of a string *)

Module Space.

Definition starts_with_space (s : string) : bool :=
  match s with
  | String c _ => Str.is_space c
  | EmptyString => false
  end.

Fixpoint ends_with_space (s : string) : bool :=
  match s with
  | EmptyString => false
  | String c EmptyString => Str.is_space c
  | String _ s' => ends_with_space s'
  end.

End Space.

(** ** [Utils.clean_text] *)

Module Clean.

Definition LF : ascii := "010"%char.
Definition CR : ascii := "013"%char.

(** [re.sub(r'\s{2,}', ' ', s)]: every maximal run of two or more
    whitespace characters becomes one space; [collapse] reads outside a
    run, [skip] inside a run that was already replaced. *)
Fixpoint collapse (s : string) : string :=
  match s with
  | EmptyString => EmptyString
  | String c s' =>
      if Str.is_space c then
        match s' with
        | String c' _ =>
            if Str.is_space c' then String " " (skip s')
            else String c (collapse s')
        | EmptyString => String c EmptyString
        end
      else String c (collapse s')
  end
with skip (s : string) : string :=
  match s with
  | EmptyString => EmptyString
  | String c s' => if Str.is_space c then skip s' else String c (collapse s')
  end.

(** [re.sub(r'[\r\n]', '', s)] *)
Fixpoint remove_newlines (s : string) : string :=
  match s with
  | EmptyString => EmptyString
  | String c s' =>
      if bool_decide (c = CR) || bool_decide (c = LF) then remove_newlines s'
      else String c (remove_newlines s')
  end.

Definition clean_text (input_string : string) : string :=
  let result := collapse input_string in
  let result := remove_newlines result in
  result.

(** No two whitespace characters in a row, the character before [s]
    being whitespace or not. *)
Fixpoint spaced_after (prev_space : bool) (s : string) : bool :=
  match s with
  | EmptyString => true
  | String c s' =>
      negb (prev_space && Str.is_space c) && spaced_after (Str.is_space c) s'
  end.

Definition single_spaced (s : string) : bool := spaced_after false s.

(** The characters of [s] that are not whitespace, in order. *)
Fixpoint ink (s : string) : string :=
  match s with
  | EmptyString => EmptyString
  | String c s' => if Str.is_space c then ink s' else String c (ink s')
  end.

End Clean.

(** ** What one segment of a lineage assigns *)

Module Segments.
Import Taxonomy.

(** The field and the value that a segment assigns, if it assigns any:
    the text before the first ["__"] must be a key of [prefix_map] and the
    text after it must not strip to the empty string. *)
Definition segment_field (part : string) : option (string * string) :=
  match Str.split_once "__" part with
  | Some (prefix, value) =>
      if Str.truthy (Str.strip value)
      then match prefix_map !! prefix with
           | Some field => Some (field, Str.strip value)
           | None => None
           end
      else None
  | None => None
  end.

(** The assignments of a lineage, in the order of its segments. *)
Definition assignments (lineage : string) : list (string * string) :=
  omap segment_field (Str.split ";" lineage).

Definition assign_all (fvs : list (string * string)) (d : gmap string pyval)
  : gmap string pyval :=
  fold_left (fun d fv => <[fv.1 := PyStr fv.2]> d) fvs d.

(** The last value assigned to [field]. *)
Definition last_assigned (field : string) (fvs : list (string * string))
  : option string :=
  snd <$> last (List.filter (fun fv => bool_decide (fv.1 = field)) fvs).

End Segments.


(** ** The column mappings of [mappings.py] *)

Module Mappings.
Import Frame.

(** [Mappings.template_dataframe]: the columns of the template. *)
Definition template_columns : list string :=
  ["study_accession|secondary_study_accession"; "run_accession"; "dsi_id";
   "sample_accession|secondary_sample_accession"; "collection_date_start";
   "lat"; "long"; "depth"; "analysis_id"; "analysis_name"; "count_absolute";
   "count_relative"; "annotation_id"; "annotation_name"; "annotation_lineage"].

(** [pd.DataFrame(columns=columns)]: no row, the columns in order. *)
Definition template_dataframe : M world loc :=
  new (mkDF 0 (map (fun c => (c, [])) template_columns)).

(** [df[new] = df[old]] *)
Definition copy_column (df : loc) (new old : string) : M world unit :=
  v ← getitem df old; setitem df new v.

Definition parse_ena (df : loc) : M world loc :=
  _ ← copy_column df "collectionID" "study_accession|secondary_study_accession";
  _ ← copy_column df "datasetID" "run_accession";
  _ ← copy_column df "materialSampleID" "sample_accession|secondary_sample_accession";
  _ ← copy_column df "eventDate" "collection_date_start";
  _ ← copy_column df "decimalLatitude" "lat";
  _ ← copy_column df "decimalLongitude" "long";
  _ ← copy_column df "verbatimDepth" "depth";
  mret df.

Definition parse_mgnify (df : loc) : M world loc :=
  _ ← copy_column df "associatedSequences" "dsi_id";
  _ ← copy_column df "measurementID" "analysis_id";
  _ ← copy_column df "measurementMethod" "analysis_name";
  _ ← copy_column df "scientificNameID" "annotation_id";
  _ ← copy_column df "scientificName" "annotation_name";
  _ ← copy_column df "higherClassification" "annotation_lineage";
  mret df.

Definition add_basis_of_record (df : loc) : M world loc :=
  _ ← setitem_scalar df "basisOfRecord" (PyStr "digital sequence information");
  mret df.

(** The assignments of [parse_ena] followed by those of [parse_mgnify],
    as pairs of the column written and the column read. *)
Definition renames : list (string * string) :=
  [("collectionID", "study_accession|secondary_study_accession");
   ("datasetID", "run_accession");
   ("materialSampleID", "sample_accession|secondary_sample_accession");
   ("eventDate", "collection_date_start");
   ("decimalLatitude", "lat");
   ("decimalLongitude", "long");
   ("verbatimDepth", "depth");
   ("associatedSequences", "dsi_id");
   ("measurementID", "analysis_id");
   ("measurementMethod", "analysis_name");
   ("scientificNameID", "annotation_id");
   ("scientificName", "annotation_name");
   ("higherClassification", "annotation_lineage")].

(** The frame after the assignments [df[new] = df[old]] of [pairs]. *)
Definition renamed (pairs : list (string * string)) (d : DataFrame) : result DataFrame :=
  foldM (fun d '(new, old) => v ← get d old; Ok (set d new v)) d pairs.

End Mappings.

(** ** Sample inputs *)

Module Samples.

Definition two_rows : Frame.DataFrame :=
  Frame.mkDF 2
    [("count_absolute", [PyInt 10; PyInt 30]);
     ("count_relative", [PyFloat (Enricher.float64_of_int 25);
                         PyFloat (Enricher.float64_of_int 75)]);
     ("annotation_name", [PyStr "Bacillus"; PyStr "Vibrio"])].

Definition one_frame : Frame.world := Frame.mkWorld {[0%nat := two_rows]} [].

(** A frame of two rows that agree on five identifier columns; the
    taxon ids are left open. *)
Definition id_frame (taxid0 taxid1 : pyval) : Frame.DataFrame :=
  Frame.mkDF 2
    [("collectionID", [PyStr "ERP000001|SRP000001"; PyStr "ERP000001|SRP000001"]);
     ("datasetID", [PyStr "ERR000001"; PyStr "ERR000001"]);
     ("associatedSequences", [PyInt 7; PyInt 7]);
     ("materialSampleID", [PyStr "SAMEA0000001|ERS000001";
                           PyStr "SAMEA0000001|ERS000001"]);
     ("measurementID", [PyStr "MGYA00000001"; PyStr "MGYA00000001"]);
     ("scientificNameID", [taxid0; taxid1])].

(** Its dtypes: the OTU ids are integers, the other columns objects. *)
Definition id_dtypes (c : string) : Occurrence.dtype :=
  if bool_decide (c = "associatedSequences") then Occurrence.Int64
  else Occurrence.Object.

(** A frame of two rows whose only identifier is the collection id. *)
Definition lone_id_frame (id0 id1 : pyval) : Frame.DataFrame :=
  Frame.mkDF 2
    [("collectionID", [id0; id1]);
     ("datasetID", [PyNone; PyNone]);
     ("associatedSequences", [PyNone; PyNone]);
     ("materialSampleID", [PyNone; PyNone]);
     ("measurementID", [PyNone; PyNone]);
     ("scientificNameID", [PyNone; PyNone])].

(** A frame whose identifier columns are all numeric: five of integers
    and one of floats, here [562.5]. *)
Definition numeric_id_frame (seq0 seq1 : Z) : Frame.DataFrame :=
  Frame.mkDF 2
    [("collectionID", [PyInt 1; PyInt 1]);
     ("datasetID", [PyInt 2; PyInt 2]);
     ("associatedSequences", [PyInt seq0; PyInt seq1]);
     ("materialSampleID", [PyInt 4; PyInt 4]);
     ("measurementID", [PyInt 5; PyInt 5]);
     ("scientificNameID", [PyFloat (S754_finite false (1125 * 2 ^ 42) (-43));
                           PyFloat (S754_finite false (1125 * 2 ^ 42) (-43))])].

Definition numeric_dtypes (c : string) : Occurrence.dtype :=
  if bool_decide (c = "scientificNameID") then Occurrence.Float64
  else Occurrence.Int64.

(** The metadata of one study with one page of resources. *)
Definition study_with (included : list Selector.resource)
  : list (string * option (list Batch.page)) :=
  [("ERP000001", Some [Batch.mkPage (Some included)])].

Definition offline (url : string) : result string :=
  Raise (RequestException "offline").

Definition empty_world : Batch.world := Batch.mkWorld ∅ ∅ [].

(** A stand-in for the digest of a URL. *)
Definition md5_stub (url : string) : string :=
  "0cc175b9c0f1b6a831c399e269772661".

Definition run1 : Batch.RunRecord :=
  Batch.mkRun "ERR000001" "ERP000001" "SRP000001" "SAMEA0000001" "ERS000001"
              "2015-06-01" "54.1" "7.9" "5".

Definition tsv_url : string :=
  "https://www.ebi.ac.uk/x/ERR000001_merged_SSU_OTU.tsv".


(** A file system whose cache holds the table. *)
Definition cached_world : Batch.world :=
  Batch.mkWorld {["tsv_file_cache"]}
    {["tsv_file_cache/0cc175b9c0f1b6a831c399e269772661.cache"
      := "# Constructed from biom file"]} [].

(** A frame of one row that has exactly the schema columns. *)
Definition schema_frame : Frame.DataFrame :=
  Frame.mkDF 1 (map (fun c => (c, [PyStr c])) Schema.FINAL_DWC_SCHEMA).

(** A frame that lacks [count_relative]. *)
Definition absolute_only : Frame.DataFrame :=
  Frame.mkDF 2 [("count_absolute", [PyInt 10; PyInt 30])].

End Samples.

(** * Properties *)

Ltac by_vm := match goal with |- ?l = _ => vm_cast_no_check (eq_refl l) end.

(** Membership in a list that is written out. *)
Ltac elem_here :=
  repeat first [apply list_elem_of_here | apply list_elem_of_further].

Ltac elem_cases H :=
  repeat (apply elem_of_cons in H; destruct H as [->|H]);
  try (by apply elem_of_nil in H).

(** ** The taxonomy parser *)

Section TaxonomyProofs.
Import Taxonomy.

Lemma prefix_map_range p f :
  prefix_map !! p = Some f -> f ∈ all_keys /\ f <> "taxonRank".
Proof.
  unfold prefix_map. intros H.
  apply elem_of_list_to_map_2 in H.
  repeat (apply elem_of_cons in H; destruct H as [H|H];
          [inversion H; subst; split; [unfold all_keys; elem_here | discriminate] |]).
  inversion H.
Qed.

Lemma parsed_init : parsed dwc_init.
Proof.
  split; [by_vm |].
  intros k Hk. exists PyNone. split; [| by left].
  unfold all_keys in Hk.
  repeat (apply elem_of_cons in Hk; destruct Hk as [->|Hk]; [by_vm |]).
  inversion Hk.
Qed.

Lemma truthy_str_ne s : Str.truthy s = true -> s <> "".
Proof.
  unfold Str.truthy, Str.eqb. intros H ->. by rewrite bool_decide_eq_true_2 in H.
Qed.

Lemma parse_part_parsed d part :
  parsed d -> exists d', parse_part d part = Ok d' /\ parsed d'.
Proof.
  intros [Hr Hk]. unfold parse_part, Str.contains.
  destruct (Str.split_once "__" part) as [[prefix value]|];
    [| rewrite bool_decide_eq_false_2 by (by intros [? ?]); by exists d].
  rewrite bool_decide_eq_true_2 by eauto. cbn [negb unpack2 mbind result_bind].
  destruct (Str.truthy (Str.strip value)) eqn:Hv; simpl; [| by exists d].
  destruct (prefix_map !! prefix) as [f|] eqn:Hp.
  - rewrite bool_decide_eq_true_2 by eauto. simpl.
    unfold dict_getitem. rewrite Hp. simpl.
    destruct (prefix_map_range _ _ Hp) as [Hf Hne].
    eexists; split; [reflexivity |]. split.
    + by rewrite lookup_insert_ne.
    + intros k Hin. destruct (decide (f = k)) as [->|Hfk].
      * rewrite lookup_insert_eq. eexists; split; [reflexivity |].
        right. eexists; split; [reflexivity |]. by apply truthy_str_ne.
      * rewrite lookup_insert_ne by done. by apply Hk.
  - rewrite bool_decide_eq_false_2 by (intros [? ?]; discriminate). simpl.
    by exists d.
Qed.

Lemma foldM_parsed l : forall d,
  parsed d -> exists d', foldM parse_part d l = Ok d' /\ parsed d'.
Proof.
  induction l as [|part l IH]; intros d Hd; simpl.
  - by exists d.
  - destruct (parse_part_parsed d part Hd) as (d1 & -> & Hd1). simpl.
    by apply IH.
Qed.

Lemma parse_fields_parsed s :
  exists d, parse_fields s = Ok d /\ parsed d.
Proof. apply foldM_parsed, parsed_init. Qed.

Lemma clean_truthy v : clean v -> truthy v = match v with PyStr s => negb (Str.eqb s "") | _ => false end.
Proof. intros [->|(s & -> & _)]; reflexivity. Qed.

Lemma infer_rank_first_populated d :
  parsed d -> infer_rank d = Ok (<["taxonRank" := first_populated d]> d).
Proof.
  intros [Hr Hk].
  assert (Hget : forall k, k ∈ rank_order ->
            exists v, d !! k = Some v /\ truthy v = populated d k).
  { intros k Hin. destruct (Hk k) as (v & Hv & Hc).
    { unfold rank_order in Hin. unfold all_keys. elem_cases Hin; elem_here. }
    exists v. split; [done |]. unfold populated. rewrite Hv.
    by apply clean_truthy. }
  unfold infer_rank, first_populated, rank_order, dict_getitem. simpl.
  repeat match goal with
  | |- context [d !! ?k] =>
      lazymatch k with "taxonRank" => fail | _ => idtac end;
      let v := fresh "v" in let Hv := fresh "Hv" in let Ht := fresh "Ht" in
      destruct (Hget k) as (v & Hv & Ht);
      [unfold rank_order; elem_here |];
      rewrite Hv; simpl; rewrite Ht;
      destruct (populated d k); [reflexivity |]
  end.
  simpl. by rewrite insert_id.
Qed.
End TaxonomyProofs.

Lemma populated_insert_rank d v k :
  k <> "taxonRank" ->
  Taxonomy.populated (<["taxonRank" := v]> d) k = Taxonomy.populated d k.
Proof. intros H. unfold Taxonomy.populated. by rewrite lookup_insert_ne. Qed.

Lemma first_populated_insert_rank d v :
  Taxonomy.first_populated (<["taxonRank" := v]> d) = Taxonomy.first_populated d.
Proof.
  unfold Taxonomy.first_populated, Taxonomy.rank_order. cbn [List.find].
  by rewrite !populated_insert_rank by done.
Qed.

Lemma first_populated_genus d :
  Taxonomy.populated d "genus" = true -> Taxonomy.first_populated d = PyStr "genus".
Proof.
  intros H. unfold Taxonomy.first_populated, Taxonomy.rank_order. cbn [List.find].
  by rewrite H.
Qed.

Lemma first_populated_none d :
  Forall (fun k => Taxonomy.populated d k = false) Taxonomy.rank_order ->
  Taxonomy.first_populated d = PyNone.
Proof.
  intros H. unfold Taxonomy.first_populated.
  destruct (List.find _ _) as [k|] eqn:E; [| done].
  apply find_some in E as [Hin Hp]. rewrite Forall_forall in H.
  apply list_elem_of_In in Hin. rewrite (H k Hin) in Hp. done.
Qed.

Example parse_tax_string_full :
  Taxonomy.parse_tax_string
    (PyStr "sk__Bacteria;k__;p__Firmicutes;c__Bacilli;g__ Bacillus ;s__subtilis")
  = Ok (list_to_map
      [("taxonRank", PyStr "genus"); ("domain", PyStr "Bacteria");
       ("kingdom", PyNone); ("phylum", PyStr "Firmicutes"); ("order", PyNone);
       ("class", PyStr "Bacilli"); ("family", PyNone);
       ("genus", PyStr "Bacillus"); ("specificEpithet", PyStr "subtilis")]).
Proof. by_vm. Qed.

Example parse_tax_string_gap :
  Taxonomy.parse_tax_string (PyStr "sk__Archaea;junk;x__y;f__Halobacteriaceae;g__  ")
  = Ok (<["taxonRank" := PyStr "family"]>
       (<["family" := PyStr "Halobacteriaceae"]>
       (<["domain" := PyStr "Archaea"]> Taxonomy.dwc_init))).
Proof. by_vm. Qed.

(** C1.  For every lineage string, [parse_tax_string] returns a dict (it
    does not raise) whose [taxonRank] is the first populated field among
    genus, family, order, class, phylum, kingdom and domain, checked in
    that order, and unset when none of them is populated; the other keys
    are the fields parsed from the segments.  In particular a populated
    genus gives [taxonRank = "genus"] whatever the shallower fields hold,
    and a lineage that only populates [specificEpithet] (such as
    ["s__coli"]) leaves [taxonRank] unset. *)
Theorem parse_tax_string_rank (lineage : string) :
  exists d,
    Taxonomy.parse_tax_string (PyStr lineage) = Ok d /\
    Taxonomy.parse_fields lineage = Ok (<["taxonRank" := PyNone]> d) /\
    d !! "taxonRank" = Some (Taxonomy.first_populated d) /\
    (Taxonomy.populated d "genus" = true ->
     d !! "taxonRank" = Some (PyStr "genus")) /\
    (Forall (fun k => Taxonomy.populated d k = false) Taxonomy.rank_order ->
     d !! "taxonRank" = Some PyNone) /\
    Taxonomy.parse_tax_string (PyStr "s__coli")
      = Ok (<["specificEpithet" := PyStr "coli"]> Taxonomy.dwc_init).
Proof.
  destruct (parse_fields_parsed lineage) as (d0 & Hf & Hp).
  exists (<["taxonRank" := Taxonomy.first_populated d0]> d0).
  assert (Hrank : (<["taxonRank" := Taxonomy.first_populated d0]> d0) !! "taxonRank"
                  = Some (Taxonomy.first_populated
                            (<["taxonRank" := Taxonomy.first_populated d0]> d0))).
  { by rewrite lookup_insert_eq, first_populated_insert_rank. }
  split.
  { cbn [Taxonomy.parse_tax_string]. rewrite Hf. cbn [mbind result_bind].
    by apply infer_rank_first_populated. }
  split.
  { rewrite Hf. f_equal. rewrite insert_insert_eq.
    symmetry. apply insert_id. apply Hp. }
  split; [exact Hrank |].
  split.
  { intros Hg. rewrite Hrank. f_equal. by apply first_populated_genus. }
  split.
  { intros Hn. rewrite Hrank. f_equal. by apply first_populated_none. }
  by_vm.
Qed.

Lemma parse_tax_string_rank_witness :
  exists d,
    Taxonomy.parse_tax_string (PyStr "k__Bacteria;g__Vibrio;s__cholerae") = Ok d /\
    d !! "taxonRank" = Some (PyStr "genus").
Proof.
  destruct (parse_tax_string_rank "k__Bacteria;g__Vibrio;s__cholerae")
    as (d & Hd & _ & _ & Hg & _).
  exists d. split; [exact Hd |]. apply Hg.
  assert (E : Taxonomy.parse_tax_string (PyStr "k__Bacteria;g__Vibrio;s__cholerae")
              = Ok (<["taxonRank" := PyStr "genus"]>
                     (<["genus" := PyStr "Vibrio"]>
                     (<["kingdom" := PyStr "Bacteria"]>
                     (<["specificEpithet" := PyStr "cholerae"]> Taxonomy.dwc_init)))))
    by by_vm.
  rewrite E in Hd. injection Hd as <-. by_vm.
Defined.

(** C2.  For every input that is not a string ([None], a number, NaN),
    [parse_tax_string] returns the initial dict without raising: its nine
    keys are the seven rank fields, [specificEpithet] and [taxonRank], and
    every one of them is unset ([None]). *)
Theorem parse_tax_string_non_string (v : pyval) :
  is_str v = false ->
  Taxonomy.parse_tax_string v = Ok Taxonomy.dwc_init /\
  Forall (fun k => Taxonomy.dwc_init !! k = Some PyNone) Taxonomy.all_keys /\
  dom Taxonomy.dwc_init = list_to_set Taxonomy.all_keys.
Proof.
  intros H. split; [by destruct v |]. split.
  - repeat constructor; by_vm.
  - apply (bool_decide_eq_true_1 (dom Taxonomy.dwc_init = list_to_set Taxonomy.all_keys)).
    by_vm.
Qed.

Lemma parse_tax_string_non_string_witness :
  Taxonomy.parse_tax_string PyNone = Ok Taxonomy.dwc_init /\
  Taxonomy.parse_tax_string (PyFloat S754_nan) = Ok Taxonomy.dwc_init.
Proof.
  split.
  - apply (parse_tax_string_non_string PyNone). reflexivity.
  - apply (parse_tax_string_non_string (PyFloat S754_nan)). reflexivity.
Defined.

(** ** Strings *)

Section StrFacts.
Import Str.

Lemma str_app_cons (c : ascii) (s t : string) : String c s +:+ t = String c (s +:+ t).
Proof. reflexivity. Qed.

Lemma str_app_nil_l (s : string) : "" +:+ s = s.
Proof. reflexivity. Qed.

Lemma str_app_nil_r (s : string) : s +:+ "" = s.
Proof. induction s as [|c s IH]; [done |]. by rewrite str_app_cons, IH. Qed.

Lemma str_app_assoc (a b c : string) : (a +:+ b) +:+ c = a +:+ b +:+ c.
Proof. induction a as [|x a IH]; [done |]. rewrite !str_app_cons. by rewrite IH. Qed.

Lemma str_length_app (a b : string) :
  String.length (a +:+ b) = (String.length a + String.length b)%nat.
Proof. induction a as [|x a IH]; [done |]. rewrite str_app_cons. simpl. by rewrite IH. Qed.

Lemma str_app_inv_head (a b c : string) : a +:+ b = a +:+ c -> b = c.
Proof.
  induction a as [|x a IH]; [done |]. rewrite !str_app_cons. intros H.
  injection H as H. by apply IH.
Qed.

Lemma str_app_inv_tail (a b c : string) : a +:+ c = b +:+ c -> a = b.
Proof.
  revert b. induction a as [|x a IH]; intros [|y b] H.
  - done.
  - apply (f_equal String.length) in H. rewrite !str_length_app in H. simpl in H. lia.
  - apply (f_equal String.length) in H. rewrite !str_length_app in H. simpl in H. lia.
  - rewrite !str_app_cons in H. injection H as -> H. f_equal. by apply IH.
Qed.

Lemma eqb_true s t : eqb s t = true <-> s = t.
Proof. unfold eqb. apply bool_decide_eq_true. Qed.

Lemma eqb_refl s : eqb s s = true.
Proof. by apply eqb_true. Qed.

(** *** [split] *)

Lemma split_length c s : length (split c s) = S (count c s).
Proof.
  induction s as [|x s IH]; [done |]. simpl.
  case_bool_decide; simpl; [by rewrite IH |].
  destruct (split c s); simpl in *; [done | lia].
Qed.

Lemma split_nonempty c s : split c s <> [].
Proof. intros H. apply (f_equal length) in H. by rewrite split_length in H. Qed.

Lemma split_no_sep c s : count c s = 0%nat -> split c s = [s].
Proof.
  induction s as [|x s IH]; [done |]. simpl.
  case_bool_decide; [done |]. simpl. intros Hc. by rewrite IH.
Qed.

Lemma split_app c a b : split c (a +:+ String c b) = split c a ++ split c b.
Proof.
  induction a as [|x a IH].
  - rewrite str_app_nil_l. simpl. by rewrite bool_decide_eq_true_2.
  - rewrite str_app_cons. simpl. case_bool_decide; [by rewrite IH |].
    rewrite IH. pose proof (split_nonempty c a).
    by destruct (split c a).
Qed.

Lemma count_app c a b : count c (a +:+ b) = (count c a + count c b)%nat.
Proof. induction a as [|x a IH]; [done |]. rewrite str_app_cons. simpl. rewrite IH. lia. Qed.

Lemma endswith_count c s suf :
  endswith s suf = true -> (count c suf <= count c s)%nat.
Proof.
  induction s as [|x s IH]; simpl; intros H.
  - rewrite orb_false_r in H. apply eqb_true in H. by subst.
  - apply orb_true_iff in H as [H|H].
    + apply eqb_true in H. by subst.
    + specialize (IH H). lia.
Qed.

Lemma endswith_app a suf : endswith (a +:+ suf) suf = true.
Proof.
  induction a as [|x a IH].
  - rewrite str_app_nil_l. destruct suf; cbn [endswith]; by rewrite eqb_refl.
  - rewrite str_app_cons. simpl. rewrite IH. by rewrite orb_true_r.
Qed.

(** *** [lower] *)

Lemma caseless_underscore : caseless "_".
Proof.
  intros x. split; [| by intros ->].
  destruct x as [[] [] [] [] [] [] [] []]; vm_compute; congruence.
Qed.

Lemma caseless_slash : caseless "/".
Proof.
  intros x. split; [| by intros ->].
  destruct x as [[] [] [] [] [] [] [] []]; vm_compute; congruence.
Qed.

Lemma lower_app a b : lower (a +:+ b) = lower a +:+ lower b.
Proof. induction a as [|x a IH]; [done |]. rewrite str_app_cons. simpl. by rewrite IH. Qed.

Lemma count_lower c s : caseless c -> count c (lower s) = count c s.
Proof.
  intros Hc. unfold caseless in Hc. induction s as [|x s IH]; [done |].
  cbn [count lower]. rewrite IH.
  destruct (decide (x = c)) as [->|Hx].
  - assert (lower_char c = c) as -> by (by apply Hc). done.
  - assert (lower_char x <> c) as Hl by (intros Hl; by apply (proj1 (Hc x)) in Hl).
    by rewrite !bool_decide_eq_false_2 by done.
Qed.

Lemma split_lower c s : caseless c -> split c (lower s) = lower <$> split c s.
Proof.
  intros Hc. unfold caseless in Hc. induction s as [|x s IH]; [done |].
  cbn [split lower]. rewrite IH.
  destruct (decide (x = c)) as [->|Hx].
  - assert (lower_char c = c) as -> by (by apply Hc).
    by rewrite !bool_decide_eq_true_2 by done.
  - assert (lower_char x <> c) as Hl by (intros Hl; by apply (proj1 (Hc x)) in Hl).
    rewrite !bool_decide_eq_false_2 by done.
    pose proof (split_nonempty c s). by destruct (split c s).
Qed.

Lemma replace_empty a b : replace a b "" = "".
Proof. reflexivity. Qed.

Lemma drop_empty n : drop n "" = "".
Proof. by destruct n. Qed.
End StrFacts.

(** ** The field enricher: feature names *)

Lemma list_last_split c s :
  list_last (Str.split c s) = Ok (default "" (last (Str.split c s))).
Proof.
  unfold list_last. pose proof (split_nonempty c s) as H.
  destruct (last (Str.split c s)) eqn:E; [done |].
  by apply last_None in E.
Qed.

Lemma get_drop n : forall s i, String.get i (Str.drop n s) = String.get (n + i) s.
Proof.
  induction n as [|n IH]; intros s i; [done |].
  destruct s as [|c s]; [by destruct i |]. cbn [Str.drop]. by rewrite IH.
Qed.

Lemma length_drop n : forall s, String.length (Str.drop n s) = String.length s - n.
Proof.
  induction n as [|n IH]; intros s; cbn [Str.drop]; [lia |].
  destruct s as [|c s]; [done |]. cbn [String.length]. by rewrite IH.
Qed.

Lemma get_replace a b s : forall i,
  String.get i (Str.replace a b s)
  = (fun c => if bool_decide (c = a) then b else c) <$> String.get i s.
Proof.
  induction s as [|c s IH]; intros i; [done |].
  destruct i as [|i]; [done |]. cbn [Str.replace String.get]. apply IH.
Qed.

Lemma length_replace a b s : String.length (Str.replace a b s) = String.length s.
Proof. induction s as [|c s IH]; [done |]. cbn. by rewrite IH. Qed.

Lemma count_zero_get c s : Str.count c s = 0 -> forall i, String.get i s <> Some c.
Proof.
  induction s as [|x s IH]; intros H i; [done |].
  cbn [Str.count] in H. destruct (decide (x = c)) as [->|Hne].
  - by rewrite bool_decide_eq_true_2 in H.
  - rewrite bool_decide_eq_false_2 in H by done.
    destruct i as [|i]; cbn [String.get]; [congruence | by apply IH].
Qed.

(** The last segment of a split is a suffix free of the separator, and what
    precedes it is empty or ends with the separator. *)
Lemma split_last_suffix c s :
  exists before seg,
    last (Str.split c s) = Some seg /\
    s = before +:+ seg /\
    (before = "" \/ exists b, before = b +:+ String c "") /\
    Str.count c seg = 0.
Proof.
  induction s as [|x s (before & seg & Hl & Hs & Hb & Hc)].
  - exists "", "". split; [done |]. split; [done |]. split; [by left | done].
  - cbn [Str.split]. destruct (decide (x = c)) as [->|Hne].
    + rewrite bool_decide_eq_true_2 by done.
      exists (String c before), seg.
      split; [by rewrite last_cons, Hl |].
      split; [by rewrite str_app_cons, <- Hs |].
      split; [| done]. right. destruct Hb as [->|[b ->]].
      * by exists "".
      * exists (String c b). by rewrite str_app_cons.
    + rewrite bool_decide_eq_false_2 by done.
      pose proof (split_length c s) as Hn.
      destruct (Str.split c s) as [|h [|h' t]] eqn:E; [done | |].
      * cbn in Hl. injection Hl as ->. cbn in Hn.
        assert (before = "") as ->.
        { destruct Hb as [->|[b ->]]; [done |]. exfalso.
          rewrite Hs, !count_app in Hn. cbn [Str.count] in Hn.
          rewrite bool_decide_eq_true_2 in Hn by done. lia. }
        rewrite str_app_nil_l in Hs. subst s.
        exists "", (String x seg). split; [done |].
        split; [by rewrite str_app_nil_l |]. split; [by left |].
        cbn [Str.count]. by rewrite bool_decide_eq_false_2.
      * exists (String x before), seg.
        split.
        { rewrite last_cons. rewrite last_cons in Hl.
          destruct (last (h' :: t)) eqn:E2; [done | by apply last_None in E2]. }
        split; [by rewrite str_app_cons, <- Hs |]. split; [| done].
        right. destruct Hb as [->|[b ->]].
        -- exfalso. rewrite str_app_nil_l in Hs. subst s.
           rewrite Hc in Hn. cbn in Hn. lia.
        -- exists (String x b). by rewrite str_app_cons.
Qed.

(** C8.  For every lineage string, [annotation_name] does not raise.  The
    lineage ends with a segment that holds no [;] and is preceded by
    nothing or by text that ends with [;]: its last [;]-delimited segment.
    The name is that segment without its first three characters (nothing
    is left of a segment of three characters or fewer, the empty one
    included), each underscore replaced by a space and every other
    character kept in its place. *)
Theorem annotation_name_feature_name :
  (forall lineage, exists before seg name,
      lineage = before +:+ seg /\
      (before = "" \/ exists b, before = b +:+ ";") /\
      (forall i, String.get i seg <> Some ";"%char) /\
      Enricher.annotation_name lineage = Ok name /\
      String.length name = String.length seg - 3 /\
      forall i, String.get i name
                = (fun c => if Ascii.eqb c "_" then " "%char else c)
                    <$> String.get (3 + i) seg) /\
  Enricher.annotation_name "sk__Bacteria;k__;p__Proteobacteria;g__Vibrio_sp_1"
    = Ok "Vibrio sp 1" /\
  Enricher.annotation_name "sk__Bacteria;p__Proteobacteria;" = Ok "" /\
  Enricher.annotation_name "sk__Bacteria;k_" = Ok "" /\
  Enricher.annotation_name "" = Ok "".
Proof.
  split; [| by repeat split].
  intros lineage.
  destruct (split_last_suffix ";" lineage) as (before & seg & Hl & Hs & Hb & Hc).
  exists before, seg, (Str.replace "_" " " (Str.drop 3 seg)).
  split; [done |]. split; [done |].
  split; [by apply count_zero_get |].
  split.
  { unfold Enricher.annotation_name. rewrite split_length. cbn [Nat.ltb Nat.leb].
    unfold list_last. by rewrite Hl. }
  split; [by rewrite length_replace, length_drop |].
  intros i. rewrite get_replace, get_drop.
  destruct (String.get (3 + i) seg) as [x|]; [| done]. cbn [fmap option_fmap option_map].
  f_equal. destruct (Ascii.eqb_spec x "_") as [->|Hne].
  - by rewrite bool_decide_eq_true_2.
  - by rewrite bool_decide_eq_false_2.
Qed.

(** ** The file selector *)

Section SelectorProofs.
Import Selector.

Lemma suffix_two_tokens b :
  Str.endswith (Str.lower b) "ssu_otu.tsv" = true ->
  (2 <= length (Str.split "_" b))%nat.
Proof.
  intros H. apply (endswith_count "_") in H.
  rewrite (count_lower _ _ caseless_underscore) in H.
  rewrite split_length. change (Str.count "_" "ssu_otu.tsv") with 1%nat in H. lia.
Qed.

Lemma select_step_qualifies ra acc tsv :
  select_step ra acc tsv =
  Ok (if qualifies ra tsv
      then match first_token tsv with
           | Some r => <[r := tsv]> acc
           | None => acc
           end
      else acc).
Proof.
  unfold select_step, qualifies, first_token, second_token.
  destruct (Str.endswith _ "ssu_otu.tsv") eqn:E; [| done]. simpl.
  apply suffix_two_tokens in E.
  destruct (Str.split "_" (basename (self_link tsv))) as [|t0 [|t1 l]];
    simpl in E; [lia .. |].
  unfold list_getitem. simpl.
  destruct (bool_decide (t0 ∈ ra)); simpl.
  - rewrite andb_true_r. unfold Str.eqb.
    destruct (decide (Str.lower t1 = "merged")) as [Hm|Hm].
    + rewrite !bool_decide_eq_true_2; [done | by rewrite Hm | done].
    + rewrite !bool_decide_eq_false_2; [done | congruence | done].
  - by rewrite andb_false_r.
Qed.

Lemma select_step_total ra acc tsv : exists acc', select_step ra acc tsv = Ok acc'.
Proof. rewrite select_step_qualifies. eauto. Qed.

Lemma qualifies_first_token ra tsv :
  qualifies ra tsv = true -> exists r, first_token tsv = Some r /\ r ∈ ra.
Proof.
  unfold qualifies. intros H. apply andb_true_iff in H as [_ H].
  destruct (first_token tsv) as [r|]; [| done].
  apply bool_decide_eq_true in H. eauto.
Qed.

Lemma foldM_select ra tsvs : forall acc,
  exists m, foldM (select_step ra) acc tsvs = Ok m /\
    forall rid, m !! rid =
      match last (List.filter (candidate ra rid) tsvs) with
      | Some t => Some t
      | None => acc !! rid
      end.
Proof.
  induction tsvs as [|t l IH]; intros acc.
  - exists acc. by split.
  - cbn [foldM]. rewrite select_step_qualifies. cbn [mbind result_bind].
    destruct (IH (if qualifies ra t
                  then match first_token t with
                       | Some r => <[r:=t]> acc | None => acc end
                  else acc)) as (m & -> & Hm).
    exists m. split; [done |]. intros rid. rewrite Hm. cbn [List.filter].
    unfold candidate at 2.
    destruct (qualifies ra t) eqn:Hq; cbn [andb]; [| done].
    destruct (qualifies_first_token _ _ Hq) as (r & Hr & _). rewrite Hr.
    destruct (decide (r = rid)) as [->|Hne].
    + rewrite bool_decide_eq_true_2 by done. rewrite last_cons.
      rewrite lookup_insert_eq. by destruct (last _).
    + rewrite bool_decide_eq_false_2 by congruence.
      by rewrite lookup_insert_ne.
Qed.

Lemma filtered_tsv_files_last ra tsvs :
  exists m, filtered_tsv_files ra tsvs = Ok m /\
    forall rid, m !! rid = last (List.filter (candidate ra rid) tsvs).
Proof.
  destruct (foldM_select ra tsvs ∅) as (m & Hm & Hl).
  exists m. split; [done |]. intros rid. rewrite Hl, lookup_empty.
  by destruct (last _).
Qed.

Lemma basename_app p n :
  Str.count "/" n = 0%nat -> basename (p +:+ String "/" n) = n.
Proof.
  intros H. unfold basename. rewrite split_app, (split_no_sep _ _ H).
  by rewrite last_snoc.
Qed.

Lemma basename_named n : Str.count "/" n = 0%nat -> basename (self_link (named n)) = n.
Proof.
  intros H.
  exact (basename_app "https://www.ebi.ac.uk/metagenomics/api/v1/analyses/MGYA00000001/file" n H).
Qed.

Lemma merged_variation_qualifies ra suffix :
  "ERR000001" ∈ ra ->
  case_variation "_merged_SSU_OTU.TSV" suffix ->
  qualifies ra (named ("ERR000001" +:+ suffix)) = true /\
  first_token (named ("ERR000001" +:+ suffix)) = Some "ERR000001".
Proof.
  intros Hin Hcv. unfold case_variation in Hcv.
  change (Str.lower "_merged_SSU_OTU.TSV") with "_merged_ssu_otu.tsv" in Hcv.
  assert (Hb : basename (self_link (named ("ERR000001" +:+ suffix)))
               = "ERR000001" +:+ suffix).
  { apply basename_named. rewrite count_app.
    rewrite <- (count_lower "/" suffix caseless_slash), Hcv. reflexivity. }
  destruct suffix as [|c rest]; [discriminate |].
  cbn [Str.lower] in Hcv. injection Hcv as Hc Hrest.
  apply (proj1 (caseless_underscore c)) in Hc. subst c.
  assert (Hs : Str.split "_" ("ERR000001" +:+ String "_" rest)
               = "ERR000001" :: Str.split "_" rest).
  { by rewrite split_app. }
  assert (Hl : Str.lower <$> Str.split "_" rest = ["merged"; "ssu"; "otu.tsv"]).
  { rewrite <- (split_lower _ _ caseless_underscore), Hrest. reflexivity. }
  destruct (Str.split "_" rest) as [|t1 l] eqn:Hsp; [discriminate |].
  injection Hl as Ht1 _.
  unfold qualifies, first_token, second_token. rewrite Hb, Hs.
  rewrite lower_app. cbn [Str.lower]. rewrite Hrest. cbn [lookup list_lookup fmap option_fmap option_map].
  rewrite Ht1. split; [| done].
  rewrite (bool_decide_eq_true_2 _ Hin).
  by_vm.
Qed.
End SelectorProofs.

(** C10.  For every basename whose lowercase form ends with
    ["ssu_otu.tsv"], splitting the basename on ["_"] gives at least two
    tokens, so both [nameparts[0]] and [nameparts[1]] of the file selector
    are defined and the access raises no [IndexError]. *)
Theorem merged_check_total (basename : string) :
  Str.endswith (Str.lower basename) "ssu_otu.tsv" = true ->
  (2 <= length (Str.split "_" basename))%nat /\
  exists run_id part1,
    list_getitem (Str.split "_" basename) 0 = Ok run_id /\
    list_getitem (Str.split "_" basename) 1 = Ok part1.
Proof.
  intros H. pose proof (suffix_two_tokens _ H) as Hl. split; [done |].
  destruct (Str.split "_" basename) as [|t0 [|t1 l]]; simpl in Hl; [lia .. |].
  by exists t0, t1.
Qed.

Lemma merged_check_total_witness :
  (2 <= length (Str.split "_" "ssu_otu.tsv"))%nat /\
  exists run_id part1,
    list_getitem (Str.split "_" "ssu_otu.tsv") 0 = Ok run_id /\
    list_getitem (Str.split "_" "ssu_otu.tsv") 1 = Ok part1.
Proof. apply (merged_check_total "ssu_otu.tsv"). reflexivity. Defined.

Section StudiesProofs.
Import Selector Studies.

Lemma elem_of_page_tsv_files page t :
  t ∈ page_tsv_files page <->
  exists inc, Batch.included page = Some inc /\ t ∈ inc /\
              Str.endswith (self_link t) ".tsv" = true.
Proof.
  unfold page_tsv_files, tsv_items. destruct (Batch.included page) as [inc|].
  - rewrite list_elem_of_In, List.filter_In, <- list_elem_of_In. split.
    + intros [Hin He]. by exists inc.
    + intros (inc' & [= <-] & Hin & He). done.
  - split; [by intros ?%elem_of_nil | by intros (inc & ? & _)].
Qed.

Lemma elem_of_collect_tsv_files meta t :
  t ∈ collect_tsv_files meta <->
  exists study pages page inc,
    (study, Some pages) ∈ meta /\ page ∈ pages /\
    Batch.included page = Some inc /\ t ∈ inc /\
    Str.endswith (self_link t) ".tsv" = true.
Proof.
  induction meta as [|[study [pages|]] meta IH]; cbn [collect_tsv_files].
  - split; [by intros ?%elem_of_nil |].
    by intros (? & ? & ? & ? & ?%elem_of_nil & _).
  - rewrite elem_of_app, IH. split.
    + intros [H|(st & ps & p & inc & Hin & H)].
      * apply list_elem_of_In, in_concat in H as (l & Hl & Ht).
        apply in_map_iff in Hl as (p & <- & Hp).
        apply list_elem_of_In, elem_of_page_tsv_files in Ht as (inc & Hi & Ht).
        exists study, pages, p, inc. split; [by left |].
        split; [by apply list_elem_of_In | done].
      * exists st, ps, p, inc. split; [by right | done].
    + intros (st & ps & p & inc & Hin & Hp & Hi & Ht).
      apply elem_of_cons in Hin as [[= -> ->]|Hin].
      * left. apply list_elem_of_In, in_concat.
        exists (page_tsv_files p). split.
        -- apply in_map. by apply list_elem_of_In.
        -- apply list_elem_of_In, elem_of_page_tsv_files. by exists inc.
      * right. by exists st, ps, p, inc.
  - rewrite IH. split.
    + intros (st & ps & p & inc & Hin & H).
      exists st, ps, p, inc. split; [by right | done].
    + intros (st & ps & p & inc & Hin & H).
      apply elem_of_cons in Hin as [[=]|Hin]. by exists st, ps, p, inc.
Qed.

Lemma select_files_last ra meta :
  exists m, select_files ra meta = Ok m /\
    forall rid,
      m !! rid = last (List.filter (candidate ra rid) (collect_tsv_files meta)).
Proof. apply filtered_tsv_files_last. Qed.

Lemma named_tsv_link n : Str.endswith (self_link (named (n +:+ ".tsv"))) ".tsv" = true.
Proof.
  unfold named. cbn [self_link links_self default].
  rewrite <- str_app_assoc. apply endswith_app.
Qed.

Lemma collect_study_with t :
  collect_tsv_files (Samples.study_with [t])
  = if Str.endswith (self_link t) ".tsv" then [t] else [].
Proof.
  cbn. unfold tsv_items. cbn [List.filter].
  by destruct (Str.endswith (self_link t) ".tsv").
Qed.

Lemma select_merged_variation ra mid :
  "ERR000001" ∈ ra ->
  case_variation "_merged_SSU_OTU" mid ->
  select_files ra
    (Samples.study_with [named ("ERR000001" +:+ mid +:+ ".tsv")])
  = Ok {["ERR000001" := named ("ERR000001" +:+ mid +:+ ".tsv")]}.
Proof.
  intros Hin Hcv. unfold select_files. rewrite collect_study_with.
  replace ("ERR000001" +:+ mid +:+ ".tsv") with (("ERR000001" +:+ mid) +:+ ".tsv")
    by apply str_app_assoc.
  rewrite named_tsv_link. rewrite str_app_assoc.
  destruct (merged_variation_qualifies ra (mid +:+ ".tsv") Hin) as [Hq Hf].
  { unfold case_variation in *. rewrite lower_app, Hcv. reflexivity. }
  unfold filtered_tsv_files. cbn [foldM].
  rewrite select_step_qualifies, Hq, Hf. reflexivity.
Qed.
End StudiesProofs.

(** C5.  One step of the selector loop keeps a resource, under the first
    token of its basename, exactly when the resource qualifies: the
    lowercase basename of its URL ends with ["ssu_otu.tsv"], the lowercase
    second underscore-separated token is ["merged"], and the first token,
    compared as it is written, belongs to the run accessions.  The
    resources that reach the loop are those of the studies' pages whose
    URL ends with [".tsv"] as written (step 3).  Steps 3 and 4 never raise,
    and the resource they leave under a run id is the last such resource,
    in the order of the metadata, that qualifies with that first token.
    A resource named [ERR000001], then any case variation of
    [_merged_SSU_OTU], then [.tsv], is selected for run id [ERR000001]
    when that id is a run accession; [ERR000001_SSU_OTU.TSV] and
    [ERR000001_SSU_OTU.tsv] are never selected. *)
Theorem file_selector_rule :
  (forall ra filtered tsv,
      Selector.select_step ra filtered tsv =
      Ok (if Selector.qualifies ra tsv
          then match Selector.first_token tsv with
               | Some run_id => <[run_id := tsv]> filtered
               | None => filtered
               end
          else filtered)) /\
  (forall meta tsv,
      tsv ∈ Studies.collect_tsv_files meta <->
      exists study pages page included,
        (study, Some pages) ∈ meta /\ page ∈ pages /\
        Batch.included page = Some included /\ tsv ∈ included /\
        Str.endswith (Selector.self_link tsv) ".tsv" = true) /\
  (forall ra meta, exists m,
      Studies.select_files ra meta = Ok m /\
      forall rid,
        m !! rid = last (List.filter (Selector.candidate ra rid)
                                     (Studies.collect_tsv_files meta))) /\
  (forall ra mid,
      "ERR000001" ∈ ra ->
      Selector.case_variation "_merged_SSU_OTU" mid ->
      Studies.select_files ra
        (Samples.study_with [Selector.named ("ERR000001" +:+ mid +:+ ".tsv")])
      = Ok {["ERR000001" := Selector.named ("ERR000001" +:+ mid +:+ ".tsv")]}) /\
  (forall ra,
      Studies.select_files ra
        (Samples.study_with [Selector.named "ERR000001_SSU_OTU.TSV"]) = Ok ∅ /\
      Studies.select_files ra
        (Samples.study_with [Selector.named "ERR000001_SSU_OTU.tsv"]) = Ok ∅).
Proof.
  split; [apply select_step_qualifies |].
  split; [apply elem_of_collect_tsv_files |].
  split; [apply select_files_last |].
  split; [apply select_merged_variation |].
  intros ra. split; [reflexivity |].
  unfold Studies.select_files. rewrite collect_study_with.
  assert (Str.endswith
            (Selector.self_link (Selector.named "ERR000001_SSU_OTU.tsv")) ".tsv"
          = true) as -> by by_vm.
  unfold Selector.filtered_tsv_files. cbn [foldM].
  rewrite select_step_qualifies.
  assert (Selector.qualifies ra (Selector.named "ERR000001_SSU_OTU.tsv") = false)
    as -> by by_vm.
  reflexivity.
Qed.

Lemma file_selector_rule_witness :
  Studies.select_files {["ERR000001"]}
    (Samples.study_with [Selector.named "ERR000001_Merged_SSU_otu.tsv"])
  = Ok {["ERR000001" := Selector.named "ERR000001_Merged_SSU_otu.tsv"]}.
Proof.
  apply (proj1 (proj2 (proj2 (proj2 file_selector_rule)))
           {["ERR000001"]} "_Merged_SSU_otu").
  - apply elem_of_singleton. reflexivity.
  - reflexivity.
Defined.

(** The resource [ERR000001_merged_SSU_OTU.TSV] is not selected for run id
    [ERR000001]: its URL does not end with [".tsv"] as written, so it never
    reaches the selector loop.  Nor is the lower-cased name
    [err000001_merged_ssu_otu.tsv], which does reach the loop: the run id
    token is compared as it is written. *)
Lemma file_selector_case_counterexample :
  Studies.select_files {["ERR000001"]}
    (Samples.study_with [Selector.named "ERR000001_merged_SSU_OTU.TSV"]) = Ok ∅ /\
  Selector.case_variation "ERR000001_merged_SSU_OTU.TSV"
                          "err000001_merged_ssu_otu.tsv" /\
  Studies.collect_tsv_files
    (Samples.study_with [Selector.named "err000001_merged_ssu_otu.tsv"])
  = [Selector.named "err000001_merged_ssu_otu.tsv"] /\
  Studies.select_files {["ERR000001"]}
    (Samples.study_with [Selector.named "err000001_merged_ssu_otu.tsv"]) = Ok ∅.
Proof. split; [by_vm |]. split; [reflexivity |]. split; by_vm. Qed.

Section MonadFacts.
Context {S : Type}.

Lemma bind_ok {A B} (m : M S A) (f : A -> M S B) s a s' :
  m s = (Ok a, s') -> (m ≫= f) s = f a s'.
Proof. intros H. unfold mbind, M_bind. by rewrite H. Qed.

Lemma bind_raise {A B} (m : M S A) (f : A -> M S B) s e s' :
  m s = (Raise e, s') -> (m ≫= f) s = (Raise e, s').
Proof. intros H. unfold mbind, M_bind. by rewrite H. Qed.
End MonadFacts.

Section FrameFacts.
Import Frame.

Lemma assoc_get_set_eq {V} k (v : V) l : assoc_get k (assoc_set k v l) = Some v.
Proof.
  induction l as [|[k' v'] l IH]; simpl.
  - by rewrite bool_decide_eq_true_2.
  - case_bool_decide; simpl.
    + by rewrite bool_decide_eq_true_2.
    + by rewrite bool_decide_eq_false_2.
Qed.

Lemma assoc_get_set_ne {V} k k' (v : V) l :
  k <> k' -> assoc_get k' (assoc_set k v l) = assoc_get k' l.
Proof.
  intros Hne. induction l as [|[k0 v0] l IH]; simpl.
  - by rewrite bool_decide_eq_false_2.
  - case_bool_decide; simpl.
    + subst k0. by rewrite !bool_decide_eq_false_2.
    + by rewrite IH.
Qed.

Lemma assoc_set_keys {V} k (v : V) l :
  map fst (assoc_set k v l) =
  if bool_decide (k ∈ map fst l) then map fst l else map fst l ++ [k].
Proof.
  induction l as [|[k0 v0] l IH]; cbn [assoc_set map fst].
  - case_bool_decide as H; [by apply elem_of_nil in H | done].
  - destruct (decide (k = k0)) as [->|Hk].
    + rewrite (bool_decide_eq_true_2 (k0 = k0)) by done. cbn [map fst].
      rewrite bool_decide_eq_true_2; [done | by left].
    + rewrite (bool_decide_eq_false_2 (k = k0)) by done. cbn [map fst].
      rewrite IH. destruct (decide (k ∈ map fst l)) as [Hin|Hin].
      * rewrite !bool_decide_eq_true_2; [done | by right | done].
      * rewrite !bool_decide_eq_false_2; [done | | done].
        intros [?|?]%elem_of_cons; done.
Qed.

Lemma assoc_get_Some {V} k (l : list (string * V)) :
  k ∈ map fst l <-> is_Some (assoc_get k l).
Proof.
  induction l as [|[k0 v0] l IH]; simpl.
  - split; [by intros ?%elem_of_nil | by intros [? ?]].
  - case_bool_decide as Hk.
    + subst. split; [eauto | by left].
    + rewrite <- IH. rewrite elem_of_cons. split; [by intros [?|?] | by right].
Qed.

Lemma assoc_get_In {V} k (v : V) l : assoc_get k l = Some v -> (k, v) ∈ l.
Proof.
  induction l as [|[k0 v0] l IH]; simpl; [done |].
  case_bool_decide; [intros [= ->]; subst; by left | right; auto].
Qed.

Lemma assoc_set_Forall {V} (P : string * V -> Prop) k v l :
  P (k, v) -> Forall P l -> Forall P (assoc_set k v l).
Proof.
  intros Hp. induction 1 as [|[k0 v0] l Hx Hl IH]; simpl.
  - by repeat constructor.
  - case_bool_decide; constructor; auto.
Qed.

Lemma columns_set d c v :
  columns (set d c v) =
  if bool_decide (c ∈ columns d) then columns d else columns d ++ [c].
Proof. apply assoc_set_keys. Qed.

Lemma columns_set_indep d c v v' : columns (set d c v) = columns (set d c v').
Proof. by rewrite !columns_set. Qed.

Lemma get_set_eq d c v : get (set d c v) c = Ok v.
Proof. unfold get, set. simpl. by rewrite assoc_get_set_eq. Qed.

Lemma get_set_ne d c c' v : c <> c' -> get (set d c v) c' = get d c'.
Proof. intros H. unfold get, set. simpl. by rewrite assoc_get_set_ne. Qed.

Lemma get_length d c v : wf d -> get d c = Ok v -> length v = df_len d.
Proof.
  intros [_ Hl] H. unfold get in H.
  destruct (assoc_get c (df_cols d)) as [v'|] eqn:E; [| done].
  injection H as ->. apply assoc_get_In in E.
  rewrite Forall_forall in Hl. apply (Hl _ E).
Qed.

Lemma wf_set d c v : wf d -> length v = df_len d -> wf (set d c v).
Proof.
  intros [Hnd Hl] Hv. split.
  - rewrite columns_set. case_bool_decide as Hin; [done |].
    apply NoDup_app. split_and!; [done | | apply NoDup_singleton].
    intros x Hx ->%list_elem_of_singleton. done.
  - by apply assoc_set_Forall.
Qed.

Lemma wf_set_scalar d c v : wf d -> wf (set_scalar d c v).
Proof. intros H. apply wf_set; [done |]. apply length_replicate. Qed.

Lemma cell_get d c i :
  cell d c i = match get d c with Ok v => v !! i | Raise _ => None end.
Proof. unfold cell, get. by destruct (assoc_get c (df_cols d)). Qed.

(** Store operations on a live reference. *)

Lemma read_live w l d : heap w !! l = Some d -> read l w = (Ok d, w).
Proof. intros H. unfold read. by rewrite H. Qed.

Lemma setitem_live w l d c v :
  heap w !! l = Some d ->
  setitem l c v w = (Ok tt, mkWorld (<[l := set d c v]> (heap w)) (stdout w)).
Proof. intros H. unfold setitem. by rewrite (bind_ok _ _ _ _ _ (read_live _ _ _ H)). Qed.

Lemma setitem_scalar_live w l d c v :
  heap w !! l = Some d ->
  setitem_scalar l c v w
  = (Ok tt, mkWorld (<[l := set_scalar d c v]> (heap w)) (stdout w)).
Proof. intros H. unfold setitem_scalar. by rewrite (bind_ok _ _ _ _ _ (read_live _ _ _ H)). Qed.

Lemma getitem_live w l d c :
  heap w !! l = Some d -> getitem l c w = (get d c, w).
Proof. intros H. unfold getitem. by rewrite (bind_ok _ _ _ _ _ (read_live _ _ _ H)). Qed.

Lemma fresh_not_live (h : gmap loc DataFrame) l d :
  h !! l = Some d -> fresh (dom h) <> l.
Proof.
  intros H E. pose proof (is_fresh (dom h)) as Hf. rewrite E in Hf.
  apply Hf. apply elem_of_dom. eauto.
Qed.

Lemma copy_live w l d :
  heap w !! l = Some d ->
  copy l w = (Ok (fresh (dom (heap w))),
              mkWorld (<[fresh (dom (heap w)) := d]> (heap w)) (stdout w)).
Proof. intros H. unfold copy. by rewrite (bind_ok _ _ _ _ _ (read_live _ _ _ H)). Qed.
End FrameFacts.

Section SplitProofs.
Import Frame Split.

Lemma split_run w df d ca cr :
  heap w !! df = Some d ->
  get d "count_absolute" = Ok ca ->
  get d "count_relative" = Ok cr ->
  let rel := fresh (dom (heap w)) in
  split_relative_absolute_counts df w =
  (Ok [("absolute", df); ("relative", rel)],
   mkWorld (<[rel := relative_of d cr]> (<[df := absolute_of d ca]> (heap w)))
           (stdout w)).
Proof.
  intros Hd Hca Hcr rel. unfold split_relative_absolute_counts.
  assert (Hne : rel <> df) by by apply (fresh_not_live _ _ _ Hd).
  rewrite (bind_ok _ _ _ _ _ (copy_live _ _ _ Hd)). fold rel.
  erewrite bind_ok; last first.
  { erewrite getitem_live; [by rewrite Hca |]. simpl. by rewrite lookup_insert_ne. }
  erewrite bind_ok; last first.
  { eapply setitem_live. simpl. by rewrite lookup_insert_ne. }
  erewrite bind_ok; last first.
  { eapply setitem_scalar_live. simpl. by rewrite lookup_insert_eq. }
  erewrite bind_ok; last first.
  { eapply setitem_scalar_live. simpl. by rewrite lookup_insert_eq. }
  erewrite bind_ok; last first.
  { erewrite getitem_live; [by rewrite Hcr |]. simpl.
    rewrite !lookup_insert_ne by done. by rewrite lookup_insert_eq. }
  erewrite bind_ok; last first.
  { eapply setitem_live. simpl.
    rewrite !lookup_insert_ne by done. by rewrite lookup_insert_eq. }
  erewrite bind_ok; last first.
  { eapply setitem_scalar_live. simpl. by rewrite lookup_insert_eq. }
  erewrite bind_ok; last first.
  { eapply setitem_scalar_live. simpl. by rewrite lookup_insert_eq. }
  unfold mret, M_ret. simpl. f_equal. f_equal.
  unfold absolute_of, relative_of.
  apply map_eq. intros l.
  destruct (decide (l = rel)) as [->|Hl].
  - by rewrite !lookup_insert_eq.
  - rewrite !(lookup_insert_ne _ rel) by done.
    destruct (decide (l = df)) as [->|Hl'].
    + by rewrite !lookup_insert_eq.
    + by rewrite !lookup_insert_ne by done.
Qed.
End SplitProofs.

(** C3.  For every well-formed frame of N rows that has the columns
    [count_absolute] and [count_relative], the measurement split returns
    the two variants ["absolute"] (the input object itself) and
    ["relative"] (a copy), of N rows each, 2N in all.  The absolute
    variant has [measurementValue = count_absolute],
    [measurementUnit = "#"] and [measurementType = "absolute count"]; the
    relative variant has [measurementValue = count_relative],
    [measurementUnit = "%"] and [measurementType = "relative count"]; the
    two variants have the same columns in the same order, and in every
    other column each pair of rows holds the same value, that of the
    input. *)
Theorem split_relative_absolute_counts_rows
    (w : Frame.world) (df : Frame.loc) (d : Frame.DataFrame) (ca cr : list pyval) :
  Frame.heap w !! df = Some d ->
  Frame.wf d ->
  Frame.get d "count_absolute" = Ok ca ->
  Frame.get d "count_relative" = Ok cr ->
  exists rel w' dA dR,
    Split.split_relative_absolute_counts df w
      = (Ok [("absolute", df); ("relative", rel)], w') /\
    rel <> df /\
    Frame.heap w' !! df = Some dA /\ Frame.heap w' !! rel = Some dR /\
    Frame.wf dA /\ Frame.wf dR /\
    (Frame.df_len dA + Frame.df_len dR = 2 * Frame.df_len d)%nat /\
    Frame.get dA "measurementValue" = Ok ca /\
    Frame.get dA "measurementUnit" = Ok (replicate (Frame.df_len d) (PyStr "#")) /\
    Frame.get dA "measurementType"
      = Ok (replicate (Frame.df_len d) (PyStr "absolute count")) /\
    Frame.get dR "measurementValue" = Ok cr /\
    Frame.get dR "measurementUnit" = Ok (replicate (Frame.df_len d) (PyStr "%")) /\
    Frame.get dR "measurementType"
      = Ok (replicate (Frame.df_len d) (PyStr "relative count")) /\
    Frame.columns dA = Frame.columns dR /\
    forall c, c ∉ Split.measurement_columns ->
      Frame.get dA c = Frame.get d c /\ Frame.get dR c = Frame.get d c /\
      forall i, Frame.cell dA c i = Frame.cell dR c i.
Proof.
  intros Hd Hwf Hca Hcr.
  pose proof (split_run w df d ca cr Hd Hca Hcr) as Hrun. simpl in Hrun.
  pose proof (fresh_not_live _ _ _ Hd) as Hne.
  pose proof (get_length _ _ _ Hwf Hca) as Hlca.
  pose proof (get_length _ _ _ Hwf Hcr) as Hlcr.
  eexists _, _, (Split.absolute_of d ca), (Split.relative_of d cr).
  split; [exact Hrun |]. split; [exact Hne |]. cbn [Frame.heap].
  split; [by rewrite lookup_insert_ne, lookup_insert_eq |].
  split; [by rewrite lookup_insert_eq |].
  unfold Split.absolute_of, Split.relative_of.
  split; [by do 2 apply wf_set_scalar; apply wf_set |].
  split; [by do 2 apply wf_set_scalar; apply wf_set |].
  split; [simpl; lia |].
  unfold Frame.set_scalar.
  split; [by rewrite 2!get_set_ne, get_set_eq |].
  split; [by rewrite get_set_ne, get_set_eq |].
  split; [by rewrite get_set_eq |].
  split; [by rewrite 2!get_set_ne, get_set_eq |].
  split; [by rewrite get_set_ne, get_set_eq |].
  split; [by rewrite get_set_eq |].
  split.
  { by rewrite !columns_set. }
  intros c Hc. unfold Split.measurement_columns in Hc.
  assert (Hv : "measurementValue" <> c) by (intros <-; apply Hc; elem_here).
  assert (Hu : "measurementUnit" <> c) by (intros <-; apply Hc; elem_here).
  assert (Ht : "measurementType" <> c) by (intros <-; apply Hc; elem_here).
  split; [by rewrite !get_set_ne |]. split; [by rewrite !get_set_ne |].
  intros i. rewrite !cell_get. by rewrite !get_set_ne.
Qed.

Lemma two_rows_wf : Frame.wf Samples.two_rows.
Proof.
  split.
  - apply (bool_decide_eq_true_1 (NoDup (Frame.columns Samples.two_rows))). by_vm.
  - repeat constructor.
Qed.

Lemma split_relative_absolute_counts_rows_witness :
  exists rel w' dA dR,
    Split.split_relative_absolute_counts 0%nat Samples.one_frame
      = (Ok [("absolute", 0%nat); ("relative", rel)], w') /\
    Frame.heap w' !! 0%nat = Some dA /\ Frame.heap w' !! rel = Some dR /\
    (Frame.df_len dA + Frame.df_len dR = 4)%nat.
Proof.
  destruct (split_relative_absolute_counts_rows
              Samples.one_frame 0%nat Samples.two_rows
              [PyInt 10; PyInt 30]
              [PyFloat (Enricher.float64_of_int 25); PyFloat (Enricher.float64_of_int 75)]
              (lookup_singleton_eq _ _) two_rows_wf eq_refl eq_refl)
    as (rel & w' & dA & dR & H1 & _ & H2 & H3 & _ & _ & H4 & _).
  exists rel, w', dA, dR. auto.
Defined.

Section SchemaProofs.
Import Frame Schema.

Lemma fill_len ms : forall d, df_len (fill ms d) = df_len d.
Proof. induction ms as [|c ms IH]; intros d; [done |]. simpl. by rewrite IH. Qed.

Lemma fill_wf ms : forall d, wf d -> wf (fill ms d).
Proof.
  induction ms as [|c ms IH]; intros d H; [done |]. simpl.
  by apply IH, wf_set_scalar.
Qed.

Lemma fill_get_other ms c : forall d, c ∉ ms -> get (fill ms d) c = get d c.
Proof.
  induction ms as [|c0 ms IH]; intros d H; [done |]. simpl.
  apply not_elem_of_cons in H as [Hne Hin].
  rewrite IH by done. unfold set_scalar. by rewrite get_set_ne.
Qed.

Lemma fill_get_missing ms c : forall d,
  c ∈ ms -> get (fill ms d) c = Ok (replicate (df_len d) PyNone).
Proof.
  induction ms as [|c0 ms IH]; intros d H; [by apply elem_of_nil in H |]. simpl.
  destruct (decide (c ∈ ms)) as [Hin|Hin].
  - by rewrite IH.
  - apply elem_of_cons in H as [->|H]; [| done].
    rewrite fill_get_other by done. unfold set_scalar. by rewrite get_set_eq.
Qed.

Lemma for_each_fill df ms : forall w d,
  heap w !! df = Some d ->
  for_each (fun _ col => setitem_scalar df col PyNone) tt ms w
  = (Ok tt, mkWorld (<[df := fill ms d]> (heap w)) (stdout w)).
Proof.
  induction ms as [|c ms IH]; intros w d H.
  - simpl. unfold mret, M_ret. rewrite insert_id by done. by destruct w.
  - cbn [for_each]. rewrite (bind_ok _ _ _ _ _ (setitem_scalar_live _ _ _ c PyNone H)).
    erewrite IH; [| simpl; by rewrite lookup_insert_eq].
    simpl. by rewrite insert_insert_eq.
Qed.

Lemma elem_of_missing_cols list_of_set d c :
  set_order list_of_set ->
  c ∈ missing_cols list_of_set d <-> c ∈ FINAL_DWC_SCHEMA /\ c ∉ columns d.
Proof.
  intros Ho. unfold missing_cols. rewrite (Ho _).
  rewrite elem_of_elements, elem_of_difference, !elem_of_list_to_set. done.
Qed.

Lemma elem_of_absent d c :
  c ∈ absent d <-> c ∈ FINAL_DWC_SCHEMA /\ c ∉ columns d.
Proof.
  unfold absent. rewrite list_elem_of_filter. tauto.
Qed.

Lemma project_cols_total d names :
  (forall c, c ∈ names -> exists v, get d c = Ok v) ->
  exists cols, project_cols d names = Ok cols /\
    map fst cols = names /\
    forall c, assoc_get c cols =
              if bool_decide (c ∈ names)
              then match get d c with Ok v => Some v | Raise _ => None end
              else None.
Proof.
  induction names as [|c0 names IH]; intros H.
  - exists []. split; [done |]. split; [done |]. intros c.
    case_bool_decide as Hc; [by apply elem_of_nil in Hc | done].
  - destruct (H c0) as [v0 Hv0]; [by left |].
    destruct IH as (cols & Hp & Hk & Hg); [intros c Hc; apply H; by right |].
    exists ((c0, v0) :: cols). cbn [project_cols]. rewrite Hv0, Hp.
    split; [done |]. split; [simpl; by rewrite Hk |].
    intros c. cbn [assoc_get]. destruct (decide (c = c0)) as [->|Hne].
    + rewrite !bool_decide_eq_true_2; [by rewrite Hv0 | by left | done].
    + rewrite (bool_decide_eq_false_2 (c = c0)) by done. rewrite Hg.
      destruct (decide (c ∈ names)) as [Hin|Hin].
      * rewrite !bool_decide_eq_true_2; [done | by right | done].
      * rewrite !bool_decide_eq_false_2; [done | | done].
        intros [?|?]%elem_of_cons; done.
Qed.

Lemma assoc_get_NoDup {V} k (v : V) l :
  NoDup (map fst l) -> (k, v) ∈ l -> assoc_get k l = Some v.
Proof.
  induction l as [|[k0 v0] l IH]; intros Hnd Hin; [by apply elem_of_nil in Hin |].
  cbn [map fst] in Hnd. apply NoDup_cons in Hnd as [Hk0 Hnd].
  cbn [assoc_get]. apply elem_of_cons in Hin as [[= -> ->]|Hin].
  - by rewrite bool_decide_eq_true_2.
  - rewrite bool_decide_eq_false_2; [by apply IH |].
    intros ->. apply Hk0. apply list_elem_of_fmap. by exists (k0, v).
Qed.

Lemma schema_length : length FINAL_DWC_SCHEMA = 31%nat.
Proof. reflexivity. Qed.

Lemma schema_NoDup : NoDup FINAL_DWC_SCHEMA.
Proof. apply (bool_decide_eq_true_1 (NoDup FINAL_DWC_SCHEMA)). by_vm. Qed.

Lemma get_is_Some d c : c ∈ columns d -> exists v, get d c = Ok v.
Proof.
  intros H. apply assoc_get_Some in H as [v Hv]. exists v.
  unfold get. by rewrite Hv.
Qed.

Lemma get_is_Ok d c v : get d c = Ok v -> c ∈ columns d.
Proof.
  unfold get. destruct (assoc_get c (df_cols d)) eqn:E; [| done].
  intros _. apply assoc_get_Some. eauto.
Qed.

Lemma missing_cols_absent list_of_set d :
  set_order list_of_set -> missing_cols list_of_set d ≡ₚ absent d.
Proof.
  intros Ho. apply NoDup_Permutation.
  - unfold missing_cols. rewrite (Ho _). apply NoDup_elements.
  - apply NoDup_filter, schema_NoDup.
  - intros c. by rewrite elem_of_missing_cols, elem_of_absent.
Qed.

Lemma missing_cols_nil list_of_set d :
  set_order list_of_set -> missing_cols list_of_set d = [] <-> absent d = [].
Proof.
  intros Ho. pose proof (missing_cols_absent list_of_set d Ho) as Hp. split.
  - intros H. rewrite H in Hp. by apply Permutation_nil_l in Hp.
  - intros H. rewrite H in Hp. by apply Permutation_nil_r in Hp.
Qed.
End SchemaProofs.

Lemma enforce_schema_order_run
    (list_of_set : gset string -> list string)
    (w : Frame.world) (df : Frame.loc) (d : Frame.DataFrame) :
  Schema.set_order list_of_set ->
  Frame.heap w !! df = Some d ->
  Frame.wf d ->
  exists out w' dO,
    Schema.enforce_schema_order list_of_set df w = (Ok out, w') /\
    out <> df /\
    Frame.heap w' !! out = Some dO /\
    Frame.columns dO = Schema.FINAL_DWC_SCHEMA /\
    length (Frame.columns dO) = 31%nat /\
    Frame.df_len dO = Frame.df_len d /\
    Frame.wf dO /\
    (forall c, c ∈ Schema.FINAL_DWC_SCHEMA ->
       Frame.get dO c = if bool_decide (c ∈ Frame.columns d) then Frame.get d c
                        else Ok (replicate (Frame.df_len d) PyNone)) /\
    Schema.missing_cols list_of_set d ≡ₚ Schema.absent d /\
    Frame.stdout w' =
      Frame.stdout w ++
      (if bool_decide (Schema.absent d = []) then []
       else [Schema.warning (Schema.missing_cols list_of_set d)]).
Proof.
  intros Ho Hd Hwf. unfold Schema.enforce_schema_order.
  rewrite (bind_ok _ _ _ _ _ (read_live _ _ _ Hd)).
  set (ms := Schema.missing_cols list_of_set d).
  set (d' := Schema.fill ms d).
  set (w1 := Frame.mkWorld (<[df := d']> (Frame.heap w))
               (Frame.stdout w ++ (if bool_decide (ms = []) then []
                                   else [Schema.warning ms]))).
  assert (Hloop :
    (if bool_decide (ms = []) then mret tt
     else Frame.print (Schema.warning ms) ≫= fun _ =>
          for_each (fun _ col => Frame.setitem_scalar df col PyNone) tt ms) w
    = (Ok tt, w1)).
  { unfold w1, d'. destruct (decide (ms = [])) as [Hms|Hms].
    - rewrite !bool_decide_eq_true_2 by done.
      rewrite Hms. unfold mret, M_ret. simpl.
      rewrite insert_id by done. rewrite app_nil_r. by destruct w.
    - rewrite !bool_decide_eq_false_2 by done.
      unfold Frame.print, modify.
      erewrite bind_ok by reflexivity.
      by erewrite for_each_fill by exact Hd. }
  rewrite (bind_ok _ _ _ _ _ Hloop).
  assert (Hd' : Frame.heap w1 !! df = Some d') by (simpl; by rewrite lookup_insert_eq).
  assert (Hget : forall c, c ∈ Schema.FINAL_DWC_SCHEMA ->
            Frame.get d' c = if bool_decide (c ∈ Frame.columns d) then Frame.get d c
                             else Ok (replicate (Frame.df_len d) PyNone)).
  { intros c Hc. unfold d'. destruct (decide (c ∈ Frame.columns d)) as [Hin|Hin].
    - rewrite bool_decide_eq_true_2 by done.
      apply fill_get_other. unfold ms. rewrite elem_of_missing_cols by done. tauto.
    - rewrite bool_decide_eq_false_2 by done.
      apply fill_get_missing. unfold ms. by rewrite elem_of_missing_cols. }
  destruct (project_cols_total d' Schema.FINAL_DWC_SCHEMA) as (cols & Hp & Hk & Hg).
  { intros c Hc. rewrite (Hget c Hc).
    destruct (decide (c ∈ Frame.columns d)) as [Hin|Hin].
    - rewrite bool_decide_eq_true_2 by done. by apply get_is_Some.
    - rewrite bool_decide_eq_false_2 by done. eauto. }
  unfold Frame.getitem_list.
  rewrite (bind_ok _ _ _ _ _ (read_live _ _ _ Hd')).
  unfold Frame.project. rewrite Hp. cbn [mbind result_bind].
  erewrite bind_ok by reflexivity.
  unfold Frame.new.
  eexists _, _, (Frame.mkDF (Frame.df_len d') cols).
  split; [reflexivity |].
  split; [by apply (fresh_not_live _ _ _ Hd') |].
  cbn [Frame.heap Frame.stdout]. split; [by rewrite lookup_insert_eq |].
  split; [exact Hk |].
  split; [unfold Frame.columns; cbn [Frame.df_cols]; by rewrite Hk |].
  split; [apply fill_len |].
  assert (Hcol : forall c, c ∈ Schema.FINAL_DWC_SCHEMA ->
            Frame.get (Frame.mkDF (Frame.df_len d') cols) c = Frame.get d' c).
  { intros c Hc. unfold Frame.get at 1. cbn [Frame.df_cols]. rewrite Hg.
    rewrite bool_decide_eq_true_2 by done.
    destruct (Frame.get d' c) eqn:E; [done |].
    rewrite (Hget c Hc) in E.
    destruct (decide (c ∈ Frame.columns d)) as [Hin|Hin].
    - rewrite bool_decide_eq_true_2 in E by done.
      apply get_is_Some in Hin as [v Hv]. congruence.
    - by rewrite bool_decide_eq_false_2 in E by done. }
  split.
  { split.
    - unfold Frame.columns. cbn [Frame.df_cols]. rewrite Hk. apply schema_NoDup.
    - cbn [Frame.df_len Frame.df_cols]. apply Forall_forall. intros [c v] Hin.
      cbn [snd].
      assert (Hc : c ∈ Schema.FINAL_DWC_SCHEMA).
      { rewrite <- Hk. apply list_elem_of_fmap. by exists (c, v). }
      assert (Hgv : Frame.get d' c = Ok v).
      { rewrite <- (Hcol c Hc). unfold Frame.get. cbn [Frame.df_cols].
        rewrite (assoc_get_NoDup c v cols); [done | | done].
        rewrite Hk. apply schema_NoDup. }
      apply (get_length d' c v); [by apply fill_wf | done]. }
  split.
  { intros c Hc. by rewrite (Hcol c Hc), (Hget c Hc). }
  split; [by apply missing_cols_absent |].
  unfold w1, ms. cbn [Frame.stdout].
  by rewrite (bool_decide_ext _ _ (missing_cols_nil list_of_set d Ho)).
Qed.

(** C7.  For every input frame with distinct column names, and whatever
    the order in which the interpreter lists a set, the final projection
    [enforce_schema_order] returns a new frame whose columns are exactly
    [FINAL_DWC_SCHEMA], in that order: all 31 of them, not 30.  A schema
    column that the input has keeps its cells; a schema column that the
    input lacks is created with every cell unset ([None]).  When, and only
    when, some schema column is lacking, one warning line is printed; it
    names each lacking column once, in the order of the set. *)
Theorem enforce_schema_order_projection
    (list_of_set : gset string -> list string)
    (w : Frame.world) (df : Frame.loc) (d : Frame.DataFrame) :
  Schema.set_order list_of_set ->
  Frame.heap w !! df = Some d ->
  Frame.wf d ->
  exists out w' dO,
    Schema.enforce_schema_order list_of_set df w = (Ok out, w') /\
    out <> df /\
    Frame.heap w' !! out = Some dO /\
    Frame.columns dO = Schema.FINAL_DWC_SCHEMA /\
    length (Frame.columns dO) = 31%nat /\
    Frame.df_len dO = Frame.df_len d /\
    Frame.wf dO /\
    (forall c, c ∈ Schema.FINAL_DWC_SCHEMA ->
       Frame.get dO c = if bool_decide (c ∈ Frame.columns d) then Frame.get d c
                        else Ok (replicate (Frame.df_len d) PyNone)) /\
    Schema.missing_cols list_of_set d
      ≡ₚ filter (fun c => c ∉ Frame.columns d) Schema.FINAL_DWC_SCHEMA /\
    Frame.stdout w' =
      Frame.stdout w ++
      (if bool_decide (Forall (fun c => c ∈ Frame.columns d)
                              Schema.FINAL_DWC_SCHEMA)
       then []
       else ["Warning: Adding missing DwC columns: "
             +:+ Schema.repr_list (Schema.missing_cols list_of_set d)]).
Proof.
  intros Ho Hd Hwf.
  destruct (enforce_schema_order_run list_of_set w df d Ho Hd Hwf)
    as (out & w' & dO & H1 & H2 & H3 & H4 & H5 & H6 & H7 & H8 & H9 & H10).
  exists out, w', dO. repeat (split; [assumption |]).
  rewrite H10. f_equal.
  assert (Hiff : Schema.absent d = [] <->
                 Forall (fun c => c ∈ Frame.columns d) Schema.FINAL_DWC_SCHEMA).
  { rewrite Forall_forall. split.
    - intros Ha c Hc.
      destruct (decide (c ∈ Frame.columns d)) as [|Hn]; [done |].
      assert (c ∈ Schema.absent d) as Hin by by apply elem_of_absent.
      rewrite Ha in Hin. by apply elem_of_nil in Hin.
    - intros HF. destruct (Schema.absent d) as [|c l] eqn:E; [done |].
      assert (c ∈ Schema.absent d) as Hin by (rewrite E; by left).
      apply elem_of_absent in Hin as [Hc Hn]. by specialize (HF c Hc). }
  by rewrite (bool_decide_ext _ _ Hiff).
Qed.

Lemma enforce_schema_order_projection_witness :
  exists out w' dO,
    Schema.enforce_schema_order elements 0%nat Samples.one_frame
      = (Ok out, w') /\
    Frame.heap w' !! out = Some dO /\
    Frame.columns dO = Schema.FINAL_DWC_SCHEMA /\
    length (Frame.columns dO) = 31%nat.
Proof.
  destruct (enforce_schema_order_projection elements
              Samples.one_frame 0%nat Samples.two_rows
              (fun X => reflexivity (elements X))
              (lookup_singleton_eq _ _) two_rows_wf)
    as (out & w' & dO & H1 & _ & H2 & H3 & H4 & _).
  exists out, w', dO. auto.
Defined.

(** On a two-row frame the projection returns 31 columns, so "all 30
    schema columns" fails. *)
Lemma schema_has_31_columns :
  exists out w' dO,
    Schema.enforce_schema_order elements 0%nat Samples.one_frame = (Ok out, w') /\
    Frame.heap w' !! out = Some dO /\
    Frame.columns dO = Schema.FINAL_DWC_SCHEMA /\
    length (Frame.columns dO) = 31%nat /\
    length (Frame.columns dO) <> 30%nat.
Proof.
  destruct (enforce_schema_order_run elements
              Samples.one_frame 0%nat Samples.two_rows
              (fun X => reflexivity (elements X))
              (lookup_singleton_eq _ _) two_rows_wf)
    as (out & w' & dO & H1 & _ & H2 & H3 & H4 & _).
  exists out, w', dO. rewrite H4. repeat split; [done .. |]. discriminate.
Qed.

Section JoinFacts.
Import Str.
Variable sep : string.

Lemma join_cons x l : join sep (x :: l) = x +:+ join_after sep l.
Proof.
  revert x. induction l as [|y l IH]; intros x.
  - simpl. by rewrite str_app_nil_r.
  - cbn [join join_after]. cbn [join] in IH. by rewrite IH.
Qed.

Lemma join_app P x S :
  join sep (P ++ x :: S) = join_before sep P +:+ x +:+ join_after sep S.
Proof.
  induction P as [|p P IH].
  - cbn [app join_before]. rewrite str_app_nil_l. apply join_cons.
  - cbn [app join_before]. rewrite join_cons.
    destruct (P ++ x :: S) as [|y l] eqn:E; [by destruct P |].
    cbn [join_after]. rewrite <- join_cons, IH. by rewrite !str_app_assoc.
Qed.

Lemma join_length l :
  (String.length (join sep l) + String.length sep = total_length sep l)%nat
  \/ l = [].
Proof.
  induction l as [|x l IH]; [by right |]. left.
  destruct IH as [IH| ->].
  - destruct l as [|y l]; [done |].
    change (join sep (x :: y :: l)) with (x +:+ sep +:+ join sep (y :: l)).
    rewrite !str_length_app. cbn [total_length] in *. lia.
  - simpl. lia.
Qed.

Lemma total_length_app l k :
  total_length sep (l ++ k) = (total_length sep l + total_length sep k)%nat.
Proof. induction l as [|x l IH]; [done |]. simpl. rewrite IH. lia. Qed.
End JoinFacts.

Section OccurrenceProofs.
Import Frame Occurrence.
Variable float_str : spec_float -> string.

Abbreviation oid := (occurrence_id float_str).
Abbreviation present := (fun v => negb (isna v)).

Lemma rendered_app P x S :
  map (py_str float_str) (List.filter present (P ++ x :: S)) =
  map (py_str float_str) (List.filter present P)
  ++ (if isna x then [] else [py_str float_str x])
  ++ map (py_str float_str) (List.filter present S).
Proof.
  rewrite List.filter_app, List.map_app. f_equal. cbn [List.filter].
  by destruct (isna x).
Qed.

Lemma oid_dropna P S a : isna a = true -> oid (P ++ a :: S) = oid (P ++ S).
Proof.
  intros H. unfold occurrence_id. rewrite rendered_app, H.
  by rewrite List.filter_app, List.map_app.
Qed.

Lemma oid_change_present P S a b :
  isna a = false -> isna b = false ->
  py_str float_str a <> py_str float_str b ->
  oid (P ++ a :: S) <> oid (P ++ b :: S).
Proof.
  intros Ha Hb Hne. unfold occurrence_id. rewrite !rendered_app, Ha, Hb.
  cbn [app]. rewrite !join_app. intros E.
  apply str_app_inv_head, str_app_inv_tail in E. done.
Qed.

Lemma oid_change_missing P S a b :
  isna a = true -> isna b = false ->
  (py_str float_str b <> "" \/ exists v, v ∈ P ++ S /\ isna v = false) ->
  oid (P ++ a :: S) <> oid (P ++ b :: S).
Proof.
  intros Ha Hb Hor. rewrite (oid_dropna _ _ _ Ha).
  unfold occurrence_id. rewrite rendered_app, Hb. cbn [app].
  rewrite List.filter_app, List.map_app.
  set (P' := map (py_str float_str) (List.filter present P)).
  set (S' := map (py_str float_str) (List.filter present S)).
  intros E. apply (f_equal String.length) in E.
  destruct (join_length sep (P' ++ py_str float_str b :: S')) as [H1|H1];
    [| by destruct P'].
  rewrite total_length_app in H1. cbn [Str.total_length] in H1.
  destruct (join_length sep (P' ++ S')) as [H2|H2].
  - rewrite total_length_app in H2. change (String.length sep) with 1%nat in *. lia.
  - apply app_eq_nil in H2 as [HP HS].
    destruct Hor as [Hb'|(v & Hv & Hnv)].
    + rewrite HP, HS in E. cbn in E. destruct (py_str float_str b); [done | discriminate].
    + apply elem_of_app in Hv as [Hv|Hv].
      * assert (py_str float_str v ∈ P') as Hin.
        { apply list_elem_of_fmap. exists v. split; [done |].
          apply list_elem_of_In, List.filter_In. split; [by apply list_elem_of_In |].
          by rewrite Hnv. }
        rewrite HP in Hin. by apply elem_of_nil in Hin.
      * assert (py_str float_str v ∈ S') as Hin.
        { apply list_elem_of_fmap. exists v. split; [done |].
          apply list_elem_of_In, List.filter_In. split; [by apply list_elem_of_In |].
          by rewrite Hnv. }
        rewrite HS in Hin. by apply elem_of_nil in Hin.
Qed.

Lemma project_cols_row d i names : forall cols,
  project_cols d names = Ok cols ->
  map (fun kv : string * list pyval => default PyNone (snd kv !! i)) cols
  = map (fun c => default PyNone (cell d c i)) names.
Proof.
  induction names as [|c names IH]; intros cols H.
  - injection H as <-. done.
  - cbn [project_cols] in H. 
    destruct (get d c) as [v|] eqn:Hv; [| done]. cbn [mbind result_bind] in H.
    destruct (project_cols d names) as [rest|] eqn:Hr; [| done].
    injection H as <-. cbn [map snd]. rewrite (IH rest eq_refl).
    f_equal. by rewrite cell_get, Hv.
Qed.

Lemma project_cols_columns d names : forall cols,
  project_cols d names = Ok cols -> map fst cols = names.
Proof.
  induction names as [|c names IH]; intros cols H.
  - by injection H as <-.
  - cbn [project_cols] in H.
    destruct (get d c) as [v|] eqn:Hv; [| done]. cbn [mbind result_bind] in H.
    destruct (project_cols d names) as [rest|] eqn:Hr; [| done].
    injection H as <-. cbn [map fst]. by rewrite (IH rest eq_refl).
Qed.

Lemma project_present d names :
  Forall (fun c => c ∈ columns d) names ->
  exists cols, project d names = Ok (mkDF (df_len d) cols) /\
               project_cols d names = Ok cols.
Proof.
  intros H. destruct (project_cols_total d names) as (cols & Hp & _).
  { intros c Hc. rewrite Forall_forall in H. by apply get_is_Some, H. }
  exists cols. unfold project. by rewrite Hp.
Qed.

(** The rows of the projected frame, as the function receives them. *)
Lemma row_values_project dtype_of d names cols i :
  project_cols d names = Ok cols ->
  row_values dtype_of (mkDF (df_len d) cols) i
  = map (fun c => as_dtype (common_dtype (map dtype_of names))
                           (default PyNone (cell d c i)))
        names.
Proof.
  intros H. unfold row_values, row, columns. cbn [df_cols].
  rewrite (project_cols_columns _ _ _ H), (project_cols_row _ i _ _ H).
  by rewrite List.map_map.
Qed.

Lemma add_occurrence_run dtype_of w df d sub :
  heap w !! df = Some d ->
  project d id_columns = Ok sub ->
  add_occurrence float_str dtype_of df w =
  (Ok df,
   mkWorld (<[df := set_scalar
                      (set d "occurrenceID" (apply_rows dtype_of oid sub))
                      "occurrenceStatus" (PyStr "present")]> (heap w))
           (stdout w)).
Proof.
  intros Hd Hs. unfold add_occurrence.
  rewrite (bind_ok _ _ _ _ _ (read_live _ _ _ Hd)).
  rewrite Hs. erewrite bind_ok by reflexivity.
  rewrite (bind_ok _ _ _ _ _ (setitem_live _ _ _ _ _ Hd)).
  erewrite bind_ok; last first.
  { eapply setitem_scalar_live. simpl. by rewrite lookup_insert_eq. }
  unfold mret, M_ret. simpl. by rewrite insert_insert_eq.
Qed.

Lemma add_occurrence_ids dtype_of w df d :
  heap w !! df = Some d ->
  Forall (fun c => c ∈ columns d) id_columns ->
  exists w' d',
    add_occurrence float_str dtype_of df w = (Ok df, w') /\
    heap w' !! df = Some d' /\
    get d' "occurrenceStatus" = Ok (replicate (df_len d) (PyStr "present")) /\
    get d' "occurrenceID"
      = Ok (map (fun i => PyStr (oid
                   (map (fun c => as_dtype
                                    (common_dtype (map dtype_of id_columns))
                                    (default PyNone (cell d c i)))
                        id_columns)))
                (seq 0 (df_len d))).
Proof.
  intros Hd Hc. destruct (project_present d id_columns Hc) as (cols & Hs & Hp).
  eexists _, _. split; [by apply add_occurrence_run |].
  cbn [heap]. split; [by rewrite lookup_insert_eq |].
  unfold set_scalar. split; [by rewrite get_set_eq |].
  rewrite get_set_ne by done. rewrite get_set_eq. f_equal.
  unfold apply_rows. cbn [df_len]. apply map_ext. intros i.
  by rewrite (row_values_project _ _ _ _ _ Hp).
Qed.
End OccurrenceProofs.

(** C4.  [add_occurrence] sets [occurrenceStatus] to ["present"] and each
    row's [occurrenceID] to a function of that row's six identifier cells
    and of the dtypes of the six columns alone: the cells are taken in the
    common dtype of the six columns (an integer next to a float column,
    with no object column, is taken as a float), those that are missing
    are dropped rather than replaced, and the string renderings of the
    others are joined by ["|"].  With [t] the common dtype and
    [P ++ a :: S] the six cells: when the cell [a] changes to [b], the ID
    changes if both are present, as taken in [t], with different
    renderings, and also if [a] is missing and [b] present unless the
    rendering of [b] is empty and every other cell is missing.  On
    identifier columns that are all numeric, one of them of floats, every
    identifier is rendered as a float. *)
Theorem occurrence_id_pipe_join (float_str : spec_float -> string) :
  (forall dtype_of w df d,
      Frame.heap w !! df = Some d ->
      Forall (fun c => c ∈ Frame.columns d) Occurrence.id_columns ->
      Occurrence.typed dtype_of d = true ->
      exists w' d',
        Occurrence.add_occurrence float_str dtype_of df w = (Ok df, w') /\
        Frame.heap w' !! df = Some d' /\
        Frame.get d' "occurrenceStatus"
          = Ok (replicate (Frame.df_len d) (PyStr "present")) /\
        Frame.get d' "occurrenceID"
          = Ok (map (fun i =>
                  PyStr (Str.join "|"
                    (map (Occurrence.py_str float_str)
                      (List.filter (fun v => negb (isna v))
                        (map (fun c =>
                                Occurrence.as_dtype
                                  (Occurrence.common_dtype
                                     (map dtype_of Occurrence.id_columns))
                                  (default PyNone (Frame.cell d c i)))
                             Occurrence.id_columns)))))
                (seq 0 (Frame.df_len d)))) /\
  (forall t P S a,
      isna (Occurrence.as_dtype t a) = true ->
      Occurrence.occurrence_id float_str
        (map (Occurrence.as_dtype t) (P ++ a :: S))
      = Occurrence.occurrence_id float_str
          (map (Occurrence.as_dtype t) (P ++ S))) /\
  (forall t P S a b,
      isna (Occurrence.as_dtype t a) = false ->
      isna (Occurrence.as_dtype t b) = false ->
      Occurrence.py_str float_str (Occurrence.as_dtype t a)
      <> Occurrence.py_str float_str (Occurrence.as_dtype t b) ->
      Occurrence.occurrence_id float_str
        (map (Occurrence.as_dtype t) (P ++ a :: S))
      <> Occurrence.occurrence_id float_str
           (map (Occurrence.as_dtype t) (P ++ b :: S))) /\
  (forall t P S a b,
      isna (Occurrence.as_dtype t a) = true ->
      isna (Occurrence.as_dtype t b) = false ->
      (Occurrence.py_str float_str (Occurrence.as_dtype t b) <> ""
       \/ exists v, v ∈ P ++ S /\ isna (Occurrence.as_dtype t v) = false) ->
      Occurrence.occurrence_id float_str
        (map (Occurrence.as_dtype t) (P ++ a :: S))
      <> Occurrence.occurrence_id float_str
           (map (Occurrence.as_dtype t) (P ++ b :: S))) /\
  (exists w' d',
      Occurrence.add_occurrence float_str Samples.numeric_dtypes 0%nat
        (Frame.mkWorld {[0%nat := Samples.numeric_id_frame 3 3]} [])
      = (Ok 0%nat, w') /\
      Frame.heap w' !! 0%nat = Some d' /\
      Frame.cell d' "occurrenceID" 0
      = Some (PyStr (Str.join "|"
                (map float_str
                   [S754_finite false (1 * 2 ^ 52) (-52);
                    S754_finite false (2 * 2 ^ 51) (-51);
                    S754_finite false (3 * 2 ^ 51) (-51);
                    S754_finite false (4 * 2 ^ 50) (-50);
                    S754_finite false (5 * 2 ^ 50) (-50);
                    S754_finite false (1125 * 2 ^ 42) (-43)])))).
Proof.
  split; [| split; [| split; [| split]]].
  - intros dtype_of w df d Hd Hc _. by apply add_occurrence_ids.
  - intros t P S a Ha. rewrite !List.map_app. cbn [map]. by apply oid_dropna.
  - intros t P S a b Ha Hb Hne. rewrite !List.map_app. cbn [map].
    by apply oid_change_present.
  - intros t P S a b Ha Hb Hor. rewrite !List.map_app. cbn [map].
    apply oid_change_missing; [done | done |].
    destruct Hor as [Hne|(v & Hv & Hnv)]; [by left | right].
    exists (Occurrence.as_dtype t v). split; [| done].
    rewrite <- List.map_app. apply list_elem_of_fmap. by exists v.
  - eexists _, _. split; [vm_compute; reflexivity |].
    split; [vm_compute; reflexivity |]. by_vm.
Qed.

Lemma occurrence_id_pipe_join_witness :
  exists w' d',
    Occurrence.add_occurrence (fun _ => "nan") Samples.id_dtypes 0%nat
      (Frame.mkWorld {[0%nat := Samples.id_frame (PyInt 562) (PyInt 1224)]} [])
    = (Ok 0%nat, w') /\
    Frame.heap w' !! 0%nat = Some d' /\
    Frame.get d' "occurrenceID"
    = Ok [PyStr "ERP000001|SRP000001|ERR000001|7|SAMEA0000001|ERS000001|MGYA00000001|562";
          PyStr "ERP000001|SRP000001|ERR000001|7|SAMEA0000001|ERS000001|MGYA00000001|1224"].
Proof.
  destruct (proj1 (occurrence_id_pipe_join (fun _ => "nan"))
              Samples.id_dtypes
              (Frame.mkWorld {[0%nat := Samples.id_frame (PyInt 562) (PyInt 1224)]} [])
              0%nat (Samples.id_frame (PyInt 562) (PyInt 1224)))
    as (w' & d' & H1 & H2 & _ & H3).
  - reflexivity.
  - repeat constructor; elem_here.
  - reflexivity.
  - exists w', d'. split; [exact H1 |]. split; [exact H2 |]. exact H3.
Defined.

(** Rows that differ in one identifier cell and have the same ID: the
    taxon id as the integer 562 and as the string ["562"]; a row with no
    identifier against a row whose only identifier is the empty string;
    and, on identifier columns taken as floats, the sequence ids [2^53]
    and [2^53 + 1], which are the same float. *)
Lemma occurrence_id_collision :
  (Occurrence.typed Samples.id_dtypes
     (Samples.id_frame (PyInt 562) (PyStr "562")) = true /\
   Occurrence.typed (fun _ => Occurrence.Object)
     (Samples.lone_id_frame PyNone (PyStr "")) = true /\
   Occurrence.typed Samples.numeric_dtypes
     (Samples.numeric_id_frame (2 ^ 53) (2 ^ 53 + 1)) = true) /\
  forall float_str : spec_float -> string,
    (exists w' d',
       Occurrence.add_occurrence float_str Samples.id_dtypes 0%nat
         (Frame.mkWorld {[0%nat := Samples.id_frame (PyInt 562) (PyStr "562")]} [])
       = (Ok 0%nat, w') /\
       Frame.heap w' !! 0%nat = Some d' /\
       Frame.get d' "scientificNameID" = Ok [PyInt 562; PyStr "562"] /\
       Frame.get d' "occurrenceID"
       = Ok [PyStr "ERP000001|SRP000001|ERR000001|7|SAMEA0000001|ERS000001|MGYA00000001|562";
             PyStr "ERP000001|SRP000001|ERR000001|7|SAMEA0000001|ERS000001|MGYA00000001|562"]) /\
    (exists w' d',
       Occurrence.add_occurrence float_str (fun _ => Occurrence.Object) 0%nat
         (Frame.mkWorld {[0%nat := Samples.lone_id_frame PyNone (PyStr "")]} [])
       = (Ok 0%nat, w') /\
       Frame.heap w' !! 0%nat = Some d' /\
       Frame.get d' "collectionID" = Ok [PyNone; PyStr ""] /\
       Frame.get d' "occurrenceID" = Ok [PyStr ""; PyStr ""]) /\
    (exists w' d' id,
       Occurrence.add_occurrence float_str Samples.numeric_dtypes 0%nat
         (Frame.mkWorld
            {[0%nat := Samples.numeric_id_frame (2 ^ 53) (2 ^ 53 + 1)]} [])
       = (Ok 0%nat, w') /\
       Frame.heap w' !! 0%nat = Some d' /\
       Frame.get d' "associatedSequences"
       = Ok [PyInt 9007199254740992; PyInt 9007199254740993] /\
       Frame.get d' "occurrenceID" = Ok [PyStr id; PyStr id]).
Proof.
  split; [by repeat split |].
  intros float_str. split; [| split].
  - eexists _, _. split; [vm_compute; reflexivity |].
    split; [vm_compute; reflexivity |]. split; by_vm.
  - eexists _, _. split; [vm_compute; reflexivity |].
    split; [vm_compute; reflexivity |]. split; by_vm.
  - eexists _, _, _. split; [vm_compute; reflexivity |].
    split; [vm_compute; reflexivity |].
    split; [by_vm |]. vm_compute. reflexivity.
Qed.

Section BatchProofs.
Import Selector Batch.
Variable md5_hexdigest : string -> string.
Variable requests_get : string -> result string.
Variable process_run : RunRecord -> resource -> string -> string -> M world unit.

Lemma download_file_no_cache_dir url w :
  download_file md5_hexdigest requests_get url "" true w
  = (Raise (not_found url), w).
Proof. reflexivity. Qed.

Lemma download_file_miss url cache_dir w :
  Str.truthy cache_dir = true ->
  files w !! cache_dir = None ->
  os_path_exists (with_dir cache_dir w)
                 (cache_filename md5_hexdigest url cache_dir) = false ->
  download_file md5_hexdigest requests_get url cache_dir true w
  = (Raise (not_found url), with_dir cache_dir w).
Proof.
  intros Ht Hf He. unfold download_file. rewrite Ht.
  assert (Hmk : os_makedirs cache_dir w = (Ok tt, with_dir cache_dir w)).
  { unfold os_makedirs. rewrite Hf.
    rewrite bool_decide_eq_false_2; [done | by intros [? ?]]. }
  erewrite bind_ok; last first.
  { erewrite bind_ok by exact Hmk.
    erewrite bind_ok by reflexivity. cbn beta. rewrite He. reflexivity. }
  reflexivity.
Qed.

Lemma download_file_dir_is_file url cache_dir w :
  Str.truthy cache_dir = true ->
  is_Some (files w !! cache_dir) ->
  download_file md5_hexdigest requests_get url cache_dir true w
  = (Raise (FileExistsError cache_dir), w).
Proof.
  intros Ht Hf. unfold download_file. rewrite Ht.
  erewrite bind_raise; [reflexivity |].
  erewrite bind_raise; [reflexivity |].
  unfold os_makedirs. by rewrite bool_decide_eq_true_2.
Qed.

Lemma run_step_miss meta filtered total count done run pages tsv w :
  meta !! study_accession run = Some (Some pages) ->
  filtered !! run_accession run = Some tsv ->
  os_path_exists (with_dir "tsv_file_cache" w)
    (cache_filename md5_hexdigest (self_link tsv) "tsv_file_cache") = false ->
  exists w',
    run_step md5_hexdigest requests_get process_run
      meta filtered total (count, done) run w = (Ok (S count, done), w') /\
    files w' = files w.
Proof.
  intros Hm Hf He. unfold run_step, ONLY_USE_CACHE. rewrite Hm, Hf. cbn [mjoin option_join].
  set (w0 := mkWorld (dirs w) (files w)
               (stdout w ++ [processing_line (S count) done total run])).
  erewrite bind_ok by reflexivity. fold w0.
  destruct (files w !! "tsv_file_cache") as [txt|] eqn:Hc.
  - erewrite bind_ok; last first.
    { unfold try_.
      rewrite (download_file_dir_is_file (self_link tsv) "tsv_file_cache" w0);
        [reflexivity | reflexivity | by (simpl; rewrite Hc)]. }
    cbn beta iota.
    erewrite bind_ok by reflexivity. eexists. split; [reflexivity |]. done.
  - erewrite bind_ok; last first.
    { unfold try_.
      rewrite (download_file_miss (self_link tsv) "tsv_file_cache" w0);
        [reflexivity | reflexivity | exact Hc | exact He]. }
    cbn beta iota. eexists. split; [reflexivity |]. done.
Qed.
End BatchProofs.

(** C9.  In cache-only mode, [download_file] on a URL whose cache entry is
    absent raises [FileNotFoundError] for that URL instead of fetching
    (whatever the network would answer), leaving no file written.  In the
    batch loop, a run whose resource has no cache entry is skipped: the
    step raises nothing, counts the run, leaves [done] and the files
    as they were without processing the run, and the loop goes on with
    the remaining runs. *)
Theorem cache_only_miss_skips_run
    (md5_hexdigest : string -> string)
    (requests_get : string -> result string)
    (process_run : Batch.RunRecord -> Selector.resource -> string -> string
                   -> M Batch.world unit) :
  (forall url cache_dir w,
      Str.truthy cache_dir = true ->
      Batch.files w !! cache_dir = None ->
      Batch.os_path_exists (Batch.with_dir cache_dir w)
        (Batch.cache_filename md5_hexdigest url cache_dir) = false ->
      Batch.download_file md5_hexdigest requests_get url cache_dir true w
      = (Raise (Batch.not_found url), Batch.with_dir cache_dir w)) /\
  (forall url w,
      Batch.download_file md5_hexdigest requests_get url "" true w
      = (Raise (Batch.not_found url), w)) /\
  (forall meta filtered total count done run rest pages tsv w,
      meta !! Batch.study_accession run = Some (Some pages) ->
      filtered !! Batch.run_accession run = Some tsv ->
      Batch.os_path_exists (Batch.with_dir "tsv_file_cache" w)
        (Batch.cache_filename md5_hexdigest (Selector.self_link tsv)
           "tsv_file_cache") = false ->
      exists w',
        Batch.run_step md5_hexdigest requests_get process_run
          meta filtered total (count, done) run w = (Ok (S count, done), w') /\
        Batch.files w' = Batch.files w /\
        for_each (Batch.run_step md5_hexdigest requests_get process_run
                    meta filtered total) (count, done) (run :: rest) w
        = for_each (Batch.run_step md5_hexdigest requests_get process_run
                      meta filtered total) (S count, done) rest w').
Proof.
  split; [apply download_file_miss |].
  split; [apply download_file_no_cache_dir |].
  intros meta filtered total count done run rest pages tsv w Hm Hf He.
  destruct (run_step_miss md5_hexdigest requests_get process_run
              meta filtered total count done run pages tsv w Hm Hf He)
    as (w' & Hstep & Hfiles).
  exists w'. split; [exact Hstep |]. split; [exact Hfiles |].
  cbn [for_each]. by rewrite (bind_ok _ _ _ _ _ Hstep).
Qed.

Lemma cache_only_miss_skips_run_witness :
  Batch.download_file Samples.md5_stub Samples.offline
    "https://www.ebi.ac.uk/x/ERR000001_merged_SSU_OTU.tsv" "tsv_file_cache"
    true Samples.empty_world
  = (Raise (Batch.not_found "https://www.ebi.ac.uk/x/ERR000001_merged_SSU_OTU.tsv"),
     Batch.with_dir "tsv_file_cache" Samples.empty_world) /\
  exists w',
    Batch.run_step Samples.md5_stub Samples.offline (fun _ _ _ _ => mret tt)
      {["ERP000001" := Some []]}
      {["ERR000001" := Selector.named "ERR000001_merged_SSU_OTU.tsv"]}
      1 (0%nat, 0%nat) Samples.run1 Samples.empty_world
    = (Ok (1%nat, 0%nat), w') /\
    Batch.files w' = ∅.
Proof.
  pose proof (cache_only_miss_skips_run Samples.md5_stub Samples.offline
                (fun _ _ _ _ => mret tt)) as (Hdl & _ & Hloop).
  split.
  - apply Hdl; [reflexivity | reflexivity | by_vm].
  - destruct (Hloop {["ERP000001" := Some []]}
                {["ERR000001" := Selector.named "ERR000001_merged_SSU_OTU.tsv"]}
                1%nat 0%nat 0%nat Samples.run1 [] []
                (Selector.named "ERR000001_merged_SSU_OTU.tsv")
                Samples.empty_world)
      as (w' & Hstep & Hfiles & _); [by_vm | by_vm | by_vm |].
    exists w'. split; [exact Hstep | exact Hfiles].
Defined.

(** ** The field enricher: relative counts *)

Local Open Scope Z_scope.

Section EnricherProofs.
Import Enricher.

Lemma wrap64_small z : 0 <= z < 2 ^ 63 -> wrap64 z = z.
Proof.
  intros H. unfold wrap64. rewrite Z.mod_small; lia.
Qed.

Lemma fold_sum_exact l : forall acc,
  Forall (fun c => 0 <= c) l -> 0 <= acc -> acc + exact_sum l < 2 ^ 63 ->
  fold_left (fun a c => wrap64 (a + c)) l acc = acc + exact_sum l.
Proof.
  induction l as [|c l IH]; intros acc Hl Ha Hs; simpl in *; [lia |].
  apply Forall_cons in Hl as [Hc Hl].
  assert (0 <= exact_sum l).
  { clear -Hl. induction Hl; simpl; lia. }
  rewrite wrap64_small by lia. rewrite IH; [lia | done | lia | lia].
Qed.

Lemma series_sum_exact l :
  Forall (fun c => 0 <= c) l -> exact_sum l < 2 ^ 63 ->
  series_sum l = exact_sum l.
Proof. intros Hl Hs. unfold series_sum. rewrite fold_sum_exact; [lia | done | lia | lia]. Qed.

Lemma wrap64_wrap x c : wrap64 (wrap64 x + c) = wrap64 (x + c).
Proof.
  unfold wrap64. f_equal.
  replace ((x + 2 ^ 63) mod 2 ^ 64 - 2 ^ 63 + c + 2 ^ 63)
    with ((x + 2 ^ 63) mod 2 ^ 64 + c) by ring.
  rewrite Z.add_mod_idemp_l by (compute; discriminate). f_equal. ring.
Qed.

Lemma fold_sum_wrap l : forall a,
  fold_left (fun a c => wrap64 (a + c)) l (wrap64 a) = wrap64 (a + exact_sum l).
Proof.
  induction l as [|c l IH]; intros a; cbn [fold_left exact_sum fold_right].
  - by rewrite Z.add_0_r.
  - rewrite wrap64_wrap, IH. f_equal. unfold exact_sum. lia.
Qed.

Lemma series_sum_wrap l : series_sum l = wrap64 (exact_sum l).
Proof. apply (fold_sum_wrap l 0). Qed.

Lemma nonneg_sum_zero l :
  Forall (fun c => 0 <= c) l -> exact_sum l = 0 -> Forall (fun c => c = 0) l.
Proof.
  induction 1 as [|c l Hc Hl IH]; simpl; intros Hs; [constructor |].
  assert (0 <= exact_sum l).
  { clear -Hl. induction Hl; simpl; lia. }
  constructor; [lia | apply IH; lia].
Qed.

Lemma count_relative_lookup counts i c :
  counts !! i = Some c ->
  count_relative counts !! i =
  Some (fmul (fdiv (float64_of_int c) (float64_of_int (series_sum counts)))
             (float64_of_int 100)).
Proof.
  intros H. unfold count_relative.
  change (map ?f counts) with (f <$> counts).
  by rewrite list_lookup_fmap, H.
Qed.

Lemma count_relative_zero_sum counts :
  Forall (fun c => 0 <= c) counts -> exact_sum counts = 0 ->
  Forall (fun r => r = S754_nan) (count_relative counts).
Proof.
  intros Hl Hs.
  assert (Hsum : series_sum counts = 0).
  { rewrite series_sum_exact; [done | done | lia]. }
  pose proof (nonneg_sum_zero _ Hl Hs) as Hz.
  unfold count_relative. rewrite Hsum.
  apply Forall_forall. intros r Hr.
  apply list_elem_of_In, in_map_iff in Hr as (c & <- & Hc).
  apply list_elem_of_In in Hc. rewrite Forall_forall in Hz.
  rewrite (Hz c Hc). reflexivity.
Qed.
End EnricherProofs.

(** *** Integers as floats *)

Section Rounding.

(** The mantissa of a shifted record is the quotient. *)
Lemma shr_1_m mrs : 0 <= shr_m mrs -> shr_m (shr_1 mrs) = shr_m mrs / 2.
Proof.
  destruct mrs as [m r s]. cbn [shr_m]. intros Hm.
  destruct m as [|[p|p|]|p]; cbn [shr_1 shr_m]; [done | | | done | lia].
  - rewrite (Pos2Z.inj_xI p). apply Z.div_unique with 1; lia.
  - rewrite (Pos2Z.inj_xO p). apply Z.div_unique with 0; lia.
Qed.

Lemma iter_shr_1_m n : forall mrs,
  0 <= shr_m mrs ->
  shr_m (SpecFloat.iter_pos shr_1 n mrs) = shr_m mrs / 2 ^ Z.pos n.
Proof.
  assert (Hnn : forall mrs, 0 <= shr_m mrs -> 0 <= shr_m (shr_1 mrs)).
  { intros mrs H. rewrite shr_1_m by done. apply Z.div_pos; lia. }
  induction n as [n IH|n IH|]; intros mrs Hm; cbn [SpecFloat.iter_pos].
  - assert (H1 : 0 <= shr_m (SpecFloat.iter_pos shr_1 n (shr_1 mrs))).
    { rewrite IH by auto. apply Z.div_pos; [auto | lia]. }
    rewrite (IH _ H1), (IH _ (Hnn _ Hm)), shr_1_m by done.
    rewrite !Z.div_div by lia. f_equal.
    rewrite (Pos2Z.inj_xI n).
    replace (2 * Z.pos n + 1) with (1 + Z.pos n + Z.pos n) by lia.
    rewrite !Z.pow_add_r by lia. change (2 ^ 1) with 2. ring.
  - assert (H1 : 0 <= shr_m (SpecFloat.iter_pos shr_1 n mrs)).
    { rewrite IH by auto. apply Z.div_pos; [auto | lia]. }
    rewrite (IH _ H1), (IH _ Hm).
    rewrite !Z.div_div by lia. f_equal.
    rewrite (Pos2Z.inj_xO n).
    replace (2 * Z.pos n) with (Z.pos n + Z.pos n) by lia.
    rewrite !Z.pow_add_r by lia. ring.
  - rewrite shr_1_m by done. reflexivity.
Qed.

Lemma digits2_pos_bounds p :
  2 ^ (Z.pos (digits2_pos p) - 1) <= Z.pos p < 2 ^ Z.pos (digits2_pos p).
Proof.
  induction p as [p IH|p IH|]; cbn [digits2_pos]; [| | done].
  - rewrite Pos2Z.inj_succ, (Pos2Z.inj_xI p).
    replace (Z.succ (Z.pos (digits2_pos p)) - 1) with (Z.succ (Z.pos (digits2_pos p) - 1)) by lia.
    rewrite !Z.pow_succ_r by lia. lia.
  - rewrite Pos2Z.inj_succ, (Pos2Z.inj_xO p).
    replace (Z.succ (Z.pos (digits2_pos p)) - 1) with (Z.succ (Z.pos (digits2_pos p) - 1)) by lia.
    rewrite !Z.pow_succ_r by lia. lia.
Qed.

(** Shifting a positive mantissa to the binary64 format leaves it
    positive, as long as the exponent is above the subnormal range. *)
Lemma shr_fexp_pos p e :
  -1074 <= e ->
  exists q e' r s,
    shr_fexp 53 1024 (Z.pos p) e loc_Exact = (Build_shr_record (Z.pos q) r s, e') /\
    e <= e'.
Proof.
  intros He. unfold shr_fexp, shr, fexp, emin.
  cbn [shr_record_of_loc Zdigits2].
  pose proof (digits2_pos_bounds p) as [Hlo Hhi].
  set (d := Z.pos (digits2_pos p)) in *.
  destruct (Z.max (d + e - 53) (3 - 1024 - 53) - e) as [|n|n] eqn:En.
  - exists p, e, false, false. split; [done | lia].
  - assert (Hn : Z.pos n <= d - 1) by (unfold d in *; lia).
    pose proof (iter_shr_1_m n (Build_shr_record (Z.pos p) false false)
                  ltac:(cbn; lia)) as Hm.
    cbn [shr_m] in Hm.
    destruct (SpecFloat.iter_pos shr_1 n _) as [m r s]. cbn [shr_m] in Hm.
    assert (0 < m).
    { rewrite Hm. apply Z.div_str_pos. split; [lia |].
      transitivity (2 ^ (d - 1)); [| done].
      apply Z.pow_le_mono_r; lia. }
    destruct m as [|q|q]; [lia | | lia].
    exists q, (e + Z.pos n), r, s. split; [done | lia].
  - exists p, e, false, false. split; [done | lia].
Qed.

Lemma round_nearest_even_pos q l :
  exists q', round_nearest_even (Z.pos q) l = Z.pos q'.
Proof.
  destruct l as [|[| |]]; cbn [round_nearest_even];
    try destruct (Z.even (Z.pos q)); eauto.
Qed.

Lemma binary_round_aux_sign sx p e :
  -1074 <= e ->
  binary_round_aux 53 1024 sx (Z.pos p) e loc_Exact = S754_infinity sx \/
  exists m e', binary_round_aux 53 1024 sx (Z.pos p) e loc_Exact
               = S754_finite sx m e'.
Proof.
  intros He. unfold binary_round_aux.
  destruct (shr_fexp_pos p e He) as (q & e1 & r & s & -> & He1).
  cbn [shr_m].
  destruct (round_nearest_even_pos q (loc_of_shr_record (Build_shr_record (Z.pos q) r s)))
    as [q' ->].
  destruct (shr_fexp_pos q' e1 ltac:(lia)) as (q2 & e2 & r2 & s2 & -> & He2).
  cbn [shr_m]. destruct (e2 <=? 1024 - 53); eauto.
Qed.

Lemma binary_round_sign sx p :
  binary_round 53 1024 sx p 0 = S754_infinity sx \/
  exists m e, binary_round 53 1024 sx p 0 = S754_finite sx m e.
Proof.
  unfold binary_round, shl_align, fexp, emin.
  destruct (Z.max (Z.pos (digits2_pos p) + 0 - 53) (3 - 1024 - 53) - 0)
    as [|n|n] eqn:En.
  - apply binary_round_aux_sign. lia.
  - apply binary_round_aux_sign. lia.
  - apply binary_round_aux_sign. lia.
Qed.

(** A non-zero integer converts to a float of its sign that is neither
    zero nor NaN. *)
Lemma float64_of_int_sign z :
  z <> 0 ->
  Enricher.float64_of_int z = S754_infinity (z <? 0) \/
  exists m e, Enricher.float64_of_int z = S754_finite (z <? 0) m e.
Proof.
  intros Hz. unfold Enricher.float64_of_int, Enricher.prec, Enricher.emax,
    binary_normalize.
  destruct z as [|p|p]; [done | |]; apply binary_round_sign.
Qed.

End Rounding.

Section ZeroSum.
Import Enricher.

Lemma count_relative_zero_sum_row counts i c :
  series_sum counts = 0 ->
  counts !! i = Some c ->
  count_relative counts !! i
  = Some (if c =? 0 then S754_nan else S754_infinity (c <? 0)).
Proof.
  intros Hs Hc. rewrite (count_relative_lookup _ _ _ Hc), Hs. f_equal.
  destruct (Z.eqb_spec c 0) as [->|Hne]; [reflexivity |].
  destruct (float64_of_int_sign c Hne) as [->|(m & e & ->)];
    by destruct (c <? 0).
Qed.
End ZeroSum.

Example count_relative_thirds :
  Enricher.count_relative [1; 2]
  = [S754_finite false 4691249611844266 (-47);
     S754_finite false 4691249611844266 (-46)].
Proof. by_vm. Qed.

(** C6.  The relative count of each row of a run is, in binary64
    arithmetic, that row's absolute count divided by the sum of the
    absolute counts of that run's table (the argument of
    [count_relative], and nothing else), times 100; the sum is the
    [int64] sum, that is the exact sum brought back into the [int64]
    range modulo [2^64], which for non-negative counts whose sum is below
    [2^63] is the exact sum.  The counts [10, 20, 30, 40] give exactly
    [10.0, 20.0, 30.0, 40.0], which sum to [100.0] (a float
    [S754_finite false m e] is the number [m * 2^e]).  When the sum of a
    run is zero, the relative count of a row is NaN if the row's count is
    zero, and otherwise the infinity of the sign of the count: never zero.
    When all counts are zero, as non-negative counts of exact sum zero
    are, every relative count is NaN. *)
Theorem count_relative_percentages :
  (forall counts i c,
      counts !! i = Some c ->
      Enricher.count_relative counts !! i =
      Some (SFmul 53 1024
              (SFdiv 53 1024
                 (binary_normalize 53 1024 c 0 false)
                 (binary_normalize 53 1024 (Enricher.series_sum counts) 0 false))
              (S754_finite false (100 * 2 ^ 46) (-46)))) /\
  (forall counts,
      length (Enricher.count_relative counts) = length counts) /\
  (forall counts,
      Enricher.series_sum counts
      = (Enricher.exact_sum counts + 2 ^ 63) mod 2 ^ 64 - 2 ^ 63) /\
  (forall counts,
      Forall (fun c => 0 <= c) counts -> Enricher.exact_sum counts < 2 ^ 63 ->
      Enricher.series_sum counts = Enricher.exact_sum counts) /\
  Enricher.count_relative [10; 20; 30; 40]
    = [S754_finite false (10 * 2 ^ 49) (-49);
       S754_finite false (20 * 2 ^ 48) (-48);
       S754_finite false (30 * 2 ^ 48) (-48);
       S754_finite false (40 * 2 ^ 47) (-47)] /\
  Enricher.float_sum (Enricher.count_relative [10; 20; 30; 40])
    = S754_finite false (100 * 2 ^ 46) (-46) /\
  (forall counts i c,
      Enricher.series_sum counts = 0 ->
      counts !! i = Some c ->
      Enricher.count_relative counts !! i
      = Some (if c =? 0 then S754_nan else S754_infinity (c <? 0))) /\
  (forall counts,
      Forall (fun c => 0 <= c) counts -> Enricher.exact_sum counts = 0 ->
      Forall (fun r => r = S754_nan) (Enricher.count_relative counts)).
Proof.
  split; [apply count_relative_lookup |].
  split; [intros counts; apply length_map |].
  split; [apply series_sum_wrap |].
  split; [apply series_sum_exact |].
  split; [by_vm |]. split; [by_vm |].
  split; [apply count_relative_zero_sum_row |].
  apply count_relative_zero_sum.
Qed.

Lemma count_relative_percentages_witness :
  Enricher.count_relative [3; -3; 0] !! 1%nat = Some (S754_infinity true) /\
  Forall (fun r => r = S754_nan) (Enricher.count_relative [0; 0; 0]).
Proof.
  split.
  - apply (proj1 (proj2 (proj2 (proj2 (proj2 (proj2 (proj2
             count_relative_percentages)))))) [3; -3; 0] 1%nat (-3)); reflexivity.
  - apply (proj2 (proj2 (proj2 (proj2 (proj2 (proj2 (proj2
             count_relative_percentages)))))) [0; 0; 0]).
    + repeat constructor; lia.
    + reflexivity.
Defined.

(** A zero sum does not make every relative count NaN: counts [3, -3, 0]
    sum to zero and give plus infinity, minus infinity and NaN; four
    counts of [2^62] are non-negative, their [int64] sum wraps around to
    zero, and every relative count is plus infinity. *)
Lemma count_relative_zero_sum_infinite :
  Enricher.series_sum [3; -3; 0] = 0 /\
  Enricher.count_relative [3; -3; 0]
    = [S754_infinity false; S754_infinity true; S754_nan] /\
  Forall (fun c => 0 <= c) [2 ^ 62; 2 ^ 62; 2 ^ 62; 2 ^ 62] /\
  Enricher.series_sum [2 ^ 62; 2 ^ 62; 2 ^ 62; 2 ^ 62] = 0 /\
  Enricher.count_relative [2 ^ 62; 2 ^ 62; 2 ^ 62; 2 ^ 62]
    = [S754_infinity false; S754_infinity false;
       S754_infinity false; S754_infinity false].
Proof.
  split; [reflexivity |]. split; [by_vm |].
  split; [repeat constructor; lia |]. split; by_vm.
Qed.

(** X25.  In a run whose sum is not zero, a row with count zero has
    relative count zero: plus zero, or minus zero when the sum is
    negative. *)
Theorem count_relative_zero_count (counts : list Z) (i : nat) :
  Enricher.series_sum counts <> 0 ->
  counts !! i = Some 0 ->
  Enricher.count_relative counts !! i
  = Some (S754_zero (Enricher.series_sum counts <? 0)).
Proof.
  intros Hs Hc. rewrite (count_relative_lookup _ _ _ Hc). f_equal.
  destruct (float64_of_int_sign _ Hs) as [->|(m & e & ->)];
    by destruct (Enricher.series_sum counts <? 0).
Qed.

Lemma count_relative_zero_count_witness :
  Enricher.count_relative [0; 5; -7] !! 0%nat = Some (S754_zero true).
Proof.
  apply (count_relative_zero_count [0; 5; -7] 0%nat); [vm_compute; discriminate | reflexivity].
Defined.

Local Close Scope Z_scope.

(** * Further properties *)

(** ** The taxonomy parser and [clean_text] *)

Section SegmentProofs.
Import Taxonomy Segments.

Lemma parse_part_assign d part :
  parse_part d part =
  Ok (match segment_field part with
      | Some (field, value) => <[field := PyStr value]> d
      | None => d
      end).
Proof.
  unfold parse_part, segment_field, Str.contains.
  destruct (Str.split_once "__" part) as [[prefix value]|];
    [| by rewrite bool_decide_eq_false_2 by (by intros [? ?])].
  rewrite bool_decide_eq_true_2 by eauto. cbn [negb unpack2 mbind result_bind].
  destruct (Str.truthy (Str.strip value)); cbn [negb orb]; [| done].
  unfold dict_getitem.
  destruct (prefix_map !! prefix) as [f|] eqn:Hp.
  - by rewrite bool_decide_eq_true_2 by eauto.
  - by rewrite bool_decide_eq_false_2 by (by intros [? ?]).
Qed.

Lemma foldM_parse_part parts : forall d,
  foldM parse_part d parts = Ok (assign_all (omap segment_field parts) d).
Proof.
  induction parts as [|part parts IH]; intros d; [done |].
  cbn [foldM]. rewrite parse_part_assign. cbn [mbind result_bind].
  rewrite IH. cbn [omap list_omap].
  by destruct (segment_field part) as [[f v]|].
Qed.

Lemma parse_fields_assignments lineage :
  parse_fields lineage = Ok (assign_all (assignments lineage) dwc_init).
Proof. apply foldM_parse_part. Qed.

Lemma assign_all_lookup fvs : forall d k,
  assign_all fvs d !! k =
  match last_assigned k fvs with
  | Some v => Some (PyStr v)
  | None => d !! k
  end.
Proof.
  unfold last_assigned.
  induction fvs as [|[f v] fvs IH]; intros d k; [done |].
  cbn [assign_all fold_left List.filter fst snd].
  change (fold_left _ fvs ?d') with (assign_all fvs d'). rewrite IH.
  destruct (decide (f = k)) as [->|Hne].
  - rewrite bool_decide_eq_true_2 by done. rewrite last_cons.
    destruct (last _) as [[f' v']|]; [done |]. cbn. by rewrite lookup_insert_eq.
  - rewrite bool_decide_eq_false_2 by done.
    destruct (last _) as [[f' v']|]; [done |]. cbn. by rewrite lookup_insert_ne.
Qed.

Lemma foldM_app {A B} (f : B -> A -> result B) l k b :
  foldM f b (l ++ k) = foldM f b l ≫= fun b' => foldM f b' k.
Proof.
  revert b. induction l as [|a l IH]; intros b; [done |].
  cbn [app foldM]. destruct (f b a); [apply IH | done].
Qed.

Lemma split_once_Some sep s a b :
  Str.split_once sep s = Some (a, b) -> s = a +:+ sep +:+ b.
Proof.
  revert a. induction s as [|c s IH]; intros a.
  - cbn [Str.split_once]. destruct sep as [|x sep]; cbn [Str.strip_prefix]; [| done].
    by intros [= <- <-].
  - cbn [Str.split_once].
    destruct (Str.strip_prefix sep (String c s)) as [rest|] eqn:E.
    + intros [= <- <-]. rewrite str_app_nil_l. clear IH.
      revert E. generalize (String c s). clear.
      induction sep as [|x sep IH]; intros s.
      * cbn [Str.strip_prefix]. by intros [= ->].
      * destruct s as [|y s]; cbn [Str.strip_prefix]; [done |].
        case_bool_decide; [| done]. subst. intros E.
        by rewrite str_app_cons, <- (IH _ E).
    + destruct (Str.split_once sep s) as [[a' b']|]; [| done].
      intros [= <- <-]. by rewrite str_app_cons, <- (IH a' eq_refl).
Qed.

Lemma prefix_map_keys p f :
  prefix_map !! p = Some f -> Space.starts_with_space p = false /\ p <> "".
Proof.
  unfold prefix_map. intros H. apply elem_of_list_to_map_2 in H.
  repeat (apply elem_of_cons in H; destruct H as [H|H];
          [by inversion H |]).
  inversion H.
Qed.

Lemma segment_field_space part :
  Space.starts_with_space part = true -> segment_field part = None.
Proof.
  intros Hs. unfold segment_field.
  destruct (Str.split_once "__" part) as [[prefix value]|] eqn:E; [| done].
  apply split_once_Some in E. subst part.
  destruct (Str.truthy _); [| done].
  destruct (prefix_map !! prefix) as [f|] eqn:Hp; [| done].
  destruct (prefix_map_keys _ _ Hp) as [Hp1 Hp2].
  destruct prefix as [|c prefix]; [done |].
  rewrite str_app_cons in Hs. cbn in Hs, Hp1. congruence.
Qed.

(** *** [strip] *)

Lemma lstrip_starts s : Space.starts_with_space (Str.lstrip s) = false.
Proof.
  induction s as [|c s IH]; [done |]. cbn [Str.lstrip].
  destruct (Str.is_space c) eqn:Hc; [done |]. cbn. exact Hc.
Qed.

Lemma rstrip_starts s :
  Space.starts_with_space s = false ->
  Space.starts_with_space (Str.rstrip s) = false.
Proof.
  destruct s as [|c s]; [done |]. cbn [Space.starts_with_space Str.rstrip].
  intros Hc. rewrite Hc. cbn [andb Space.starts_with_space]. exact Hc.
Qed.

Lemma rstrip_ends s : Space.ends_with_space (Str.rstrip s) = false.
Proof.
  induction s as [|c s IH]; [done |]. cbn [Str.rstrip].
  destruct (Str.is_space c) eqn:Hc; cbn [andb].
  - unfold Str.eqb. case_bool_decide as E; [done |].
    destruct (Str.rstrip s); [done | exact IH].
  - destruct (Str.rstrip s) eqn:E; [cbn; exact Hc | exact IH].
Qed.

Lemma strip_ends s :
  Space.starts_with_space (Str.strip s) = false /\
  Space.ends_with_space (Str.strip s) = false.
Proof.
  unfold Str.strip. split; [apply rstrip_starts, lstrip_starts | apply rstrip_ends].
Qed.

Lemma segment_field_stripped part f v :
  segment_field part = Some (f, v) ->
  f <> "taxonRank" /\ v <> "" /\
  Space.starts_with_space v = false /\ Space.ends_with_space v = false.
Proof.
  unfold segment_field.
  destruct (Str.split_once "__" part) as [[prefix value]|]; [| done].
  destruct (Str.truthy (Str.strip value)) eqn:Ht; [| done].
  destruct (prefix_map !! prefix) as [f'|] eqn:Hp; [| done].
  intros [= <- <-]. destruct (prefix_map_range _ _ Hp) as [_ Hne].
  destruct (strip_ends value). split; [done |].
  split; [by apply truthy_str_ne | done].
Qed.
End SegmentProofs.

Section ListFacts.
Lemma last_bfilter_Some {A} (f : A -> bool) (l : list A) x :
  last (List.filter f l) = Some x -> x ∈ l /\ f x = true.
Proof.
  intros H. assert (Hin : x ∈ List.filter f l).
  { apply list_elem_of_In. destruct (List.filter f l) as [|y k] eqn:E; [done |].
    rewrite <- E in *. clear E.
    induction (List.filter f l) as [|z k' IH]; [done |].
    rewrite last_cons in H. destruct (last k') eqn:E'.
    - right. apply IH. congruence.
    - left. congruence. }
  apply list_elem_of_In, List.filter_In in Hin as [Hin Hf].
  split; [by apply list_elem_of_In | done].
Qed.

Lemma last_bfilter_None {A} (f : A -> bool) (l : list A) :
  last (List.filter f l) = None -> forall x, x ∈ l -> f x = false.
Proof.
  intros H x Hin. apply last_None in H.
  destruct (f x) eqn:Hf; [| done].
  assert (In x (List.filter f l)) as Hx.
  { apply List.filter_In. split; [by apply list_elem_of_In | done]. }
  rewrite H in Hx. done.
Qed.

End ListFacts.

Lemma dwc_init_unset k v : Taxonomy.dwc_init !! k = Some v -> v = PyNone.
Proof.
  unfold Taxonomy.dwc_init. intros H. apply elem_of_list_to_map_2 in H.
  repeat (apply elem_of_cons in H; destruct H as [H|H]; [by inversion H |]).
  inversion H.
Qed.

Lemma parse_tax_string_assignments lineage :
  Taxonomy.parse_tax_string (PyStr lineage) =
  Taxonomy.infer_rank
    (Segments.assign_all (Segments.assignments lineage) Taxonomy.dwc_init).
Proof.
  cbn [Taxonomy.parse_tax_string]. by rewrite parse_fields_assignments.
Qed.

Lemma parse_tax_string_fields lineage :
  exists d,
    Taxonomy.parse_tax_string (PyStr lineage) = Ok d /\
    forall k, k <> "taxonRank" ->
      d !! k =
      match Segments.last_assigned k (Segments.assignments lineage) with
      | Some v => Some (PyStr v)
      | None => Taxonomy.dwc_init !! k
      end.
Proof.
  destruct (parse_fields_parsed lineage) as (d0 & Hf & Hp).
  exists (<["taxonRank" := Taxonomy.first_populated d0]> d0). split.
  - cbn [Taxonomy.parse_tax_string]. rewrite Hf.
    by apply infer_rank_first_populated.
  - intros k Hk. rewrite lookup_insert_ne by done.
    rewrite parse_fields_assignments in Hf. injection Hf as <-.
    apply assign_all_lookup.
Qed.

(** X1.  Each field of the parsed dict holds the value of the last segment
    of the lineage that assigns it, and stays unset when no segment does:
    a later segment with the same prefix overrides an earlier one, as in
    ["k__Bacteria;g__Bacillus;g__Vibrio"]. *)
Theorem parse_tax_string_last_wins :
  (forall lineage, exists d,
      Taxonomy.parse_tax_string (PyStr lineage) = Ok d /\
      forall k, k <> "taxonRank" ->
        d !! k =
        match Segments.last_assigned k (Segments.assignments lineage) with
        | Some v => Some (PyStr v)
        | None => Taxonomy.dwc_init !! k
        end) /\
  Taxonomy.parse_tax_string (PyStr "k__Bacteria;g__Bacillus;g__Vibrio")
  = Ok (<["taxonRank" := PyStr "genus"]>
          (<["genus" := PyStr "Vibrio"]>
             (<["kingdom" := PyStr "Bacteria"]> Taxonomy.dwc_init))).
Proof. split; [apply parse_tax_string_fields | by_vm]. Qed.

(** X2.  Every value that the parser stores is non-empty and has no
    whitespace at either end. *)
Theorem parse_tax_string_values_stripped
    (lineage : string) (d : gmap string pyval) (k v : string) :
  Taxonomy.parse_tax_string (PyStr lineage) = Ok d ->
  k <> "taxonRank" ->
  d !! k = Some (PyStr v) ->
  v <> "" /\
  Space.starts_with_space v = false /\ Space.ends_with_space v = false.
Proof.
  intros Hd Hk Hv.
  destruct (parse_tax_string_fields lineage) as (d' & Hd' & Hl).
  rewrite Hd in Hd'. injection Hd' as <-. rewrite (Hl k Hk) in Hv.
  unfold Segments.last_assigned in Hv.
  destruct (last _) as [[f v']|] eqn:E; cbn in Hv.
  - injection Hv as ->. apply last_bfilter_Some in E as [Hin _].
    apply list_elem_of_omap in Hin as (part & _ & Hpart).
    by destruct (segment_field_stripped _ _ _ Hpart) as (_ & ? & ? & ?).
  - by apply dwc_init_unset in Hv.
Qed.

Lemma parse_tax_string_values_stripped_witness :
  "Bacillus" <> "" /\
  Space.starts_with_space "Bacillus" = false /\
  Space.ends_with_space "Bacillus" = false.
Proof.
  apply (parse_tax_string_values_stripped "k__Bacteria;g__  Bacillus  "
           (<["taxonRank" := PyStr "genus"]>
              (<["genus" := PyStr "Bacillus"]>
                 (<["kingdom" := PyStr "Bacteria"]> Taxonomy.dwc_init)))
           "genus" "Bacillus").
  - by_vm.
  - discriminate.
  - by_vm.
Defined.

(** X3.  A segment that begins with whitespace assigns nothing, because
    the prefix is compared as written: after a ["; "] separator the
    segment is lost. *)
Theorem parse_tax_string_spaced_segment (a part : string) :
  Space.starts_with_space part = true ->
  Str.count ";" part = 0%nat ->
  Taxonomy.parse_tax_string (PyStr (a +:+ String ";" part))
  = Taxonomy.parse_tax_string (PyStr a) /\
  forall b,
    Taxonomy.parse_tax_string (PyStr (a +:+ String ";" (part +:+ String ";" b)))
    = Taxonomy.parse_tax_string (PyStr (a +:+ String ";" b)).
Proof.
  intros Hs Hc. pose proof (segment_field_space _ Hs) as Hn.
  rewrite !parse_tax_string_assignments. split.
  - f_equal. f_equal. unfold Segments.assignments.
    rewrite split_app, (split_no_sep _ _ Hc), omap_app. cbn [omap list_omap].
    rewrite Hn. by rewrite app_nil_r.
  - intros b. rewrite !parse_tax_string_assignments.
    f_equal. f_equal. unfold Segments.assignments.
    rewrite !split_app, (split_no_sep _ _ Hc), !omap_app. cbn [omap list_omap].
    by rewrite Hn.
Qed.

Lemma parse_tax_string_spaced_segment_witness :
  Taxonomy.parse_tax_string (PyStr ("k__Bacteria" +:+ String ";" " p__Firmicutes"))
  = Taxonomy.parse_tax_string (PyStr "k__Bacteria").
Proof.
  apply (proj1 (parse_tax_string_spaced_segment "k__Bacteria" " p__Firmicutes"
                  eq_refl eq_refl)).
Defined.

Section CleanProofs.
Import Clean.

Lemma newline_is_space c :
  bool_decide (c = CR) || bool_decide (c = LF) = true -> Str.is_space c = true.
Proof.
  intros H. apply orb_true_iff in H as [H|H];
    apply bool_decide_eq_true in H; by subst.
Qed.

Lemma spaced_after_weaken p s :
  spaced_after true s = true -> spaced_after p s = true.
Proof.
  destruct s as [|c s]; [done |]. cbn [spaced_after].
  destruct p; [done |]. intros H. apply andb_true_iff in H as [_ H].
  by rewrite H.
Qed.

Lemma spaced_after_ink p c s :
  Str.is_space c = false ->
  spaced_after p (String c s) = spaced_after false s.
Proof. intros H. cbn [spaced_after]. rewrite H. by rewrite andb_false_r. Qed.

Lemma collapse_skip_spaced s :
  spaced_after false (collapse s) = true /\
  (Space.starts_with_space s = false -> spaced_after true (collapse s) = true) /\
  spaced_after true (skip s) = true.
Proof.
  induction s as [|c s (IHa & IHb & IHs)]; [done |].
  cbn [collapse skip Space.starts_with_space].
  destruct (Str.is_space c) eqn:Hc.
  - split; [| by split].
    destruct s as [|c' s']; [by cbn [spaced_after]; rewrite Hc |].
    destruct (Str.is_space c') eqn:Hc'.
    + cbn [spaced_after]. exact IHs.
    + cbn [spaced_after]. rewrite Hc. cbn [andb negb]. apply IHb.
      cbn [Space.starts_with_space]. exact Hc'.
  - rewrite !spaced_after_ink by done. by repeat split.
Qed.

Lemma remove_newlines_spaced s : forall p,
  spaced_after p s = true -> spaced_after p (remove_newlines s) = true.
Proof.
  induction s as [|a s IH]; [done |]. intros p H.
  cbn [spaced_after] in H. apply andb_true_iff in H as [Hp Hs].
  cbn [remove_newlines].
  destruct (bool_decide (a = CR) || bool_decide (a = LF)) eqn:Ha.
  - rewrite (newline_is_space _ Ha) in Hs. by apply spaced_after_weaken, IH.
  - cbn [spaced_after]. by rewrite Hp, IH.
Qed.

Lemma collapse_fixed s : spaced_after false s = true -> collapse s = s.
Proof.
  induction s as [|c s IH]; [done |]. cbn [spaced_after collapse]. intros H.
  cbn [andb negb] in H.
  destruct (Str.is_space c) eqn:Hc.
  - destruct s as [|c' s']; [done |].
    pose proof H as H'. cbn [spaced_after] in H'.
    apply andb_true_iff in H' as [Hc' _]. cbn [andb] in Hc'.
    apply negb_true_iff in Hc'. rewrite Hc'.
    by rewrite IH by by apply spaced_after_weaken.
  - by rewrite IH.
Qed.

Lemma remove_newlines_count s :
  Str.count LF (remove_newlines s) = 0%nat /\
  Str.count CR (remove_newlines s) = 0%nat.
Proof.
  induction s as [|c s [IH1 IH2]]; [done |]. cbn [remove_newlines].
  destruct (bool_decide (c = CR)) eqn:H1; [done |].
  destruct (bool_decide (c = LF)) eqn:H2; [done |].
  cbn [orb Str.count]. by rewrite H1, H2, IH1, IH2.
Qed.

Lemma remove_newlines_fixed s :
  Str.count LF s = 0%nat -> Str.count CR s = 0%nat -> remove_newlines s = s.
Proof.
  induction s as [|c s IH]; [done |]. cbn [Str.count remove_newlines].
  destruct (bool_decide (c = CR)); [done |].
  destruct (bool_decide (c = LF)); [done |].
  cbn [orb]. intros H1 H2. by rewrite IH.
Qed.

Lemma ink_collapse_skip s :
  ink (collapse s) = ink s /\ ink (skip s) = ink s.
Proof.
  induction s as [|c s [IHc IHs]]; [done |]. cbn [collapse skip ink].
  destruct (Str.is_space c) eqn:Hc.
  - split; [| done].
    destruct s as [|c' s']; [by cbn [ink]; rewrite Hc |].
    destruct (Str.is_space c') eqn:Hc'.
    + cbn [ink]. by rewrite IHs.
    + cbn [ink]. rewrite Hc. exact IHc.
  - cbn [ink]. by rewrite Hc, IHc.
Qed.

Lemma ink_remove_newlines s : ink (remove_newlines s) = ink s.
Proof.
  induction s as [|c s IH]; [done |]. cbn [remove_newlines ink].
  destruct (bool_decide (c = CR) || bool_decide (c = LF)) eqn:Hc.
  - by rewrite (newline_is_space _ Hc).
  - cbn [ink]. by rewrite IH.
Qed.

Lemma remove_newlines_app a b :
  remove_newlines (a +:+ b) = remove_newlines a +:+ remove_newlines b.
Proof.
  induction a as [|c a IH]; [done |]. rewrite str_app_cons. cbn [remove_newlines].
  destruct (bool_decide (c = CR) || bool_decide (c = LF)); [done |].
  by rewrite str_app_cons, IH.
Qed.

Lemma collapse_starts_ink v :
  Space.starts_with_space v = false -> skip v = collapse v.
Proof.
  destruct v as [|c v]; [done |]. cbn [Space.starts_with_space skip collapse].
  by intros ->.
Qed.

Lemma collapse_newline_between u v :
  Space.starts_with_space v = false ->
  (Space.ends_with_space u = false ->
   collapse (u +:+ String LF v) = collapse u +:+ String LF (collapse v)) /\
  (u <> "" -> Space.ends_with_space u = false ->
   skip (u +:+ String LF v) = skip u +:+ String LF (collapse v)).
Proof.
  intros Hv. induction u as [|c u [IHc IHs]].
  - split; [| done]. intros _. rewrite !str_app_nil_l.
    destruct v as [|x v]; [done |].
    cbn [Space.starts_with_space] in Hv.
    change (collapse (String LF (String x v)))
      with (if Str.is_space x then String " " (skip (String x v))
            else String LF (collapse (String x v))).
    by rewrite Hv.
  - assert (Hne : Str.is_space c = true -> Space.ends_with_space (String c u) = false ->
                  u <> "" /\ Space.ends_with_space u = false).
    { intros Hc He. destruct u as [|c' u']; [| done].
      cbn [Space.ends_with_space] in He. congruence. }
    assert (Hend : Space.ends_with_space (String c u) = false -> Space.ends_with_space u = false).
    { destruct u as [|c' u']; done. }
    split.
    + intros He. rewrite str_app_cons. cbn [collapse].
      destruct (Str.is_space c) eqn:Hc.
      * destruct (Hne eq_refl He) as [Hu He'].
        destruct u as [|c' u']; [done |]. rewrite str_app_cons.
        destruct (Str.is_space c') eqn:Hc'.
        -- rewrite <- str_app_cons, (IHs Hu He'). by rewrite str_app_cons.
        -- rewrite <- str_app_cons, (IHc He'). by rewrite !str_app_cons.
      * by rewrite (IHc (Hend He)), str_app_cons.
    + intros _ He. rewrite str_app_cons. cbn [skip].
      destruct (Str.is_space c) eqn:Hc.
      * destruct (Hne eq_refl He) as [Hu He']. by apply IHs.
      * by rewrite (IHc (Hend He)), str_app_cons.
Qed.
End CleanProofs.

Lemma clean_text_spaced s :
  Str.count Clean.LF (Clean.clean_text s) = 0%nat /\
  Str.count Clean.CR (Clean.clean_text s) = 0%nat /\
  Clean.single_spaced (Clean.clean_text s) = true.
Proof.
  unfold Clean.clean_text, Clean.single_spaced.
  destruct (remove_newlines_count (Clean.collapse s)) as [H1 H2].
  split; [done |]. split; [done |].
  apply remove_newlines_spaced, collapse_skip_spaced.
Qed.

(** X4.  [clean_text] leaves no line break and no two whitespace
    characters in a row. *)
Theorem clean_text_single_spaced (s : string) :
  Str.count Clean.LF (Clean.clean_text s) = 0%nat /\
  Str.count Clean.CR (Clean.clean_text s) = 0%nat /\
  Clean.single_spaced (Clean.clean_text s) = true.
Proof. apply clean_text_spaced. Qed.

(** X5.  Cleaning a cleaned text changes nothing. *)
Theorem clean_text_idempotent (s : string) :
  Clean.clean_text (Clean.clean_text s) = Clean.clean_text s.
Proof.
  destruct (clean_text_spaced s) as (H1 & H2 & H3).
  unfold Clean.clean_text at 1.
  rewrite (collapse_fixed _ H3). by apply remove_newlines_fixed.
Qed.

(** X6.  [clean_text] keeps every character that is not whitespace, in
    order. *)
Theorem clean_text_keeps_ink (s : string) :
  Clean.ink (Clean.clean_text s) = Clean.ink s.
Proof.
  unfold Clean.clean_text. rewrite ink_remove_newlines.
  apply ink_collapse_skip.
Qed.

(** X7.  A single line break between two texts that do not touch it with
    whitespace is deleted, not replaced by a space: the texts are joined,
    as the two conditions of a query written on two unindented lines
    would be. *)
Theorem clean_text_joins_lines (u v : string) :
  Space.ends_with_space u = false ->
  Space.starts_with_space v = false ->
  Clean.clean_text (u +:+ String Clean.LF v)
  = Clean.clean_text u +:+ Clean.clean_text v.
Proof.
  intros Hu Hv. unfold Clean.clean_text.
  rewrite (proj1 (collapse_newline_between u v Hv) Hu).
  rewrite remove_newlines_app. f_equal.
Qed.

Lemma clean_text_joins_lines_witness :
  Clean.clean_text ("AND depth >= 0" +:+ String Clean.LF "AND library_strategy")
  = "AND depth >= 0AND library_strategy".
Proof.
  apply (clean_text_joins_lines "AND depth >= 0" "AND library_strategy");
    reflexivity.
Defined.

(** ** The cache and the batch loop *)

Lemma bind_ext {S A B} (m : M S A) (f g : A -> M S B) s :
  (forall a s', f a s' = g a s') -> (m ≫= f) s = (m ≫= g) s.
Proof. intros H. unfold mbind, M_bind. destruct (m s) as [[a|e] s']; auto. Qed.

Section DownloadProofs.
Import Selector Batch.
Variable md5_hexdigest : string -> string.

Lemma os_makedirs_ok cache_dir w :
  files w !! cache_dir = None ->
  os_makedirs cache_dir w = (Ok tt, with_dir cache_dir w).
Proof.
  intros H. unfold os_makedirs. rewrite H.
  by rewrite bool_decide_eq_false_2 by (by intros [? ?]).
Qed.

Lemma with_dir_twice cache_dir w :
  with_dir cache_dir (with_dir cache_dir w) = with_dir cache_dir w.
Proof.
  unfold with_dir. cbn [dirs files stdout]. f_equal.
  by rewrite (assoc_L (∪)), (idemp_L (∪)).
Qed.


Lemma download_file_fetch requests_get url cache_dir w :
  Str.truthy cache_dir = true ->
  files w !! cache_dir = None ->
  os_path_exists (with_dir cache_dir w)
    (cache_filename md5_hexdigest url cache_dir) = false ->
  download_file md5_hexdigest requests_get url cache_dir false w
  = match requests_get url with
    | Ok text =>
        (Ok text,
         mkWorld ({[cache_dir]} ∪ dirs w)
                 (<[cache_filename md5_hexdigest url cache_dir := text]> (files w))
                 (stdout w))
    | Raise e => (Raise e, with_dir cache_dir w)
    end.
Proof.
  intros Ht Hd He. unfold download_file. cbv zeta. rewrite Ht.
  erewrite bind_ok; last first.
  { erewrite bind_ok by exact (os_makedirs_ok _ _ Hd).
    erewrite bind_ok by reflexivity. cbn beta. rewrite He. reflexivity. }
  cbn beta iota. unfold lift.
  destruct (requests_get url) as [text|e]; [| reflexivity].
  erewrite bind_ok by reflexivity.
  erewrite bind_ok; [reflexivity |].
  unfold write_file. unfold os_path_exists in He.
  apply orb_false_iff in He as [_ He]. by rewrite He.
Qed.

Lemma download_file_cache_only_env rg1 rg2 url cache_dir w :
  download_file md5_hexdigest rg1 url cache_dir true w
  = download_file md5_hexdigest rg2 url cache_dir true w.
Proof.
  unfold download_file. apply bind_ext. by intros [text|] w'.
Qed.

Variable process_run : RunRecord -> resource -> string -> string -> M world unit.

Lemma run_step_env rg1 rg2 meta filtered total st run w :
  run_step md5_hexdigest rg1 process_run meta filtered total st run w
  = run_step md5_hexdigest rg2 process_run meta filtered total st run w.
Proof.
  unfold run_step, ONLY_USE_CACHE. destruct st as [count done].
  destruct (mjoin (meta !! study_accession run)); [| reflexivity].
  destruct (filtered !! run_accession run) as [tsv|]; [| reflexivity].
  apply bind_ext. intros _ w1. unfold try_.
  unfold mbind at 1 3. unfold M_bind.
  by rewrite (download_file_cache_only_env rg1 rg2).
Qed.

Lemma for_each_ext {S A B} (f g : B -> A -> M S B) l :
  (forall b a s, f b a s = g b a s) ->
  forall b s, for_each f b l s = for_each g b l s.
Proof.
  intros H. induction l as [|a l IH]; intros b s; [reflexivity |].
  cbn [for_each]. unfold mbind, M_bind. rewrite H.
  destruct (g b a s) as [[b'|e] s']; [apply IH | reflexivity].
Qed.

Lemma run_step_counts rg meta filtered total count done run w count' done' w' :
  run_step md5_hexdigest rg process_run meta filtered total (count, done) run w
  = (Ok (count', done'), w') ->
  count' = S count /\ (done' = done \/ done' = S done).
Proof.
  unfold run_step.
  destruct (mjoin (meta !! study_accession run)); [| intros [= <- <- _]; auto].
  destruct (filtered !! run_accession run) as [tsv|].
  - unfold mbind, M_bind, print, modify, try_.
    destruct (download_file _ _ _ _ _ _) as [[text|e] w1].
    + destruct (process_run _ _ _ _ _) as [[[]|e] w2]; [| done].
      intros [= <- <- _]; auto.
    + destruct e; intros [= <- <- _]; auto.
  - unfold mbind, M_bind, print, modify. intros [= <- <- _]; auto.
Qed.

Lemma for_each_counts rg meta filtered total runs :
  forall count done w count' done' w',
    for_each (run_step md5_hexdigest rg process_run meta filtered total)
             (count, done) runs w = (Ok (count', done'), w') ->
    count' = (count + length runs)%nat /\
    (done <= done' <= done + length runs)%nat.
Proof.
  induction runs as [|run runs IH]; intros count done w count' done' w' H.
  - injection H as <- <- _. cbn [length]. lia.
  - cbn [for_each] in H. unfold mbind, M_bind in H.
    destruct (run_step _ _ _ _ _ _ _ _ _) as [[[c1 d1]|e] w1] eqn:E; [| done].
    apply run_step_counts in E as [-> Hd].
    apply IH in H as [-> H]. cbn [length]. lia.
Qed.



Lemma run_step_download_raise rg meta filtered total count done run pages tsv w e w1 :
  meta !! study_accession run = Some (Some pages) ->
  filtered !! run_accession run = Some tsv ->
  download_file md5_hexdigest rg (self_link tsv) "tsv_file_cache" true
    (mkWorld (dirs w) (files w)
       (stdout w ++ [processing_line (S count) done total run]))
  = (Raise e, w1) ->
  run_step md5_hexdigest rg process_run meta filtered total (count, done) run w
  = (Ok (S count, done),
     mkWorld (dirs w1) (files w1)
       (stdout w1 ++
        match e with
        | FileNotFoundError _ => []
        | _ => ["Error downloading TSV for run " +:+ run_accession run
                +:+ ": " +:+ exn_str e]
        end)).
Proof.
  intros Hm Hf Hd. unfold run_step, ONLY_USE_CACHE. rewrite Hm, Hf.
  cbn [mjoin option_join].
  erewrite bind_ok by reflexivity.
  erewrite bind_ok; last first.
  { unfold try_. unfold print, modify. cbn [dirs files stdout]. rewrite Hd. reflexivity. }
  cbn beta iota.
  destruct e; try (erewrite bind_ok by reflexivity; reflexivity).
  unfold mret, M_ret. rewrite app_nil_r. by destruct w1.
Qed.

Lemma run_step_process_raise rg meta filtered total count done run pages tsv w text w1 e w2 :
  meta !! study_accession run = Some (Some pages) ->
  filtered !! run_accession run = Some tsv ->
  download_file md5_hexdigest rg (self_link tsv) "tsv_file_cache" true
    (mkWorld (dirs w) (files w)
       (stdout w ++ [processing_line (S count) done total run]))
  = (Ok text, w1) ->
  process_run run tsv (self_link tsv) text w1 = (Raise e, w2) ->
  run_step md5_hexdigest rg process_run meta filtered total (count, done) run w
  = (Raise e, w2).
Proof.
  intros Hm Hf Hd Hp. unfold run_step, ONLY_USE_CACHE. rewrite Hm, Hf.
  cbn [mjoin option_join].
  erewrite bind_ok by reflexivity.
  erewrite bind_ok; last first.
  { unfold try_. unfold print, modify. cbn [dirs files stdout]. rewrite Hd. reflexivity. }
  cbn beta iota. by erewrite bind_raise by exact Hp.
Qed.
End DownloadProofs.





(** X10.  With requests allowed, a failed request on a cache miss raises
    the error of the request and writes no file. *)
Theorem download_file_request_fails
    (md5_hexdigest : string -> string) (requests_get : string -> result string)
    (url cache_dir : string) (w : Batch.world) (e : exn) :
  Str.truthy cache_dir = true ->
  Batch.files w !! cache_dir = None ->
  Batch.os_path_exists (Batch.with_dir cache_dir w)
    (Batch.cache_filename md5_hexdigest url cache_dir) = false ->
  requests_get url = Raise e ->
  Batch.download_file md5_hexdigest requests_get url cache_dir false w
  = (Raise e, Batch.with_dir cache_dir w) /\
  Batch.files (Batch.with_dir cache_dir w) = Batch.files w.
Proof.
  intros Ht Hd He Hr.
  pose proof (download_file_fetch md5_hexdigest requests_get url cache_dir w Ht Hd He)
    as Hrun.
  rewrite Hr in Hrun. by split.
Qed.

Lemma download_file_request_fails_witness :
  Batch.download_file Samples.md5_stub Samples.offline Samples.tsv_url
    "tsv_file_cache" false Samples.empty_world
  = (Raise (RequestException "offline"),
     Batch.with_dir "tsv_file_cache" Samples.empty_world) /\
  Batch.files (Batch.with_dir "tsv_file_cache" Samples.empty_world)
  = Batch.files Samples.empty_world.
Proof.
  apply (download_file_request_fails Samples.md5_stub Samples.offline
           Samples.tsv_url "tsv_file_cache" Samples.empty_world
           (RequestException "offline")); by_vm.
Defined.

(** X11.  With [ONLY_USE_CACHE] set, the batch loop never asks the
    network: its outcome is the same whatever [requests.get] would
    answer. *)
Theorem process_runs_offline
    (md5_hexdigest : string -> string)
    (requests_get other_get : string -> result string)
    (process_run : Batch.RunRecord -> Selector.resource -> string -> string
                   -> M Batch.world unit)
    (all_study_metadata : gmap string (option (list Batch.page)))
    (filtered_tsv_files : gmap string Selector.resource)
    (ena_runs : list Batch.RunRecord) (w : Batch.world) :
  Batch.process_runs md5_hexdigest requests_get process_run
    all_study_metadata filtered_tsv_files ena_runs w
  = Batch.process_runs md5_hexdigest other_get process_run
      all_study_metadata filtered_tsv_files ena_runs w.
Proof.
  unfold Batch.process_runs. apply for_each_ext.
  intros st run s. apply run_step_env.
Qed.

(** X12.  When the batch loop ends without an exception, [count] is the
    number of runs and [done] is at most that number. *)
Theorem process_runs_counters
    (md5_hexdigest : string -> string)
    (requests_get : string -> result string)
    (process_run : Batch.RunRecord -> Selector.resource -> string -> string
                   -> M Batch.world unit)
    (all_study_metadata : gmap string (option (list Batch.page)))
    (filtered_tsv_files : gmap string Selector.resource)
    (ena_runs : list Batch.RunRecord) (w w' : Batch.world) (count done : nat) :
  Batch.process_runs md5_hexdigest requests_get process_run
    all_study_metadata filtered_tsv_files ena_runs w = (Ok (count, done), w') ->
  count = length ena_runs /\ (done <= count)%nat.
Proof.
  intros H. apply for_each_counts in H as [-> H]. cbn. lia.
Qed.

Lemma process_runs_counters_witness :
  1%nat = length [Samples.run1] /\ (0 <= 1)%nat.
Proof.
  apply (process_runs_counters Samples.md5_stub Samples.offline
           (fun _ _ _ _ => mret tt)
           {["ERP000001" := Some []]}
           {["ERR000001" := Selector.named "ERR000001_merged_SSU_OTU.tsv"]}
           [Samples.run1] Samples.empty_world
           (Batch.mkWorld {["tsv_file_cache"]} ∅
              ["(1/0/1) Processing run ERR000001..."])).
  by_vm.
Defined.

(** X13.  A run whose study has no metadata is passed over without a
    word; a run without a selected resource is reported on one line.
    Neither touches the files nor counts as done. *)
Theorem run_step_skips
    (md5_hexdigest : string -> string)
    (requests_get : string -> result string)
    (process_run : Batch.RunRecord -> Selector.resource -> string -> string
                   -> M Batch.world unit)
    (all_study_metadata : gmap string (option (list Batch.page)))
    (filtered_tsv_files : gmap string Selector.resource)
    (total count done : nat) (run : Batch.RunRecord) (w : Batch.world) :
  (mjoin (all_study_metadata !! Batch.study_accession run) = None ->
   Batch.run_step md5_hexdigest requests_get process_run
     all_study_metadata filtered_tsv_files total (count, done) run w
   = (Ok (S count, done), w)) /\
  (forall pages,
     all_study_metadata !! Batch.study_accession run = Some (Some pages) ->
     filtered_tsv_files !! Batch.run_accession run = None ->
     Batch.run_step md5_hexdigest requests_get process_run
       all_study_metadata filtered_tsv_files total (count, done) run w
     = (Ok (S count, done),
        Batch.mkWorld (Batch.dirs w) (Batch.files w)
          (Batch.stdout w ++
           ["No TSV file found for run " +:+ Batch.run_accession run]))).
Proof.
  split.
  - intros Hm. unfold Batch.run_step. by rewrite Hm.
  - intros pages Hm Hf. unfold Batch.run_step. rewrite Hm, Hf. reflexivity.
Qed.

Lemma run_step_skips_witness :
  Batch.run_step Samples.md5_stub Samples.offline (fun _ _ _ _ => mret tt)
    {["ERP000001" := None]} ∅ 1 (0%nat, 0%nat) Samples.run1 Samples.empty_world
  = (Ok (1%nat, 0%nat), Samples.empty_world).
Proof.
  apply (proj1 (run_step_skips Samples.md5_stub Samples.offline
                  (fun _ _ _ _ => mret tt) {["ERP000001" := None]} ∅
                  1%nat 0%nat 0%nat Samples.run1 Samples.empty_world)).
  by_vm.
Defined.

(** X14.  A download that raises never stops the loop and never reaches
    the processing of the run: the step counts the run and goes on.
    [FileNotFoundError] is silent; any other exception is reported on one
    line with its message. *)
Theorem run_step_download_error
    (md5_hexdigest : string -> string)
    (requests_get : string -> result string)
    (process_run : Batch.RunRecord -> Selector.resource -> string -> string
                   -> M Batch.world unit)
    (all_study_metadata : gmap string (option (list Batch.page)))
    (filtered_tsv_files : gmap string Selector.resource)
    (total count done : nat) (run : Batch.RunRecord) (pages : list Batch.page)
    (tsv : Selector.resource) (w w1 : Batch.world) (e : exn) :
  all_study_metadata !! Batch.study_accession run = Some (Some pages) ->
  filtered_tsv_files !! Batch.run_accession run = Some tsv ->
  Batch.download_file md5_hexdigest requests_get (Selector.self_link tsv)
    "tsv_file_cache" true
    (Batch.mkWorld (Batch.dirs w) (Batch.files w)
       (Batch.stdout w ++ [Batch.processing_line (S count) done total run]))
  = (Raise e, w1) ->
  Batch.run_step md5_hexdigest requests_get process_run
    all_study_metadata filtered_tsv_files total (count, done) run w
  = (Ok (S count, done),
     Batch.mkWorld (Batch.dirs w1) (Batch.files w1)
       (Batch.stdout w1 ++
        match e with
        | FileNotFoundError _ => []
        | _ => ["Error downloading TSV for run " +:+ Batch.run_accession run
                +:+ ": " +:+ Batch.exn_str e]
        end)).
Proof. apply run_step_download_raise. Qed.

Lemma run_step_download_error_witness :
  Batch.run_step Samples.md5_stub Samples.offline (fun _ _ _ _ => mret tt)
    {["ERP000001" := Some []]}
    {["ERR000001" := Selector.named "ERR000001_merged_SSU_OTU.tsv"]}
    1 (0%nat, 0%nat) Samples.run1
    (Batch.mkWorld ∅ {["tsv_file_cache" := "not a directory"]} [])
  = (Ok (1%nat, 0%nat),
     Batch.mkWorld ∅ {["tsv_file_cache" := "not a directory"]}
       ["(1/0/1) Processing run ERR000001...";
        "Error downloading TSV for run ERR000001: [Errno 17] File exists: 'tsv_file_cache'"]).
Proof.
  refine (eq_trans
    (run_step_download_error Samples.md5_stub Samples.offline
       (fun _ _ _ _ => mret tt)
       {["ERP000001" := Some []]}
       {["ERR000001" := Selector.named "ERR000001_merged_SSU_OTU.tsv"]}
       1%nat 0%nat 0%nat Samples.run1 []
       (Selector.named "ERR000001_merged_SSU_OTU.tsv")
       (Batch.mkWorld ∅ {["tsv_file_cache" := "not a directory"]} [])
       (Batch.mkWorld ∅ {["tsv_file_cache" := "not a directory"]}
          ["(1/0/1) Processing run ERR000001..."])
       (FileExistsError "tsv_file_cache") _ _ _) _); by_vm.
Defined.

(** X15.  An exception raised while a run is processed is not caught: it
    ends the loop, and the runs that follow are not looked at. *)
Theorem process_run_error_aborts
    (md5_hexdigest : string -> string)
    (requests_get : string -> result string)
    (process_run : Batch.RunRecord -> Selector.resource -> string -> string
                   -> M Batch.world unit)
    (all_study_metadata : gmap string (option (list Batch.page)))
    (filtered_tsv_files : gmap string Selector.resource)
    (total count done : nat) (run : Batch.RunRecord) (rest : list Batch.RunRecord)
    (pages : list Batch.page) (tsv : Selector.resource)
    (w w1 w2 : Batch.world) (text : string) (e : exn) :
  all_study_metadata !! Batch.study_accession run = Some (Some pages) ->
  filtered_tsv_files !! Batch.run_accession run = Some tsv ->
  Batch.download_file md5_hexdigest requests_get (Selector.self_link tsv)
    "tsv_file_cache" true
    (Batch.mkWorld (Batch.dirs w) (Batch.files w)
       (Batch.stdout w ++ [Batch.processing_line (S count) done total run]))
  = (Ok text, w1) ->
  process_run run tsv (Selector.self_link tsv) text w1 = (Raise e, w2) ->
  for_each (Batch.run_step md5_hexdigest requests_get process_run
              all_study_metadata filtered_tsv_files total)
           (count, done) (run :: rest) w
  = (Raise e, w2).
Proof.
  intros Hm Hf Hd Hp. cbn [for_each].
  by erewrite bind_raise
    by exact (run_step_process_raise md5_hexdigest process_run requests_get
                _ _ _ _ _ _ _ _ _ _ _ _ _ Hm Hf Hd Hp).
Qed.

Lemma process_run_error_aborts_witness :
  for_each (Batch.run_step Samples.md5_stub Samples.offline
              (fun _ _ _ _ => Batch.raise ValueError)
              {["ERP000001" := Some []]}
              {["ERR000001" := Selector.named "ERR000001_merged_SSU_OTU.tsv"]}
              2)
           (0%nat, 0%nat) [Samples.run1; Samples.run1] Samples.cached_world
  = (Raise ValueError,
     Batch.with_dir "tsv_file_cache"
       (Batch.mkWorld (Batch.dirs Samples.cached_world)
          (Batch.files Samples.cached_world)
          ["(1/0/2) Processing run ERR000001..."])).
Proof.
  refine (eq_trans
    (process_run_error_aborts Samples.md5_stub Samples.offline
       (fun _ _ _ _ => Batch.raise ValueError)
       {["ERP000001" := Some []]}
       {["ERR000001" := Selector.named "ERR000001_merged_SSU_OTU.tsv"]}
       2%nat 0%nat 0%nat Samples.run1 [Samples.run1] []
       (Selector.named "ERR000001_merged_SSU_OTU.tsv")
       Samples.cached_world
       (Batch.with_dir "tsv_file_cache"
          (Batch.mkWorld (Batch.dirs Samples.cached_world)
             (Batch.files Samples.cached_world)
             ["(1/0/2) Processing run ERR000001..."]))
       (Batch.with_dir "tsv_file_cache"
          (Batch.mkWorld (Batch.dirs Samples.cached_world)
             (Batch.files Samples.cached_world)
             ["(1/0/2) Processing run ERR000001..."]))
       "# Constructed from biom file" ValueError _ _ _ _) _);
    first [by_vm | reflexivity].
Defined.

(** ** Frames *)

Ltac not_elem :=
  let H := fresh in
  intros H;
  repeat (apply elem_of_cons in H; destruct H as [H|H]; [discriminate H |]);
  by apply elem_of_nil in H.

Section FrameMore.
Import Frame Schema.

Lemma get_missing d c : c ∉ columns d -> get d c = Raise (KeyError c).
Proof.
  intros H. unfold get.
  destruct (assoc_get c (df_cols d)) as [v|] eqn:E; [| done].
  exfalso. apply H. apply assoc_get_Some. eauto.
Qed.

Lemma get_raises d c e : get d c = Raise e -> e = KeyError c.
Proof. unfold get. destruct (assoc_get c (df_cols d)); [done | by intros [= <-]]. Qed.

Lemma project_cols_missing d c names :
  c ∈ names -> c ∉ columns d ->
  exists k, k ∈ names /\ (k ∉ columns d) /\
            project_cols d names = Raise (KeyError k).
Proof.
  intros Hin Hc. induction names as [|c0 names IH]; [by apply elem_of_nil in Hin |].
  cbn [project_cols]. destruct (get d c0) as [v|e] eqn:Hg.
  - cbn [mbind result_bind].
    apply elem_of_cons in Hin as [->|Hin].
    + exfalso. apply Hc. by apply (get_is_Ok d c0 v).
    + destruct (IH Hin) as (k & Hk & Hkd & ->). exists k.
      split; [by right | done].
  - pose proof (get_raises _ _ _ Hg) as ->. exists c0.
    split; [by left |]. split; [| done].
    intros H. apply get_is_Some in H as [v Hv]. congruence.
Qed.

Lemma project_cols_listed d l :
  (forall k v, (k, v) ∈ l -> get d k = Ok v) ->
  project_cols d (map fst l) = Ok l.
Proof.
  induction l as [|[k v] l IH]; intros H; [done |].
  cbn [map fst project_cols]. rewrite (H k v) by by left.
  cbn [mbind result_bind]. rewrite IH; [done |].
  intros k' v' Hin. apply H. by right.
Qed.

Lemma project_self d :
  NoDup (columns d) -> project d (columns d) = Ok d.
Proof.
  intros Hnd. unfold project, columns. rewrite project_cols_listed.
  - by destruct d.
  - intros k v Hin. unfold get. by rewrite (assoc_get_NoDup k v _ Hnd Hin).
Qed.

Lemma fill_columns ms : forall d,
  NoDup ms -> (forall c, c ∈ ms -> c ∉ columns d) ->
  columns (fill ms d) = columns d ++ ms.
Proof.
  induction ms as [|c ms IH]; intros d Hnd Hd.
  - by rewrite app_nil_r.
  - apply NoDup_cons in Hnd as [Hc Hnd]. cbn [fill fold_left].
    change (fold_left _ ms ?d') with (fill ms d').
    assert (Hcol : columns (set_scalar d c PyNone) = columns d ++ [c]).
    { unfold set_scalar. rewrite columns_set.
      rewrite bool_decide_eq_false_2; [done |]. apply Hd. by left. }
    rewrite IH, Hcol; [by rewrite <- app_assoc | done |].
    intros c' Hc'. rewrite Hcol. intros [H|H]%elem_of_app.
    + revert H. apply Hd. by right.
    + apply list_elem_of_singleton in H. by subst.
Qed.

Variable list_of_set : gset string -> list string.
Hypothesis Horder : set_order list_of_set.

Lemma missing_cols_NoDup d : NoDup (missing_cols list_of_set d).
Proof. rewrite (missing_cols_absent _ _ Horder). apply NoDup_filter, schema_NoDup. Qed.

Lemma missing_cols_none d :
  (forall c, c ∈ FINAL_DWC_SCHEMA -> c ∈ columns d) ->
  missing_cols list_of_set d = [].
Proof.
  intros H. destruct (missing_cols list_of_set d) as [|c l] eqn:E; [done |].
  assert (Hc : c ∈ missing_cols list_of_set d) by (rewrite E; by left).
  apply elem_of_missing_cols in Hc as [Hs Hn]; [| done]. by apply H in Hs.
Qed.

Lemma enforce_schema_order_store w df d :
  heap w !! df = Some d ->
  exists dO,
    project (fill (missing_cols list_of_set d) d) FINAL_DWC_SCHEMA = Ok dO /\
    enforce_schema_order list_of_set df w =
    (Ok (fresh (dom (<[df := fill (missing_cols list_of_set d) d]> (heap w)))),
     mkWorld (<[fresh (dom (<[df := fill (missing_cols list_of_set d) d]> (heap w)))
                := dO]>
                (<[df := fill (missing_cols list_of_set d) d]> (heap w)))
             (stdout w ++ (if bool_decide (missing_cols list_of_set d = []) then []
                           else [warning (missing_cols list_of_set d)]))).
Proof.
  intros Hd. unfold enforce_schema_order.
  rewrite (bind_ok _ _ _ _ _ (read_live _ _ _ Hd)).
  set (ms := missing_cols list_of_set d). set (d' := fill ms d).
  set (w1 := mkWorld (<[df := d']> (heap w))
               (stdout w ++ (if bool_decide (ms = []) then [] else [warning ms]))).
  assert (Hloop :
    (if bool_decide (ms = []) then mret tt
     else print (warning ms) ≫= fun _ =>
          for_each (fun _ col => setitem_scalar df col PyNone) tt ms) w
    = (Ok tt, w1)).
  { unfold w1, d'. destruct (decide (ms = [])) as [Hms|Hms].
    - rewrite !bool_decide_eq_true_2 by done.
      rewrite Hms. unfold mret, M_ret. cbn [fill fold_left].
      rewrite insert_id by done. rewrite app_nil_r. by destruct w.
    - rewrite !bool_decide_eq_false_2 by done.
      unfold print, modify.
      erewrite bind_ok by reflexivity.
      by erewrite for_each_fill by exact Hd. }
  rewrite (bind_ok _ _ _ _ _ Hloop).
  assert (Hd' : heap w1 !! df = Some d') by (cbn; by rewrite lookup_insert_eq).
  destruct (project_cols_total d' FINAL_DWC_SCHEMA) as (cols & Hp & _).
  { intros c Hc. unfold d'. destruct (decide (c ∈ columns d)) as [Hin|Hin].
    - rewrite fill_get_other; [by apply get_is_Some |].
      unfold ms. rewrite elem_of_missing_cols by done. tauto.
    - rewrite fill_get_missing; [eauto |].
      unfold ms. by rewrite elem_of_missing_cols. }
  exists (mkDF (df_len d') cols).
  split; [unfold project; by rewrite Hp |].
  unfold getitem_list.
  rewrite (bind_ok _ _ _ _ _ (read_live _ _ _ Hd')).
  unfold project. rewrite Hp. cbn [mbind result_bind].
  erewrite bind_ok by reflexivity. reflexivity.
Qed.
End FrameMore.

(** X16.  [enforce_schema_order] modifies its argument in place: the input
    frame gains the missing schema columns after its own columns, which
    keep their cells; the result is a different object, and no other
    object of the store is touched. *)
Theorem enforce_schema_order_input
    (list_of_set : gset string -> list string)
    (w : Frame.world) (df : Frame.loc) (d : Frame.DataFrame) :
  Schema.set_order list_of_set ->
  Frame.heap w !! df = Some d ->
  exists out w' d',
    Schema.enforce_schema_order list_of_set df w = (Ok out, w') /\
    out <> df /\
    Frame.heap w' !! df = Some d' /\
    Frame.columns d' = Frame.columns d ++ Schema.missing_cols list_of_set d /\
    (forall c, c ∈ Frame.columns d -> Frame.get d' c = Frame.get d c) /\
    (forall c, c ∈ Schema.missing_cols list_of_set d ->
       Frame.get d' c = Ok (replicate (Frame.df_len d) PyNone)) /\
    (forall l, l <> df -> l <> out -> Frame.heap w' !! l = Frame.heap w !! l).
Proof.
  intros Ho Hd.
  destruct (enforce_schema_order_store list_of_set Ho w df d Hd) as (dO & _ & Hrun).
  eexists _, _, _. split; [exact Hrun |].
  assert (Hne : fresh (dom (<[df := Schema.fill (Schema.missing_cols list_of_set d) d]>
                               (Frame.heap w))) <> df).
  { apply (fresh_not_live _ _ (Schema.fill (Schema.missing_cols list_of_set d) d)).
    by rewrite lookup_insert_eq. }
  split; [exact Hne |]. cbn [Frame.heap].
  split; [by rewrite lookup_insert_ne, lookup_insert_eq |].
  split.
  { apply fill_columns; [by apply missing_cols_NoDup |].
    intros c Hc. by apply elem_of_missing_cols in Hc as [_ Hc]. }
  split.
  { intros c Hc. apply fill_get_other. rewrite elem_of_missing_cols by done. tauto. }
  split.
  { intros c Hc. by apply fill_get_missing. }
  intros l Hl1 Hl2. by rewrite !lookup_insert_ne.
Qed.

Lemma enforce_schema_order_input_witness :
  exists out w' d',
    Schema.enforce_schema_order elements 0%nat Samples.one_frame = (Ok out, w') /\
    out <> 0%nat /\
    Frame.heap w' !! 0%nat = Some d' /\
    Frame.columns d'
    = Frame.columns Samples.two_rows ++ Schema.missing_cols elements Samples.two_rows.
Proof.
  destruct (enforce_schema_order_input elements Samples.one_frame 0%nat
              Samples.two_rows (fun X => reflexivity (elements X))
              (lookup_singleton_eq _ _))
    as (out & w' & d' & H1 & H2 & H3 & H4 & _).
  exists out, w', d'. split; [exact H1 |]. split; [exact H2 |].
  split; [exact H3 | exact H4].
Defined.

(** X17.  On a frame whose columns are already the schema, in order, the
    projection prints nothing, leaves the input as it is and returns an
    equal frame: projecting a projected frame changes nothing. *)
Theorem enforce_schema_order_fixed
    (list_of_set : gset string -> list string)
    (w : Frame.world) (df : Frame.loc) (d : Frame.DataFrame) :
  Schema.set_order list_of_set ->
  Frame.heap w !! df = Some d ->
  Frame.columns d = Schema.FINAL_DWC_SCHEMA ->
  exists out w',
    Schema.enforce_schema_order list_of_set df w = (Ok out, w') /\
    Frame.heap w' !! out = Some d /\
    Frame.heap w' !! df = Some d /\
    Frame.stdout w' = Frame.stdout w.
Proof.
  intros Ho Hd Hcols.
  destruct (enforce_schema_order_store list_of_set Ho w df d Hd) as (dO & Hp & Hrun).
  assert (Hms : Schema.missing_cols list_of_set d = []).
  { apply missing_cols_none; [done |]. intros c Hc. by rewrite Hcols. }
  rewrite Hms in *. cbn [Schema.fill fold_left] in *.
  rewrite <- Hcols in Hp. rewrite project_self in Hp
    by (rewrite Hcols; apply schema_NoDup).
  injection Hp as <-.
  eexists _, _. split; [exact Hrun |]. cbn [Frame.heap Frame.stdout].
  split; [by rewrite lookup_insert_eq |].
  split.
  - rewrite lookup_insert_ne, lookup_insert_eq; [done |].
    apply (fresh_not_live _ _ d). by rewrite lookup_insert_eq.
  - rewrite bool_decide_eq_true_2 by done. by rewrite app_nil_r.
Qed.

Lemma enforce_schema_order_fixed_witness :
  exists out w',
    Schema.enforce_schema_order elements 0%nat
      (Frame.mkWorld {[0%nat := Samples.schema_frame]} []) = (Ok out, w') /\
    Frame.heap w' !! out = Some Samples.schema_frame /\
    Frame.stdout w' = [].
Proof.
  destruct (enforce_schema_order_fixed elements
              (Frame.mkWorld {[0%nat := Samples.schema_frame]} []) 0%nat
              Samples.schema_frame (fun X => reflexivity (elements X))
              (lookup_singleton_eq _ _) eq_refl)
    as (out & w' & H1 & H2 & _ & H3).
  exists out, w'. split; [exact H1 |]. split; [exact H2 | exact H3].
Defined.

Section FailureProofs.
Import Frame.

Lemma getitem_missing w l d c :
  heap w !! l = Some d -> c ∉ columns d ->
  getitem l c w = (Raise (KeyError c), w).
Proof. intros Hd Hc. by rewrite (getitem_live _ _ _ _ Hd), get_missing. Qed.

Lemma assoc_set_same {V} k (v : V) l : assoc_get k l = Some v -> assoc_set k v l = l.
Proof.
  induction l as [|[k0 v0] l IH]; [done |]. cbn [assoc_get assoc_set].
  destruct (decide (k = k0)) as [->|Hne].
  - rewrite !bool_decide_eq_true_2 by done. by intros [= ->].
  - rewrite !bool_decide_eq_false_2 by done. intros H. by rewrite IH.
Qed.

Lemma set_same d c v : get d c = Ok v -> set d c v = d.
Proof.
  unfold get, set. destruct (assoc_get c (df_cols d)) as [v'|] eqn:E; [| done].
  intros [= ->]. rewrite (assoc_set_same _ _ _ E). by destruct d.
Qed.

Lemma project_cols_set_other d c v names :
  c ∉ names -> project_cols (set d c v) names = project_cols d names.
Proof.
  induction names as [|n names IH]; intros H; [done |].
  apply not_elem_of_cons in H as [Hne Hin]. cbn [project_cols].
  rewrite get_set_ne by done. by rewrite IH.
Qed.
End FailureProofs.

(** X18.  [add_occurrence] on a frame that lacks one of the six identifier
    columns raises [KeyError] for a lacking column and leaves the store as
    it was: neither [occurrenceID] nor [occurrenceStatus] is written. *)
Theorem add_occurrence_missing_column
    (float_str : spec_float -> string) (dtype_of : string -> Occurrence.dtype)
    (w : Frame.world) (df : Frame.loc) (d : Frame.DataFrame) (c : string) :
  Frame.heap w !! df = Some d ->
  c ∈ Occurrence.id_columns ->
  c ∉ Frame.columns d ->
  exists k,
    k ∈ Occurrence.id_columns /\ (k ∉ Frame.columns d) /\
    Occurrence.add_occurrence float_str dtype_of df w = (Raise (KeyError k), w).
Proof.
  intros Hd Hin Hc. unfold Occurrence.add_occurrence.
  rewrite (bind_ok _ _ _ _ _ (read_live _ _ _ Hd)).
  destruct (project_cols_missing d c _ Hin Hc) as (k & Hk & Hkd & He).
  exists k. split; [done |]. split; [done |].
  unfold Frame.project. rewrite He. reflexivity.
Qed.

Lemma add_occurrence_missing_column_witness :
  exists k,
    k ∈ Occurrence.id_columns /\ (k ∉ Frame.columns Samples.two_rows) /\
    Occurrence.add_occurrence (fun _ => "nan") Samples.id_dtypes 0%nat
      Samples.one_frame
    = (Raise (KeyError k), Samples.one_frame).
Proof.
  apply (add_occurrence_missing_column (fun _ => "nan") Samples.id_dtypes
           Samples.one_frame 0%nat Samples.two_rows "datasetID"
           (lookup_singleton_eq _ _)).
  - unfold Occurrence.id_columns. elem_here.
  - unfold Frame.columns. cbn. not_elem.
Defined.

(** X19.  When a count column is missing the split raises [KeyError] for
    it.  Without [count_absolute] the input frame is untouched; without
    [count_relative] the input frame has already been turned into the
    absolute variant when the exception is raised. *)
Theorem split_missing_count_column
    (w : Frame.world) (df : Frame.loc) (d : Frame.DataFrame) :
  Frame.heap w !! df = Some d ->
  ("count_absolute" ∉ Frame.columns d ->
   exists w',
     Split.split_relative_absolute_counts df w
       = (Raise (KeyError "count_absolute"), w') /\
     Frame.heap w' !! df = Some d) /\
  (forall ca,
     Frame.get d "count_absolute" = Ok ca ->
     "count_relative" ∉ Frame.columns d ->
     exists w',
       Split.split_relative_absolute_counts df w
         = (Raise (KeyError "count_relative"), w') /\
       Frame.heap w' !! df
       = Some (Frame.set_scalar
                 (Frame.set_scalar (Frame.set d "measurementValue" ca)
                    "measurementUnit" (PyStr "#"))
                 "measurementType" (PyStr "absolute count"))).
Proof.
  intros Hd. pose proof (fresh_not_live _ _ _ Hd) as Hne.
  unfold Split.split_relative_absolute_counts. split.
  - intros Hc. rewrite (bind_ok _ _ _ _ _ (copy_live _ _ _ Hd)).
    erewrite bind_raise; last first.
    { apply (getitem_missing _ _ d); [| done].
      cbn [Frame.heap]. by rewrite lookup_insert_ne. }
    eexists. split; [reflexivity |]. cbn [Frame.heap].
    by rewrite lookup_insert_ne.
  - intros ca Hca Hc. rewrite (bind_ok _ _ _ _ _ (copy_live _ _ _ Hd)).
    erewrite bind_ok; last first.
    { erewrite getitem_live; [by rewrite Hca |]. cbn [Frame.heap].
      by rewrite lookup_insert_ne. }
    erewrite bind_ok; last first.
    { eapply setitem_live. cbn [Frame.heap]. by rewrite lookup_insert_ne. }
    erewrite bind_ok; last first.
    { eapply setitem_scalar_live. cbn [Frame.heap]. by rewrite lookup_insert_eq. }
    erewrite bind_ok; last first.
    { eapply setitem_scalar_live. cbn [Frame.heap]. by rewrite lookup_insert_eq. }
    erewrite bind_raise; last first.
    { apply (getitem_missing _ _ d); [| done]. cbn [Frame.heap].
      rewrite !lookup_insert_ne by done. by rewrite lookup_insert_eq. }
    eexists. split; [reflexivity |]. cbn [Frame.heap].
    by rewrite lookup_insert_eq.
Qed.

Lemma split_missing_count_column_witness :
  exists w',
    Split.split_relative_absolute_counts 0%nat
      (Frame.mkWorld {[0%nat := Samples.absolute_only]} [])
    = (Raise (KeyError "count_relative"), w') /\
    Frame.heap w' !! 0%nat
    = Some (Frame.set_scalar
              (Frame.set_scalar
                 (Frame.set Samples.absolute_only "measurementValue"
                    [PyInt 10; PyInt 30])
                 "measurementUnit" (PyStr "#"))
              "measurementType" (PyStr "absolute count")).
Proof.
  apply (proj2 (split_missing_count_column
                  (Frame.mkWorld {[0%nat := Samples.absolute_only]} []) 0%nat
                  Samples.absolute_only (lookup_singleton_eq _ _))
           [PyInt 10; PyInt 30] eq_refl).
  unfold Frame.columns. cbn. not_elem.
Defined.

(** X20.  [add_occurrence] twice is [add_occurrence] once: the identifier
    is computed from the six identifier columns, none of which the
    function writes, so the second call stores what is already there. *)
Theorem add_occurrence_twice
    (float_str : spec_float -> string) (dtype_of : string -> Occurrence.dtype)
    (w : Frame.world) (df : Frame.loc) (d : Frame.DataFrame) :
  Frame.heap w !! df = Some d ->
  Forall (fun c => c ∈ Frame.columns d) Occurrence.id_columns ->
  exists w',
    Occurrence.add_occurrence float_str dtype_of df w = (Ok df, w') /\
    Occurrence.add_occurrence float_str dtype_of df w' = (Ok df, w').
Proof.
  intros Hd Hc.
  destruct (project_present d Occurrence.id_columns Hc) as (cols & Hs & Hp).
  eexists. split; [by apply add_occurrence_run |].
  set (ids := Occurrence.apply_rows dtype_of
                (Occurrence.occurrence_id float_str) _).
  set (d1 := Frame.set_scalar (Frame.set d "occurrenceID" ids)
               "occurrenceStatus" (PyStr "present")).
  assert (Hs1 :
    Frame.project d1 Occurrence.id_columns = Ok (Frame.mkDF (Frame.df_len d) cols)).
  { unfold Frame.project, d1, Frame.set_scalar.
    rewrite !project_cols_set_other, Hp; [done | |];
      unfold Occurrence.id_columns; not_elem. }
  erewrite add_occurrence_run;
    [| cbn [Frame.heap]; by rewrite lookup_insert_eq | exact Hs1].
  cbn [Frame.heap Frame.stdout]. rewrite insert_insert_eq. f_equal. f_equal. f_equal.
  fold ids.
  assert (Frame.set d1 "occurrenceID" ids = d1) as ->.
  { apply set_same. unfold d1, Frame.set_scalar.
    rewrite get_set_ne by done. by rewrite get_set_eq. }
  unfold Frame.set_scalar. apply set_same. unfold d1, Frame.set_scalar.
  by rewrite get_set_eq.
Qed.

Lemma add_occurrence_twice_witness :
  exists w',
    Occurrence.add_occurrence (fun _ => "nan") Samples.id_dtypes 0%nat
      (Frame.mkWorld {[0%nat := Samples.id_frame (PyInt 562) (PyInt 1224)]} [])
    = (Ok 0%nat, w') /\
    Occurrence.add_occurrence (fun _ => "nan") Samples.id_dtypes 0%nat w'
    = (Ok 0%nat, w').
Proof.
  apply (add_occurrence_twice (fun _ => "nan") Samples.id_dtypes
           (Frame.mkWorld {[0%nat := Samples.id_frame (PyInt 562) (PyInt 1224)]} [])
           0%nat (Samples.id_frame (PyInt 562) (PyInt 1224))).
  - reflexivity.
  - repeat constructor; elem_here.
Defined.

(** ** The column mappings *)

Section MappingsProofs.
Import Frame Mappings.

Lemma copy_column_run w df d new old v :
  heap w !! df = Some d ->
  get d old = Ok v ->
  copy_column df new old w
  = (Ok tt, mkWorld (<[df := set d new v]> (heap w)) (stdout w)).
Proof.
  intros Hd Hv. unfold copy_column.
  erewrite bind_ok; last first.
  { rewrite (getitem_live _ _ _ _ Hd), Hv. reflexivity. }
  by rewrite (setitem_live _ _ _ _ _ Hd).
Qed.

Lemma copy_column_raise w df d new old :
  heap w !! df = Some d ->
  old ∉ columns d ->
  copy_column df new old w = (Raise (KeyError old), w).
Proof.
  intros Hd Hc. unfold copy_column.
  erewrite bind_raise; [reflexivity |].
  rewrite (getitem_live _ _ _ _ Hd). unfold get.
  destruct (assoc_get old (df_cols d)) as [v|] eqn:E; [| done].
  exfalso. apply Hc, assoc_get_Some. eauto.
Qed.

(** The loop of assignments, of which [parse_ena] and [parse_mgnify] are
    instances. *)
Lemma copy_columns_run df pairs : forall w d d',
  heap w !! df = Some d ->
  renamed pairs d = Ok d' ->
  for_each (fun _ p => copy_column df p.1 p.2) tt pairs w
  = (Ok tt, mkWorld (<[df := d']> (heap w)) (stdout w)).
Proof.
  induction pairs as [|[new old] pairs IH]; intros w d d' Hd Hr.
  - injection Hr as <-. cbn [for_each]. unfold mret, M_ret.
    rewrite insert_id by done. by destruct w.
  - cbn [renamed foldM] in Hr. destruct (get d old) as [v|] eqn:Hv; [| done].
    cbn [mbind result_bind] in Hr. cbn [for_each fst snd].
    erewrite bind_ok by (by eapply copy_column_run).
    erewrite IH; [| cbn [heap]; by rewrite lookup_insert_eq | exact Hr].
    cbn [heap stdout]. by rewrite insert_insert_eq.
Qed.

Lemma renamed_app l k d :
  renamed (l ++ k) d = renamed l d ≫= renamed k.
Proof.
  unfold renamed. revert d. induction l as [|[new old] l IH]; intros d; [done |].
  cbn [app foldM]. destruct (get d old) as [v|]; [| done].
  cbn [mbind result_bind]. apply IH.
Qed.

Lemma bind_assoc {S A B C} (m : M S A) (f : A -> M S B) (g : B -> M S C) s :
  ((m ≫= f) ≫= g) s = (m ≫= fun a => f a ≫= g) s.
Proof. unfold mbind, M_bind. by destruct (m s) as [[a|e] s']. Qed.

Lemma parse_ena_loop df w :
  parse_ena df w
  = (for_each (fun _ p => copy_column df p.1 p.2) tt (take 7 renames)
     ≫= fun _ => mret df) w.
Proof.
  unfold parse_ena. cbn [take renames for_each fst snd].
  rewrite !bind_assoc. unfold mbind, M_bind.
  repeat match goal with
         | |- context [copy_column ?a ?b ?c ?s] =>
             destruct (copy_column a b c s) as [[[]|?] ?]; [| reflexivity]
         end.
  reflexivity.
Qed.

Lemma parse_mgnify_loop df w :
  parse_mgnify df w
  = (for_each (fun _ p => copy_column df p.1 p.2) tt (drop 7 renames)
     ≫= fun _ => mret df) w.
Proof.
  unfold parse_mgnify. cbn [drop renames for_each fst snd].
  rewrite !bind_assoc. unfold mbind, M_bind.
  repeat match goal with
         | |- context [copy_column ?a ?b ?c ?s] =>
             destruct (copy_column a b c s) as [[[]|?] ?]; [| reflexivity]
         end.
  reflexivity.
Qed.

(** No assignment reads a column that an assignment writes. *)
Lemma renames_apart new old :
  (new, old) ∈ renames -> old ∉ map fst renames.
Proof.
  intros H. unfold renames in H.
  repeat (apply elem_of_cons in H; destruct H as [[= -> ->]|H];
          [apply (bool_decide_eq_false_1 _); reflexivity |]).
  by apply elem_of_nil in H.
Qed.

Lemma renamed_total pairs : forall d,
  (forall new old, (new, old) ∈ pairs -> old ∈ columns d) ->
  exists d', renamed pairs d = Ok d' /\
    df_len d' = df_len d /\
    (forall c, c ∈ columns d -> c ∈ columns d') /\
    (forall c, c ∉ map fst pairs -> get d' c = get d c) /\
    (NoDup (map fst pairs) ->
     (forall new old, (new, old) ∈ pairs -> old ∉ map fst pairs) ->
     forall new old, (new, old) ∈ pairs -> get d' new = get d old).
Proof.
  induction pairs as [|[new old] pairs IH]; intros d H.
  - exists d. split; [done |]. split; [done |]. split; [done |]. split; [done |].
    intros _ _ n o Hin. by apply elem_of_nil in Hin.
  - destruct (get_is_Some d old) as [v Hv]; [apply (H new); by left |].
    destruct (IH (set d new v)) as (d' & Hr & Hl & Hcs & Ho & Hn).
    { intros n o Hin. rewrite columns_set.
      assert (o ∈ columns d) by (apply (H n); by right).
      destruct (bool_decide _); [done |]. apply elem_of_app. by left. }
    exists d'. cbn [renamed foldM]. rewrite Hv. cbn [mbind result_bind].
    split; [exact Hr |]. split; [done |].
    split.
    { intros c Hc. apply Hcs. rewrite columns_set.
      destruct (bool_decide _); [done |]. apply elem_of_app. by left. }
    split.
    { intros c Hc. cbn [map fst] in Hc. apply not_elem_of_cons in Hc as [Hne Hc].
      rewrite (Ho c Hc). by apply get_set_ne. }
    intros Hnd Hap n o Hin. cbn [map fst] in Hnd.
    apply NoDup_cons in Hnd as [Hnew Hnd].
    apply elem_of_cons in Hin as [[= -> ->]|Hin].
    + rewrite (Ho new Hnew). by rewrite get_set_eq.
    + assert (Hne : o <> new).
      { intros ->. apply (Hap n new); [by right | by left]. }
      assert (Hap' : forall n' o', (n', o') ∈ pairs -> o' ∉ map fst pairs).
      { intros n' o' Hin' Ho'. apply (Hap n' o'); [by right | by right]. }
      rewrite (Hn Hnd Hap' n o Hin). by apply get_set_ne.
Qed.
End MappingsProofs.

(** X21.  On a frame that has the columns that [parse_ena] and
    [parse_mgnify] read (the template has them all), the two mappings do
    not raise; every column they write holds the cells of the column it
    is mapped from, as they were on entry, because no mapping reads a
    column that a mapping writes; the other columns are untouched; and the
    six identifier columns of [add_occurrence] are then present. *)
Theorem parse_ena_mgnify_columns
    (w : Frame.world) (df : Frame.loc) (d : Frame.DataFrame) :
  Frame.heap w !! df = Some d ->
  (forall new old, (new, old) ∈ Mappings.renames -> old ∈ Frame.columns d) ->
  (forall new old, (new, old) ∈ Mappings.renames ->
     old ∈ Mappings.template_columns) /\
  exists w1 w2 d2,
    Mappings.parse_ena df w = (Ok df, w1) /\
    Mappings.parse_mgnify df w1 = (Ok df, w2) /\
    Frame.heap w2 !! df = Some d2 /\
    Frame.stdout w2 = Frame.stdout w /\
    Frame.df_len d2 = Frame.df_len d /\
    (forall new old, (new, old) ∈ Mappings.renames ->
       Frame.get d2 new = Frame.get d old) /\
    (forall c, c ∉ map fst Mappings.renames -> Frame.get d2 c = Frame.get d c) /\
    Forall (fun c => c ∈ Frame.columns d2) Occurrence.id_columns.
Proof.
  intros Hd Hcols. split.
  { intros new old H. unfold Mappings.renames in H.
    repeat (apply elem_of_cons in H; destruct H as [[= -> ->]|H];
            [unfold Mappings.template_columns; elem_here |]).
    by apply elem_of_nil in H. }
  destruct (renamed_total Mappings.renames d Hcols)
    as (d2 & Hr & Hl & Hcs & Ho & Hn).
  rewrite <- (take_drop 7 Mappings.renames), renamed_app in Hr.
  destruct (Mappings.renamed (take 7 Mappings.renames) d) as [d1|] eqn:Hr1; [| done].
  cbn [mbind result_bind] in Hr.
  eexists _, _, d2. split.
  { rewrite parse_ena_loop.
    erewrite bind_ok by (by eapply copy_columns_run). reflexivity. }
  split.
  { rewrite parse_mgnify_loop.
    erewrite bind_ok; [reflexivity |].
    eapply copy_columns_run; [| exact Hr]. cbn [Frame.heap].
    by rewrite lookup_insert_eq. }
  cbn [Frame.heap Frame.stdout].
  split; [by rewrite lookup_insert_eq |]. split; [done |]. split; [done |].
  assert (Hall : forall new old, (new, old) ∈ Mappings.renames ->
                   Frame.get d2 new = Frame.get d old).
  { apply Hn; [| apply renames_apart].
    apply (bool_decide_eq_true_1 (NoDup (map fst Mappings.renames))). by_vm. }
  split; [exact Hall |]. split; [exact Ho |].
  assert (Hnew : forall new old, (new, old) ∈ Mappings.renames ->
                   new ∈ Frame.columns d2).
  { intros new old Hin. destruct (get_is_Some d old) as [v Hv]; [by eapply Hcols |].
    apply (get_is_Ok d2 new v). by rewrite (Hall new old Hin). }
  unfold Occurrence.id_columns.
  repeat (constructor;
          [eapply Hnew; unfold Mappings.renames; elem_here |]).
  constructor.
Qed.

Lemma parse_ena_mgnify_columns_witness :
  exists w0 df w1 w2 d2,
    Mappings.template_dataframe (Frame.mkWorld ∅ []) = (Ok df, w0) /\
    Mappings.parse_ena df w0 = (Ok df, w1) /\
    Mappings.parse_mgnify df w1 = (Ok df, w2) /\
    Frame.heap w2 !! df = Some d2 /\
    Forall (fun c => c ∈ Frame.columns d2) Occurrence.id_columns.
Proof.
  eexists _, _. 
  destruct (parse_ena_mgnify_columns
              (Frame.mkWorld
                 {[fresh (dom (∅ : gmap nat Frame.DataFrame))
                   := Frame.mkDF 0 (map (fun c => (c, []))
                                        Mappings.template_columns)]} [])
              (fresh (dom (∅ : gmap nat Frame.DataFrame)))
              (Frame.mkDF 0 (map (fun c => (c, [])) Mappings.template_columns)))
    as (_ & w1 & w2 & d2 & H1 & H2 & H3 & _ & _ & _ & _ & H4).
  - apply lookup_singleton_eq.
  - intros new old H. unfold Mappings.renames in H.
    repeat (apply elem_of_cons in H; destruct H as [[= -> ->]|H];
            [unfold Frame.columns; cbn; elem_here |]).
    by apply elem_of_nil in H.
  - exists w1, w2, d2. split; [reflexivity |].
    split; [exact H1 |]. split; [exact H2 |]. split; [exact H3 | exact H4].
Defined.

(** ** Feature names and the selection *)

Section NameProofs.

Lemma count_replace a b s : a <> b -> Str.count a (Str.replace a b s) = 0%nat.
Proof.
  intros Hne. induction s as [|c s IH]; [done |]. cbn [Str.replace Str.count].
  rewrite IH. destruct (decide (c = a)) as [->|Hc].
  - rewrite (bool_decide_eq_true_2 (a = a)) by done.
    by rewrite bool_decide_eq_false_2 by congruence.
  - rewrite (bool_decide_eq_false_2 (c = a)) by done.
    by rewrite bool_decide_eq_false_2 by done.
Qed.


Lemma annotation_name_total lineage :
  exists seg, Enricher.annotation_name lineage
              = Ok (Str.replace "_" " " (Str.drop 3 seg)).
Proof.
  destruct (split_last_suffix ";" lineage) as (before & seg & Hl & _).
  exists seg. unfold Enricher.annotation_name.
  rewrite split_length. cbn [Nat.ltb Nat.leb]. unfold list_last. by rewrite Hl.
Qed.
End NameProofs.

(** X22.  The derived name never contains an underscore. *)
Theorem annotation_name_no_underscore (lineage : string) :
  exists name,
    Enricher.annotation_name lineage = Ok name /\
    forall i, String.get i name <> Some "_"%char.
Proof.
  destruct (annotation_name_total lineage) as [seg H].
  eexists. split; [exact H |]. apply count_zero_get. by apply count_replace.
Qed.



Section SelectionProofs.
Import Selector Studies.

Lemma select_files_lookup ra meta m rid t :
  select_files ra meta = Ok m ->
  m !! rid = Some t ->
  t ∈ collect_tsv_files meta /\ qualifies ra t = true /\
  first_token t = Some rid /\ rid ∈ ra.
Proof.
  intros Hm Ht. destruct (select_files_last ra meta) as (m' & Hm' & Hl).
  rewrite Hm in Hm'. injection Hm' as <-. rewrite Hl in Ht.
  apply last_bfilter_Some in Ht as [Hin Hc]. unfold candidate in Hc.
  apply andb_true_iff in Hc as [Hq Hf]. apply bool_decide_eq_true in Hf.
  destruct (qualifies_first_token _ _ Hq) as (r & Hr & Hra).
  rewrite Hf in Hr. injection Hr as <-. done.
Qed.
End SelectionProofs.

(** X24.  What steps 3 and 4 select: a resource kept under a run id is one
    of the collected resources, it qualifies, its first token is the run
    id and the run id is a run accession; a run id has a resource exactly
    when some collected resource is a candidate for it; so the resources
    kept are at most as many as the run accessions. *)
Theorem select_files_sound
    (ra : gset string)
    (all_study_metadata : list (string * option (list Batch.page)))
    (m : gmap string Selector.resource) :
  Studies.select_files ra all_study_metadata = Ok m ->
  (forall rid t,
      m !! rid = Some t ->
      t ∈ Studies.collect_tsv_files all_study_metadata /\
      Selector.qualifies ra t = true /\
      Selector.first_token t = Some rid /\ rid ∈ ra) /\
  (forall rid,
      is_Some (m !! rid) <->
      exists t, t ∈ Studies.collect_tsv_files all_study_metadata /\
                Selector.candidate ra rid t = true) /\
  dom m ⊆ ra /\
  size m <= size ra.
Proof.
  intros Hm.
  assert (Hdom : dom m ⊆ ra).
  { intros rid [t Ht]%elem_of_dom.
    by destruct (select_files_lookup _ _ _ _ _ Hm Ht) as (_ & _ & _ & ?). }
  split; [intros rid t; by apply select_files_lookup |].
  split; [| split; [exact Hdom |]].
  - destruct (select_files_last ra all_study_metadata) as (m' & Hm' & Hl).
    rewrite Hm in Hm'. injection Hm' as <-.
    intros rid. rewrite Hl. split.
    + intros [t Ht]. apply last_bfilter_Some in Ht as [Hin Hc]. eauto.
    + intros (t & Hin & Hc).
      destruct (last (List.filter (Selector.candidate ra rid) _)) eqn:E; [eauto |].
      rewrite (last_bfilter_None _ _ E t Hin) in Hc. done.
  - rewrite <- size_dom. by apply subseteq_size.
Qed.

Lemma select_files_sound_witness :
  dom ({["ERR000001" := Selector.named "ERR000001_Merged_SSU_otu.tsv"]}
         : gmap string Selector.resource) ⊆ ({["ERR000001"; "ERR000002"]} : gset string).
Proof.
  apply (select_files_sound {["ERR000001"; "ERR000002"]}
           (Samples.study_with [Selector.named "ERR000001_merged_SSU_OTU.TSV";
                                Selector.named "ERR000001_Merged_SSU_otu.tsv";
                                Selector.named "ERR000001_summary.txt"])
           {["ERR000001" := Selector.named "ERR000001_Merged_SSU_otu.tsv"]}).
  by_vm.
Defined.
